(** * macaroni: the workout-tracking data layer of [backend.py]

    A shallow embedding of [src/backend.py].  The program is written against
    pandas; the embedding therefore has three layers:

    - a small value model of pandas ([value], [Series], [DataFrame]) with the
      operations the program calls (concat, merge, sort_values, groupby and
      agg, the [.dt] accessor, ...);
    - an object store: every [DataFrame] lives at a reference, operations
      that return a frame allocate a new object and [df[c] = ...] writes to
      the object in place, so that aliasing and mutation are visible;
    - the functions of [backend.py], written in a state-and-exception monad
      over that store, statement by statement.

    Modelling conventions, stated once:
    - a [float] is an exact rational, kept in lowest terms ([Qred]);
    - a [Timestamp] is a day number (days since 1970-01-01): the program
      only ever compares dates and takes their year and ISO week;
    - NaN, None, NaT and <NA> are the single value [NaN];
    - dtypes follow pandas 1.x/2.x: a frame without rows does not take part
      in the result dtype of [pd.concat]. *)

From Stdlib Require Import ZArith QArith String List Bool Lia.
From Stdlib Require Import Sorting.Sorted Sorting.Permutation.
From stdpp Require Import base list sets.
Import ListNotations.
Open Scope string_scope.
Open Scope list_scope.
Open Scope Z_scope.

(** ** Values and dtypes *)

Inductive value : Type :=
| NaN
| Int (z : Z)
| Float (q : Q)
| Str (s : string)
| Timestamp (day : Z).

Inductive dtype : Type := object | int64 | float64 | datetime64 | UInt32.

Inductive exn : Type :=
| KeyError (key : string)
| ValueError (msg : string)
| AttributeError (msg : string)
| TypeError (msg : string)
| IndexError (msg : string)
| NameError (msg : string).

Definition dtype_eqb (a b : dtype) : bool :=
  match a, b with
  | object, object | int64, int64 | float64, float64
  | datetime64, datetime64 | UInt32, UInt32 => true
  | _, _ => false
  end.

Definition isna (v : value) : bool :=
  match v with NaN => true | _ => false end.

(** [a == b] on two scalars, as pandas compares the cells of a column with a
    scalar: a missing value equals nothing, numbers compare by value. *)
Definition value_eqb (a b : value) : bool :=
  match a, b with
  | Int x, Int y => x =? y
  | Int x, Float q | Float q, Int x => Qeq_bool (inject_Z x) q
  | Float p, Float q => Qeq_bool p q
  | Str s, Str t => String.eqb s t
  | Timestamp d, Timestamp e => d =? e
  | _, _ => false
  end.

(** The order used by sorting and grouping: missing values last
    ([na_position='last']), numbers by value, strings lexicographically. *)
Definition kind_rank (v : value) : Z :=
  match v with
  | Int _ | Float _ => 0
  | Timestamp _ => 1
  | Str _ => 2
  | NaN => 3
  end.

Definition to_Q (v : value) : Q :=
  match v with
  | Int z => inject_Z z
  | Float q => q
  | _ => 0
  end.

Definition value_compare (a b : value) : comparison :=
  match a, b with
  | NaN, NaN => Eq
  | Str s, Str t => String.compare s t
  | Timestamp d, Timestamp e => Z.compare d e
  | (Int _ | Float _), (Int _ | Float _) => Qcompare (to_Q a) (to_Q b)
  | _, _ => Z.compare (kind_rank a) (kind_rank b)
  end.

Fixpoint lex_compare (xs ys : list value) : comparison :=
  match xs, ys with
  | [], [] => Eq
  | [], _ :: _ => Lt
  | _ :: _, [] => Gt
  | x :: xs', y :: ys' =>
      match value_compare x y with
      | Eq => lex_compare xs' ys'
      | c => c
      end
  end.

Definition lex_leb (xs ys : list value) : bool :=
  match lex_compare xs ys with Gt => false | _ => true end.

(** ** Calendar: the part of [Timestamp] the program looks at *)

Module Calendar.

(** Day number of a civil date (proleptic Gregorian calendar). *)
Definition days_from_civil (y m d : Z) : Z :=
  let y' := if m <=? 2 then y - 1 else y in
  let era := y' / 400 in
  let yoe := y' - era * 400 in
  let mp := (m + 9) mod 12 in
  let doy := (153 * mp + 2) / 5 + d - 1 in
  let doe := yoe * 365 + yoe / 4 - yoe / 100 + doy in
  era * 146097 + doe - 719468.

(** [Timestamp.year]. *)
Definition year (day : Z) : Z :=
  let z := day + 719468 in
  let era := z / 146097 in
  let doe := z - era * 146097 in
  let yoe := (doe - doe / 1460 + doe / 36524 - doe / 146096) / 365 in
  let doy := doe - (365 * yoe + yoe / 4 - yoe / 100) in
  let mp := (5 * doy + 2) / 153 in
  let m := if mp <? 10 then mp + 3 else mp - 9 in
  let y := yoe + era * 400 in
  if m <=? 2 then y + 1 else y.

(** Monday is 0; 1970-01-01 was a Thursday. *)
Definition weekday (day : Z) : Z := (day + 3) mod 7.

(** The Thursday of the ISO week of [day] decides its ISO year and week. *)
Definition iso_thursday (day : Z) : Z := day - weekday day + 3.

(** [Timestamp.isocalendar().year] *)
Definition iso_year (day : Z) : Z := year (iso_thursday day).

(** [Timestamp.isocalendar().week] *)
Definition iso_week (day : Z) : Z :=
  let th := iso_thursday day in
  (th - days_from_civil (year th) 1 1) / 7 + 1.

End Calendar.

(** ** Series and frames *)

Record Series : Type := mkSeries { s_dtype : dtype; s_values : list value }.

(** A row is the ordered dict [{column: value}] the program builds rows
    from; a column a row does not mention reads as missing. *)
Definition row : Type := list (string * value).

Fixpoint get (c : string) (r : row) : value :=
  match r with
  | [] => NaN
  | (k, v) :: r' => if String.eqb c k then v else get c r'
  end.

Record DataFrame : Type := mkDataFrame {
  schema : list (string * dtype);
  rows : list row
}.

Definition columns (df : DataFrame) : list string := map fst (schema df).

Fixpoint dtype_of (c : string) (sch : list (string * dtype)) : option dtype :=
  match sch with
  | [] => None
  | (k, d) :: sch' => if String.eqb c k then Some d else dtype_of c sch'
  end.

Definition has_column (c : string) (df : DataFrame) : bool :=
  match dtype_of c (schema df) with Some _ => true | None => false end.

(** [df.empty]: some axis has length zero. *)
Definition frame_empty (df : DataFrame) : bool :=
  match rows df, schema df with
  | [], _ | _, [] => true
  | _, _ => false
  end.

Definition reindex (cols : list string) (r : row) : row :=
  map (fun c => (c, get c r)) cols.

(** dtype inference of a freshly built column. *)
Definition is_int (v : value) : bool := match v with Int _ => true | _ => false end.
Definition is_num (v : value) : bool :=
  match v with Int _ | Float _ | NaN => true | _ => false end.
Definition is_time (v : value) : bool :=
  match v with Timestamp _ | NaN => true | _ => false end.

Definition infer_dtype (vs : list value) : dtype :=
  if forallb isna vs then object
  else if forallb is_int vs then int64
  else if forallb is_num vs then float64
  else if forallb is_time vs then datetime64
  else object.

(** [pd.DataFrame(records, columns=cols)] *)
Definition frame_of (cols : list string) (recs : list row) : DataFrame :=
  {| schema := map (fun c => (c, infer_dtype (map (get c) recs))) cols;
     rows := map (reindex cols) recs |}.

(** [pd.DataFrame([new_row])] *)
Definition frame_of_record (r : row) : DataFrame := frame_of (map fst r) [r].

(** ** Operations on series *)

Definition mk_float (q : Q) : value := Float (Qred q).

(** Arithmetic on cells.  A missing operand gives a missing result; an
    operand that is no number is outside the model and reads as missing. *)
Definition vmul (a b : value) : value :=
  match a, b with
  | Int x, Int y => Int (x * y)
  | Int _, Float _ | Float _, Int _ | Float _, Float _ => mk_float (to_Q a * to_Q b)
  | _, _ => NaN
  end.

Definition vadd (a b : value) : value :=
  match a, b with
  | Int x, Int y => Int (x + y)
  | Int _, Float _ | Float _, Int _ | Float _, Float _ => mk_float (to_Q a + to_Q b)
  | _, _ => NaN
  end.

(** True division: the result is a float also for two integers. *)
Definition vdiv (a b : value) : value :=
  match a, b with
  | (Int _ | Float _), (Int _ | Float _) => mk_float (to_Q a / to_Q b)
  | _, _ => NaN
  end.

Definition arith_dtype (a b : dtype) : dtype :=
  match a, b with
  | int64, int64 => int64
  | _, _ => float64
  end.

Fixpoint zip_with_values (f : value -> value -> value) (xs ys : list value)
  : list value :=
  match xs, ys with
  | x :: xs', y :: ys' => f x y :: zip_with_values f xs' ys'
  | _, _ => []
  end.

(** [a * b] on two columns of one frame *)
Definition series_mul (a b : Series) : Series :=
  mkSeries (arith_dtype (s_dtype a) (s_dtype b))
           (zip_with_values vmul (s_values a) (s_values b)).

(** [a / x] for a float scalar [x] *)
Definition series_div_scalar (a : Series) (x : Q) : Series :=
  mkSeries float64 (map (fun v => vdiv v (Float x)) (s_values a)).

(** [n + a] for an integer scalar [n] *)
Definition series_radd_scalar (n : Z) (a : Series) : Series :=
  mkSeries (s_dtype a) (map (fun v => vadd (Int n) v) (s_values a)).

(** [a == x] for a scalar [x]: a boolean mask *)
Definition series_eq (a : Series) (x : value) : list bool :=
  map (fun v => value_eqb v x) (s_values a).

Fixpoint mask_and (m1 m2 : list bool) : list bool :=
  match m1, m2 with
  | a :: m1', b :: m2' => (a && b) :: mask_and m1' m2'
  | _, _ => []
  end.

Definition mask_any (m : list bool) : bool := existsb (fun b => b) m.

(** Rows selected by a boolean mask. *)
Fixpoint select {A : Type} (m : list bool) (l : list A) : list A :=
  match m, l with
  | b :: m', x :: l' => if b then x :: select m' l' else select m' l'
  | _, _ => []
  end.

(** Reductions skip missing values. *)
Definition vmax (a b : value) : value :=
  match a, b with
  | NaN, _ => b
  | _, NaN => a
  | _, _ => match value_compare a b with Lt => b | _ => a end
  end.

Definition series_max (vs : list value) : value := fold_left vmax vs NaN.

Definition vadd_skipna (acc v : value) : value :=
  match v with NaN => acc | _ => vadd acc v end.

(** The sum of no values is 0. *)
Definition series_sum (vs : list value) : value :=
  fold_left vadd_skipna vs (Int 0).

Definition series_count (vs : list value) : value :=
  Int (Z.of_nat (length (List.filter (fun v => negb (isna v)) vs))).

(** [int(x)] *)
Definition int (v : value) : exn + Z :=
  match v with
  | Int z => inr z
  | Float q => inr (Z.quot (Qnum q) (Zpos (Qden q)))
  | NaN => inl (ValueError "cannot convert float NaN to integer")
  | Str _ => inl (ValueError "invalid literal for int()")
  | Timestamp _ => inl (TypeError "int() argument must be a number")
  end.

(** [s.iloc[0]] *)
Definition iloc0 (s : Series) : exn + value :=
  match s_values s with
  | v :: _ => inr v
  | [] => inl (IndexError "single positional indexer is out-of-bounds")
  end.

(** The [.dt] accessor exists on datetime columns only: it is chosen by the
    dtype of the column, never by its values. *)
Definition dt (s : Series) : exn + list value :=
  match s_dtype s with
  | datetime64 => inr (s_values s)
  | _ => inl (AttributeError "Can only use .dt accessor with datetimelike values")
  end.

Definition over_days (f : Z -> Z) (v : value) : value :=
  match v with Timestamp d => Int (f d) | _ => NaN end.

(** [s.dt.isocalendar().week] *)
Definition dt_isocalendar_week (s : Series) : exn + Series :=
  match dt s with
  | inr vs => inr (mkSeries UInt32 (map (over_days Calendar.iso_week) vs))
  | inl e => inl e
  end.

(** [s.dt.year] *)
Definition dt_year (s : Series) : exn + Series :=
  match dt s with
  | inr vs => inr (mkSeries (if forallb (fun v => negb (isna v)) vs
                             then int64 else float64)
                            (map (over_days Calendar.year) vs))
  | inl e => inl e
  end.

(** ** Operations on frames *)

(** [df[c]] *)
Definition column (c : string) (df : DataFrame) : exn + Series :=
  match dtype_of c (schema df) with
  | Some d => inr (mkSeries d (map (get c) (rows df)))
  | None => inl (KeyError c)
  end.

Fixpoint set_cell (c : string) (v : value) (r : row) : row :=
  match r with
  | [] => [(c, v)]
  | (k, w) :: r' => if String.eqb c k then (k, v) :: r' else (k, w) :: set_cell c v r'
  end.

Fixpoint set_dtype (c : string) (d : dtype) (sch : list (string * dtype))
  : list (string * dtype) :=
  match sch with
  | [] => [(c, d)]
  | (k, e) :: sch' =>
      if String.eqb c k then (k, d) :: sch' else (k, e) :: set_dtype c d sch'
  end.

Fixpoint set_cells (c : string) (vs : list value) (rs : list row) : list row :=
  match rs, vs with
  | r :: rs', v :: vs' => set_cell c v r :: set_cells c vs' rs'
  | r :: rs', [] => set_cell c NaN r :: set_cells c [] rs'
  | [], _ => []
  end.

(** The frame after [df[c] = s]: the column is replaced where it stands,
    or added as the last one. *)
Definition set_column (c : string) (s : Series) (df : DataFrame) : DataFrame :=
  {| schema := set_dtype c (s_dtype s) (schema df);
     rows := set_cells c (s_values s) (rows df) |}.

Definition unify_dtype (a b : dtype) : dtype :=
  if dtype_eqb a b then a
  else match a, b with
       | int64, float64 | float64, int64 => float64
       | _, _ => object
       end.

Definition live_dtype (c : string) (df : DataFrame) : option dtype :=
  match rows df with
  | [] => None
  | _ :: _ => dtype_of c (schema df)
  end.

Definition concat_dtype (c : string) (a b : DataFrame) : dtype :=
  match live_dtype c a, live_dtype c b with
  | Some x, Some y => unify_dtype x y
  | Some x, None | None, Some x => x
  | None, None =>
      match dtype_of c (schema a), dtype_of c (schema b) with
      | Some x, Some y => unify_dtype x y
      | Some x, None | None, Some x => x
      | None, None => object
      end
  end.

Definition mem (c : string) (cs : list string) : bool :=
  existsb (String.eqb c) cs.

(** [pd.concat([a, b], ignore_index=True)] *)
Definition concat_frames (a b : DataFrame) : DataFrame :=
  let cols := columns a ++ List.filter (fun c => negb (mem c (columns a))) (columns b) in
  {| schema := map (fun c => (c, concat_dtype c a b)) cols;
     rows := map (reindex cols) (rows a) ++ map (reindex cols) (rows b) |}.

(** Join keys: unlike [==], two missing keys match each other. *)
Definition key_match (a b : value) : bool :=
  (isna a && isna b) || value_eqb a b.

Definition suffixed (overlap : list string) (suffix c : string) : string :=
  if mem c overlap then (c ++ suffix)%string else c.

Definition matches (on : string) (x : row) (right : list row) : list row :=
  List.filter (fun y => key_match (get on x) (get on y)) right.

(** The rows of a left join: every left row once per matching right row, in
    the order of the left frame, and once with missing right columns when
    nothing matches. *)
Definition merge_rows (on : string) (lcols rcols : list (string * string))
  (left right : list row) : list row :=
  flat_map (fun x =>
    let lpart := map (fun '(c, c') => (c', get c x)) lcols in
    match matches on x right with
    | [] => [lpart ++ map (fun '(c, c') => (c', NaN)) rcols]
    | ys => map (fun y => lpart ++ map (fun '(c, c') => (c', get c y)) rcols) ys
    end) left.

(** [l.merge(r, on=on, how="left", suffixes=(ls, rs))] *)
Definition merge_left (l r : DataFrame) (on ls rs : string) : exn + DataFrame :=
  if has_column on l && has_column on r then
    let overlap :=
      List.filter (fun c => mem c (columns r) && negb (String.eqb c on)) (columns l) in
    let rsch := List.filter (fun cd => negb (String.eqb (fst cd) on)) (schema r) in
    let lcols := map (fun c => (c, suffixed overlap ls c)) (columns l) in
    let rcols := map (fun cd => (fst cd, suffixed overlap rs (fst cd))) rsch in
    inr {| schema := map (fun cd => (suffixed overlap ls (fst cd), snd cd)) (schema l)
                     ++ map (fun cd => (suffixed overlap rs (fst cd), snd cd)) rsch;
           rows := merge_rows on lcols rcols (rows l) (rows r) |}
  else inl (KeyError on).

Fixpoint rename_col (m : list (string * string)) (c : string) : string :=
  match m with
  | [] => c
  | (old, new) :: m' => if String.eqb c old then new else rename_col m' c
  end.

(** [df.rename(columns=m)] *)
Definition rename_columns (m : list (string * string)) (df : DataFrame) : DataFrame :=
  {| schema := map (fun cd => (rename_col m (fst cd), snd cd)) (schema df);
     rows := map (map (fun kv => (rename_col m (fst kv), snd kv))) (rows df) |}.

(** [df.loc[mask]] *)
Definition loc_rows (mask : list bool) (df : DataFrame) : DataFrame :=
  {| schema := schema df; rows := select mask (rows df) |}.

(** Sorting: insertion from the right end, an element going in front of the
    first one it does not exceed, which keeps ties in their input order. *)
Section Sort.
Context {A : Type} (leb : A -> A -> bool).

Fixpoint insert_sorted (x : A) (l : list A) : list A :=
  match l with
  | [] => [x]
  | y :: l' => if leb x y then x :: l else y :: insert_sorted x l'
  end.

Fixpoint isort (l : list A) : list A :=
  match l with
  | [] => []
  | x :: l' => insert_sorted x (isort l')
  end.
End Sort.

Definition sort_key (by_ : list string) (r : row) : list value :=
  map (fun k => get k r) by_.

Definition row_leb (by_ : list string) (x y : row) : bool :=
  lex_leb (sort_key by_ x) (sort_key by_ y).

Definition missing_column (cs : list string) (df : DataFrame) : option string :=
  List.find (fun c => negb (has_column c df)) cs.

(** [df.sort_values(by)] *)
Definition sort_rows_by (by_ : list string) (df : DataFrame) : exn + DataFrame :=
  match missing_column by_ df with
  | Some c => inl (KeyError c)
  | None => inr {| schema := schema df; rows := isort (row_leb by_) (rows df) |}
  end.

(** Grouping: the group keys are the distinct key tuples without a missing
    component ([dropna=True]), in ascending order ([sort=True]). *)
Fixpoint dedup_adjacent (ks : list (list value)) : list (list value) :=
  match ks with
  | [] => []
  | k :: ks' =>
      match ks' with
      | k' :: _ =>
          match lex_compare k k' with
          | Eq => dedup_adjacent ks'
          | _ => k :: dedup_adjacent ks'
          end
      | [] => [k]
      end
  end.

Definition complete (k : list value) : bool := forallb (fun v => negb (isna v)) k.

Definition group_keys (by_ : list string) (rs : list row) : list (list value) :=
  dedup_adjacent (isort lex_leb (List.filter complete (map (sort_key by_) rs))).

Definition in_group (by_ : list string) (k : list value) (r : row) : bool :=
  match lex_compare (sort_key by_ r) k with Eq => true | _ => false end.

Definition group (by_ : list string) (k : list value) (rs : list row) : list row :=
  List.filter (in_group by_ k) rs.

Inductive aggfunc : Type := agg_max | agg_sum | agg_count.

Definition aggregate (f : aggfunc) (vs : list value) : value :=
  match f with
  | agg_max => series_max vs
  | agg_sum => series_sum vs
  | agg_count => series_count vs
  end.

Definition agg_dtype (f : aggfunc) (d : dtype) : dtype :=
  match f with agg_count => int64 | _ => d end.

(** A named aggregation [out=(col, f)]. *)
Record named_agg : Type := NamedAgg { agg_out : string; agg_col : string; agg_fun : aggfunc }.

Definition dtype_or_object (c : string) (df : DataFrame) : dtype :=
  match dtype_of c (schema df) with Some d => d | None => object end.

Definition agg_row (rs : list row) (by_ : list string) (aggs : list named_agg)
  (k : list value) : row :=
  combine by_ k ++
  map (fun a => (agg_out a,
                 aggregate (agg_fun a) (map (get (agg_col a)) (group by_ k rs)))) aggs.

(** [df.groupby(by).agg(out=(col, f), ...).reset_index()] *)
Definition group_and_aggregate (by_ : list string) (aggs : list named_agg)
  (df : DataFrame) : exn + DataFrame :=
  match missing_column (by_ ++ map agg_col aggs) df with
  | Some c => inl (KeyError c)
  | None =>
      inr {| schema := map (fun c => (c, dtype_or_object c df)) by_
                       ++ map (fun a => (agg_out a,
                                         agg_dtype (agg_fun a)
                                                   (dtype_or_object (agg_col a) df))) aggs;
             rows := map (agg_row (rows df) by_ aggs) (group_keys by_ (rows df)) |}
  end.

(** ** The object store and the monad of the program *)

Definition ref : Type := nat.
Abbreviation heap := (list DataFrame).

(** A computation runs on the store and ends with a value or an exception;
    the store it leaves is observable in both cases. *)
Definition M (A : Type) : Type := heap -> (exn + A) * heap.

Definition ret {A : Type} (a : A) : M A := fun h => (inr a, h).

Definition raise {A : Type} (e : exn) : M A := fun h => (inl e, h).

Definition bind {A B : Type} (m : M A) (f : A -> M B) : M B :=
  fun h => match m h with
           | (inr a, h') => f a h'
           | (inl e, h') => (inl e, h')
           end.

Definition lift {A : Type} (r : exn + A) : M A := fun h => (r, h).

Declare Scope py_scope.
Delimit Scope py_scope with py.
Notation "x <- m ;; k" := (bind m (fun x => k))
  (at level 100, m at next level, right associativity) : py_scope.
Notation "m ;;; k" := (bind m (fun _ => k))
  (at level 100, right associativity) : py_scope.
Open Scope py_scope.

Definition deref (r : ref) : M DataFrame :=
  fun h => match h !! r with
           | Some df => (inr df, h)
           | None => (inl (NameError "dangling reference"), h)
           end.

(** A new object, at the next free reference. *)
Definition alloc (df : DataFrame) : M ref :=
  fun h => (inr (length h), h ++ [df]).

(** In-place update of the object at [r]. *)
Definition update (r : ref) (df : DataFrame) : M unit :=
  fun h => (inr tt, <[r := df]> h).

(** The pandas calls of the program, on references. *)
Module pd.

Definition DataFrame_columns (cols : list string) : M ref :=
  alloc (frame_of cols []).

Definition DataFrame_records (recs : list row) : M ref :=
  match recs with
  | r :: _ => alloc (frame_of (map fst r) recs)
  | [] => alloc (frame_of [] [])
  end.

Definition is_empty (df : ref) : M bool :=
  d <- deref df ;; ret (frame_empty d).

Definition getitem (df : ref) (c : string) : M Series :=
  d <- deref df ;; lift (column c d).

(** [df[c] = s] mutates the object [df] refers to. *)
Definition setitem (df : ref) (c : string) (s : Series) : M unit :=
  d <- deref df ;; update df (set_column c s d).

Definition concat (a b : ref) : M ref :=
  x <- deref a ;; y <- deref b ;; alloc (concat_frames x y).

Definition merge (l r : ref) (on ls rs : string) : M ref :=
  x <- deref l ;; y <- deref r ;;
  d <- lift (merge_left x y on ls rs) ;;
  alloc d.

Definition rename (df : ref) (m : list (string * string)) : M ref :=
  d <- deref df ;; alloc (rename_columns m d).

Definition loc (df : ref) (mask : list bool) : M ref :=
  d <- deref df ;; alloc (loc_rows mask d).

(** [df.loc[mask, c]] *)
Definition loc_column (df : ref) (mask : list bool) (c : string) : M Series :=
  d <- deref df ;; lift (column c (loc_rows mask d)).

Definition sort_values (df : ref) (by_ : list string) : M ref :=
  d <- deref df ;;
  s <- lift (sort_rows_by by_ d) ;;
  alloc s.

Definition copy (df : ref) : M ref :=
  d <- deref df ;; alloc d.

Definition groupby_agg (df : ref) (by_ : list string) (aggs : list named_agg)
  : M ref :=
  d <- deref df ;;
  g <- lift (group_and_aggregate by_ aggs d) ;;
  alloc g.

(** A date is a day number already: [pd.to_datetime] has nothing to
    convert in the model. *)
Definition to_datetime (date : Z) : Z := date.

End pd.

(** ** The program: [backend.py] *)

Definition _empty_sessions_df : M ref :=
  pd.DataFrame_columns ["session_id"; "date"; "group"; "notes"].

Definition _empty_exercises_df : M ref :=
  pd.DataFrame_columns ["exercise_id"; "session_id"; "exercise_name"; "muscle"; "group"].

Definition _empty_sets_df : M ref :=
  pd.DataFrame_columns
    ["set_id"; "exercise_id"; "set_number"; "weight"; "reps"; "rir"; "comments"].

Definition _next_id (df : ref) (id_col : string) : M Z :=
  e <- pd.is_empty df ;;
  if e then ret 1
  else
    col <- pd.getitem df id_col ;;
    m <- lift (int (series_max (s_values col))) ;;
    ret (m + 1).

Definition add_session (sessions : ref) (date : Z) (group_ notes : string)
  : M (ref * Z) :=
  session_id <- _next_id sessions "session_id" ;;
  let new_row := [("session_id", Int session_id);
                  ("date", Timestamp (pd.to_datetime date));
                  ("group", Str group_);
                  ("notes", Str notes)] in
  new <- pd.DataFrame_records [new_row] ;;
  sessions <- pd.concat sessions new ;;
  ret (sessions, session_id).

Definition or_empty (s : option string) : string :=
  match s with Some x => x | None => "" end.

Definition add_exercise (exercises : ref) (session_id : Z) (exercise_name : string)
  (muscle group_ : option string) : M (ref * Z) :=
  exercise_id <- _next_id exercises "exercise_id" ;;
  let new_row := [("exercise_id", Int exercise_id);
                  ("session_id", Int session_id);
                  ("exercise_name", Str exercise_name);
                  ("muscle", Str (or_empty muscle));
                  ("group", Str (or_empty group_))] in
  new <- pd.DataFrame_records [new_row] ;;
  exercises <- pd.concat exercises new ;;
  ret (exercises, exercise_id).

Definition add_set (sets : ref) (exercise_id set_number : Z) (weight : Q) (reps : Z)
  (rir : option Z) (comments : string) : M ref :=
  set_id <- _next_id sets "set_id" ;;
  let new_row := [("set_id", Int set_id);
                  ("exercise_id", Int exercise_id);
                  ("set_number", Int set_number);
                  ("weight", mk_float weight);
                  ("reps", Int reps);
                  ("rir", match rir with Some n => Int n | None => NaN end);
                  ("comments", Str comments)] in
  new <- pd.DataFrame_records [new_row] ;;
  pd.concat sets new.

Definition quick_log_set (sessions exercises sets : ref) (date : Z)
  (day_group exercise_name : string) (set_number : Z) (weight : Q) (reps : Z)
  (rir : option Z) (muscle : option string) : M (ref * ref * ref) :=
  let date := pd.to_datetime date in
  c_date <- pd.getitem sessions "date" ;;
  c_group <- pd.getitem sessions "group" ;;
  let mask := mask_and (series_eq c_date (Timestamp date))
                       (series_eq c_group (Str day_group)) in
  found <-
    (if mask_any mask then
       ids <- pd.loc_column sessions mask "session_id" ;;
       v <- lift (iloc0 ids) ;;
       session_id <- lift (int v) ;;
       ret (sessions, session_id)
     else add_session sessions date day_group "") ;;
  let '(sessions, session_id) := found in
  c_sid <- pd.getitem exercises "session_id" ;;
  c_name <- pd.getitem exercises "exercise_name" ;;
  let mask_ex := mask_and (series_eq c_sid (Int session_id))
                          (series_eq c_name (Str exercise_name)) in
  found <-
    (if mask_any mask_ex then
       ids <- pd.loc_column exercises mask_ex "exercise_id" ;;
       v <- lift (iloc0 ids) ;;
       exercise_id <- lift (int v) ;;
       ret (exercises, exercise_id)
     else add_exercise exercises session_id exercise_name muscle (Some day_group)) ;;
  let '(exercises, exercise_id) := found in
  sets <- add_set sets exercise_id set_number weight reps rir "" ;;
  ret (sessions, exercises, sets).

Definition _joined_sets (sessions exercises sets : ref) : M ref :=
  df <- pd.merge sets exercises "exercise_id" "" "_ex" ;;
  df <- pd.merge df sessions "session_id" "" "_sess" ;;
  pd.rename df [("date", "session_date"); ("group", "session_group")].

Definition exercise_history (sessions exercises sets : ref) (exercise_name : string)
  : M ref :=
  df <- _joined_sets sessions exercises sets ;;
  c_name <- pd.getitem df "exercise_name" ;;
  let mask := series_eq c_name (Str exercise_name) in
  sel <- pd.loc df mask ;;
  pd.sort_values sel ["session_date"; "set_number"].

Definition exercise_progress (sessions exercises sets : ref) (exercise_name : string)
  (metric : string) : M ref :=
  df <- exercise_history sessions exercises sets exercise_name ;;
  e <- pd.is_empty df ;;
  if e then ret df
  else
    agg <-
      (if String.eqb metric "top_set_weight" then
         pd.groupby_agg df ["session_date"] [NamedAgg "value" "weight" agg_max]
       else if String.eqb metric "total_volume" then
         w <- pd.getitem df "weight" ;;
         r <- pd.getitem df "reps" ;;
         pd.setitem df "volume" (series_mul w r) ;;;
         pd.groupby_agg df ["session_date"] [NamedAgg "value" "volume" agg_sum]
       else if String.eqb metric "e1rm" then
         w <- pd.getitem df "weight" ;;
         r <- pd.getitem df "reps" ;;
         pd.setitem df "e1rm"
           (series_mul w (series_radd_scalar 1 (series_div_scalar r 30))) ;;;
         pd.groupby_agg df ["session_date"] [NamedAgg "value" "e1rm" agg_max]
       else raise (ValueError ("Unknown metric: " ++ metric)%string)) ;;
    pd.sort_values agg ["session_date"].

Definition add_week_columns (sessions : ref) : M ref :=
  s <- pd.copy sessions ;;
  d <- pd.getitem s "date" ;;
  w <- lift (dt_isocalendar_week d) ;;
  pd.setitem s "week" w ;;;
  d <- pd.getitem s "date" ;;
  y <- lift (dt_year d) ;;
  pd.setitem s "year" y ;;;
  ret s.

Definition weekly_volume_by_muscle (sessions exercises sets : ref) : M ref :=
  s <- add_week_columns sessions ;;
  df <- _joined_sets s exercises sets ;;
  e <- pd.is_empty df ;;
  if e then ret df
  else
    d <- pd.getitem df "session_date" ;;
    w <- lift (dt_isocalendar_week d) ;;
    pd.setitem df "week" w ;;;
    d <- pd.getitem df "session_date" ;;
    y <- lift (dt_year d) ;;
    pd.setitem df "year" y ;;;
    w <- pd.getitem df "weight" ;;
    r <- pd.getitem df "reps" ;;
    pd.setitem df "volume" (series_mul w r) ;;;
    pd.groupby_agg df ["year"; "week"; "muscle"]
      [NamedAgg "sets" "set_id" agg_count; NamedAgg "volume" "volume" agg_sum].

(** ** The three tables as typed records

    The rows the record builders write: one field per key of [new_row],
    with the coercions of [add_session], [add_exercise] and [add_set]. *)

Module Session.
Record t : Type := mk {
  session_id : Z; date : Z; group : string; notes : string }.
End Session.

Module Exercise.
Record t : Type := mk {
  exercise_id : Z; session_id : Z; exercise_name : string;
  muscle : string; group : string }.
End Exercise.

Module SetRow.
Record t : Type := mk {
  set_id : Z; exercise_id : Z; set_number : Z; weight : Q; reps : Z;
  rir : option Z; comments : string }.
End SetRow.

Definition opt_int (o : option Z) : value :=
  match o with Some n => Int n | None => NaN end.

Definition session_row (s : Session.t) : row :=
  [("session_id", Int (Session.session_id s));
   ("date", Timestamp (Session.date s));
   ("group", Str (Session.group s));
   ("notes", Str (Session.notes s))].

Definition exercise_row (e : Exercise.t) : row :=
  [("exercise_id", Int (Exercise.exercise_id e));
   ("session_id", Int (Exercise.session_id e));
   ("exercise_name", Str (Exercise.exercise_name e));
   ("muscle", Str (Exercise.muscle e));
   ("group", Str (Exercise.group e))].

Definition set_row (t : SetRow.t) : row :=
  [("set_id", Int (SetRow.set_id t));
   ("exercise_id", Int (SetRow.exercise_id t));
   ("set_number", Int (SetRow.set_number t));
   ("weight", mk_float (SetRow.weight t));
   ("reps", Int (SetRow.reps t));
   ("rir", opt_int (SetRow.rir t));
   ("comments", Str (SetRow.comments t))].

Definition sessions_columns : list string :=
  ["session_id"; "date"; "group"; "notes"].
Definition exercises_columns : list string :=
  ["exercise_id"; "session_id"; "exercise_name"; "muscle"; "group"].
Definition sets_columns : list string :=
  ["set_id"; "exercise_id"; "set_number"; "weight"; "reps"; "rir"; "comments"].

(** A frame is a table of records [l] when it has the declared columns and
    its rows are the records; the dtypes of its columns are left free. *)
Definition table {T : Type} (cols : list string) (enc : T -> row)
  (df : DataFrame) (l : list T) : Prop :=
  columns df = cols /\ rows df = map enc l.

(** The sessions table holds its dates as datetimes: once it has a row, the
    date column is a datetime column. *)
Definition is_sessions (df : DataFrame) (ss : list Session.t) : Prop :=
  table sessions_columns session_row df ss /\
  (ss <> [] -> dtype_of "date" (schema df) = Some datetime64).
Definition is_exercises : DataFrame -> list Exercise.t -> Prop :=
  table exercises_columns exercise_row.
Definition is_sets : DataFrame -> list SetRow.t -> Prop :=
  table sets_columns set_row.

(** ** The find-or-create steps of quick-log, on records

    Section 4.4 of the specification, read on the typed tables: look up the
  first session of the (date, group) pair or append one; look up the first
  exercise of the (session, name) pair or append one; append the set. *)

Definition session_matches (d : Z) (g : string) (s : Session.t) : bool :=
(Session.date s =? d) && String.eqb (Session.group s) g.

Definition exercise_matches (sid : Z) (name : string) (e : Exercise.t) : bool :=
(Exercise.session_id e =? sid) && String.eqb (Exercise.exercise_name e) name.


Definition next_id_of (ids : list Z) : Z :=
match ids with
| [] => 1
| z :: zs => fold_left Z.max zs z + 1
end.

Definition find_or_add_session (d : Z) (g : string) (ss : list Session.t)
: list Session.t * Z :=
match List.find (session_matches d g) ss with
| Some s => (ss, Session.session_id s)
| None =>
    let id := next_id_of (map Session.session_id ss) in
    (ss ++ [Session.mk id d g ""], id)
end.

Definition find_or_add_exercise (sid : Z) (name : string) (muscle : option string)
(g : string) (es : list Exercise.t) : list Exercise.t * Z :=
match List.find (exercise_matches sid name) es with
| Some e => (es, Exercise.exercise_id e)
| None =>
    let id := next_id_of (map Exercise.exercise_id es) in
    (es ++ [Exercise.mk id sid name (or_empty muscle) g], id)
end.

Definition append_set (eid set_number : Z) (weight : Q) (reps : Z) (rir : option Z)
(ts : list SetRow.t) : list SetRow.t :=
ts ++ [SetRow.mk (next_id_of (map SetRow.set_id ts)) eid set_number weight reps rir ""].

(** The arguments of one [quick_log_set] call. *)
Record log_args : Type := LogArgs {
a_date : Z; a_group : string; a_name : string; a_set_number : Z;
a_weight : Q; a_reps : Z; a_rir : option Z; a_muscle : option string }.

Definition call_quick_log_set (sessions exercises sets : ref) (a : log_args)
: M (ref * ref * ref) :=
quick_log_set sessions exercises sets (a_date a) (a_group a) (a_name a)
  (a_set_number a) (a_weight a) (a_reps a) (a_rir a) (a_muscle a).

Definition quick_log_records (a : log_args)
(tabs : list Session.t * list Exercise.t * list SetRow.t)
: list Session.t * list Exercise.t * list SetRow.t :=
let '(ss, es, ts) := tabs in
let '(ss', sid) := find_or_add_session (a_date a) (a_group a) ss in
let '(es', eid) :=
  find_or_add_exercise sid (a_name a) (a_muscle a) (a_group a) es in
(ss', es', append_set eid (a_set_number a) (a_weight a) (a_reps a) (a_rir a) ts).

(** ** Observing calls on the store *)

(** [preserves n P m]: run on a store with at least [n] objects, [m] leaves
    the first [n] objects as they were, and a value it returns satisfies
    [P]. *)
Definition preserves {A : Type} (n : nat) (P : A -> Prop) (m : M A) : Prop :=
  forall h, (n <= length h)%nat ->
    (n <= length (m h).2)%nat /\ take n (m h).2 = take n h /\
    (forall a, (m h).1 = inr a -> P a).

Definition fresh (n : nat) (r : ref) : Prop := (n <= r)%nat.

(** [returns m h a h']: from the store [h], the call [m] returns [a] and
    leaves the store [h'], which extends [h]. *)
Definition returns {A : Type} (m : M A) (h : heap) (a : A) (h' : heap) : Prop :=
  m h = (inr a, h') /\ h `prefix_of` h'.

(** [m] leaves every object of the store [h] as it was: the store after
    the call is [h] followed by the objects the call created. *)
Definition leaves_store {A : Type} (m : M A) (h : heap) : Prop :=
  exists new, (m h).2 = h ++ new.

(** The frame [m] returns, when it returns one, is an object that did not
    exist in [h]. *)
Definition returns_new_object {A : Type} (frame_in : A -> ref) (m : M A) (h : heap)
  : Prop :=
  forall a, (m h).1 = inr a -> h !! frame_in a = None.

(** ** Vocabulary of the properties *)

(** [load_data] when no file exists yet: the three empty tables. *)
Definition load_data_no_files : M (ref * ref * ref) :=
  sessions <- _empty_sessions_df ;;
  exercises <- _empty_exercises_df ;;
  sets <- _empty_sets_df ;;
  ret (sessions, exercises, sets).


(** The stores reached when all logging goes through [quick_log_set],
    starting from the empty tables. *)
Inductive logged : heap -> ref * ref * ref -> Prop :=
| logged_start h p h' :
    returns load_data_no_files h p h' -> logged h' p
| logged_step h p a p' h' :
    logged h p ->
    returns (call_quick_log_set p.1.1 p.1.2 p.2 a) h p' h' ->
    logged h' p'.



(** ** The joined view on records

    Section 4.5 of the specification: a left join keeps every left record,
  once per matching right record, and once with no partner when nothing
  matches. *)
Definition left_join {L R : Type} (m : L -> R -> bool) (ls : list L) (rs : list R)
: list (L * option R) :=
flat_map (fun l =>
  match List.filter (m l) rs with
  | [] => [(l, None)]
  | ys => map (fun r => (l, Some r)) ys
  end) ls.

Definition exercise_of (t : SetRow.t) (e : Exercise.t) : bool :=
SetRow.exercise_id t =? Exercise.exercise_id e.

Definition session_of (p : SetRow.t * option Exercise.t) (s : Session.t) : bool :=
match p.2 with
| Some e => Exercise.session_id e =? Session.session_id s
| None => false
end.

(** A set with the exercise and the session it resolves to. *)
Definition joined : Type := SetRow.t * option Exercise.t * option Session.t.

Definition joined_records (ss : list Session.t) (es : list Exercise.t)
(ts : list SetRow.t) : list joined :=
left_join session_of (left_join exercise_of ts es) ss.

Definition opt_value {T : Type} (f : T -> value) (o : option T) : value :=
match o with Some x => f x | None => NaN end.

(** The row of the joined view for one joined record: the columns of the
  set, then those of its exercise, then those of its session, under the
  names the two merges and the rename leave them with.  [extra] are the
  further columns of the sessions frame, if it has any. *)
Definition joined_row (extra : option Session.t -> row) (j : joined) : row :=
let '(t, oe, os) := j in
set_row t ++
[("session_id", opt_value (fun e => Int (Exercise.session_id e)) oe);
 ("exercise_name", opt_value (fun e => Str (Exercise.exercise_name e)) oe);
 ("muscle", opt_value (fun e => Str (Exercise.muscle e)) oe);
 ("session_group", opt_value (fun e => Str (Exercise.group e)) oe);
 ("session_date", opt_value (fun s => Timestamp (Session.date s)) os);
 ("group_sess", opt_value (fun s => Str (Session.group s)) os);
 ("notes", opt_value (fun s => Str (Session.notes s)) os)] ++ extra os.

Definition no_extra (os : option Session.t) : row := [].

(** The columns [add_week_columns] adds to a session. *)
Definition week_columns (os : option Session.t) : row :=
[("week", opt_value (fun s => Int (Calendar.iso_week (Session.date s))) os);
 ("year", opt_value (fun s => Int (Calendar.year (Session.date s))) os)].

(** The row a left merge builds from a left record and its partner. *)
Definition merged_row {L R} (lcols rcols : list (string * string))
(encL : L -> row) (encR : R -> row) (p : L * option R) : row :=
map (fun '(c, c') => (c', get c (encL p.1))) lcols ++
match p.2 with
| Some r => map (fun '(c, c') => (c', get c (encR r))) rcols
| None => map (fun '(c, c') => (c', NaN)) rcols
end.

(** The columns of the joined view, and the rename that ends it. *)
Definition joined_columns : list string :=
sets_columns ++
["session_id"; "exercise_name"; "muscle"; "session_group";
 "session_date"; "group_sess"; "notes"].

Definition renaming : list (string * string) :=
[("date", "session_date"); ("group", "session_group")].

(** ** History: filter and order *)

#[export] Instance Q_eq_dec : EqDecision Q.
Proof.
intros [a b] [c d].
destruct (decide (a = c)), (decide (b = d)); [left | right..]; congruence.
Defined.

#[export] Instance value_eq_dec : EqDecision value.
Proof.
intros x y. unfold Decision.
decide equality; first [apply Z.eq_dec | apply string_dec | apply Q_eq_dec].
Defined.

Definition history_keys : list string := ["session_date"; "set_number"].

(** The row is of the exercise [name]. *)
Definition named (name : string) (r : row) : bool :=
bool_decide (get "exercise_name" r = Str name).

(** The row has the sort key [k]. *)
Definition tied (k : list value) (r : row) : bool :=
bool_decide (sort_key history_keys r = k).

Definition history_order (x y : row) : Prop := row_leb history_keys x y = true.

(** What [exercise_history] computes from the joined view [J]. *)
Definition history_frame (name : string) (J : DataFrame) : DataFrame :=
{| schema := schema J;
   rows := isort (row_leb history_keys) (List.filter (named name) (rows J)) |}.


(** ** Scenarios *)

(** From the empty tables: quick-log the calls [calls] in turn, then run
    the report [k] on the snapshots of the last one. *)
Fixpoint log_all (calls : list log_args) (p : ref * ref * ref)
  : M (ref * ref * ref) :=
  match calls with
  | [] => ret p
  | a :: calls' =>
      p' <- call_quick_log_set p.1.1 p.1.2 p.2 a ;;
      log_all calls' p'
  end.

Definition scenario (calls : list log_args)
  (k : ref -> ref -> ref -> M ref) : M ref :=
  p <- load_data_no_files ;;
  p <- log_all calls p ;;
  k p.1.1 p.1.2 p.2.

(** The frame a computation returns, from the empty store. *)
Definition frame_returned (m : M ref) : exn + option DataFrame :=
  match m [] with
  | (inr r, h) => inr (h !! r)
  | (inl e, _) => inl e
  end.

(** Its rows. *)
Definition rows_returned (m : M ref) : exn + option (list row) :=
  match frame_returned m with
  | inr o => inr (option_map rows o)
  | inl e => inl e
  end.

(** ** Progress metrics, in the words of the specification *)

Definition weight_of (r : row) : Q := to_Q (get "weight" r).
Definition reps_of (r : row) : Q := to_Q (get "reps" r).

(** [weight x reps] *)
Definition volume_of (r : row) : Q := (weight_of r * reps_of r)%Q.

(** [weight x (1 + reps / 30)] *)
Definition e1rm_of (r : row) : Q := (weight_of r * (1 + reps_of r / 30))%Q.

(** [v] is the maximum of [f] over the rows [rs]. *)
Definition is_maximum (f : row -> Q) (rs : list row) (v : Q) : Prop :=
  (exists r, r ∈ rs /\ (f r == v)%Q) /\ (forall r, r ∈ rs -> (f r <= v)%Q).

(** The sum of [f] over the rows [rs]. *)
Definition total (f : row -> Q) (rs : list row) : Q :=
  fold_right (fun r acc => (f r + acc)%Q) 0%Q rs.

(** The rows of one session date. *)
Definition on_date (d : Z) (rs : list row) : list row :=
  List.filter (fun r => bool_decide (get "session_date" r = Timestamp d)) rs.

Inductive metric_value : string -> list row -> Q -> Prop :=
| top_set_weight_value rs v :
    is_maximum weight_of rs v -> metric_value "top_set_weight" rs v
| total_volume_value rs v :
    (v == total volume_of rs)%Q -> metric_value "total_volume" rs v
| e1rm_value rs v :
    is_maximum e1rm_of rs v -> metric_value "e1rm" rs v.

(** One row of the progress report. *)
Definition progress_row (metric : string) (history : list row) (d : Z) (r : row)
  : Prop :=
  exists q, r = [("session_date", Timestamp d); ("value", Float q)] /\
            metric_value metric (on_date d history) q.

Definition is_number (v : value) : Prop :=
  match v with Int _ | Float _ => True | _ => False end.

Definition is_float (v : value) : Prop :=
  match v with Float _ => True | _ => False end.

(** A date cell holds a date or is missing. *)
Definition is_date_cell (v : value) : Prop :=
  match v with Timestamp _ | NaN => True | _ => False end.

(** The group key of a date. *)
Definition date_key (d : Z) : list value := [Timestamp d].

Definition date_of (r : row) : option Z :=
  match get "session_date" r with Timestamp d => Some d | _ => None end.

(** The cells of a history row that the metrics read. *)
Definition history_row (r : row) : Prop :=
  (exists w, get "weight" r = Float w) /\ (exists n, get "reps" r = Int n) /\
  is_date_cell (get "session_date" r).

(** The cell each metric reduces, per row. *)
Definition volume_cell (r : row) : value := vmul (get "weight" r) (get "reps" r).

Definition e1rm_cell (r : row) : value :=
  vmul (get "weight" r) (vadd (Int 1) (vdiv (get "reps" r) (Float 30))).

(** The rows of the report for a history [R], a cell [val] and a reduction
    [f]. *)
Definition report_rows (val : row -> value) (f : aggfunc) (R : list row)
  (dates : list Z) : list row :=
  map (fun d => [("session_date", Timestamp d);
                 ("value", aggregate f (map val (on_date d R)))]) dates.

(** [exercise_progress] after its first statement: what it does with the
    history frame [df]. *)
Definition progress_of_history (df : ref) (metric : string) : M ref :=
  e <- pd.is_empty df ;;
  if e then ret df
  else
    agg <-
      (if String.eqb metric "top_set_weight" then
         pd.groupby_agg df ["session_date"] [NamedAgg "value" "weight" agg_max]
       else if String.eqb metric "total_volume" then
         w <- pd.getitem df "weight" ;;
         r <- pd.getitem df "reps" ;;
         pd.setitem df "volume" (series_mul w r) ;;;
         pd.groupby_agg df ["session_date"] [NamedAgg "value" "volume" agg_sum]
       else if String.eqb metric "e1rm" then
         w <- pd.getitem df "weight" ;;
         r <- pd.getitem df "reps" ;;
         pd.setitem df "e1rm"
           (series_mul w (series_radd_scalar 1 (series_div_scalar r 30))) ;;;
         pd.groupby_agg df ["session_date"] [NamedAgg "value" "e1rm" agg_max]
       else raise (ValueError ("Unknown metric: " ++ metric)%string)) ;;
    pd.sort_values agg ["session_date"].

(** ** The weekly report on records *)

Definition weekly_keys : list string := ["year"; "week"; "muscle"].

Definition weekly_aggs : list named_agg :=
  [NamedAgg "sets" "set_id" agg_count; NamedAgg "volume" "volume" agg_sum].

(** A session row once [add_week_columns] has added its two columns. *)
Definition session_week_row (s : Session.t) : row :=
  session_row s ++ week_columns (Some s).

Definition session_week_columns : list string :=
  sessions_columns ++ ["week"; "year"].

(** The row of the joined view by the time it is grouped: with the week and
    the year of the session, and the volume of the set. *)
Definition weekly_row (j : joined) : row :=
  joined_row week_columns j ++
  [("volume", vmul (mk_float (SetRow.weight j.1.1)) (Int (SetRow.reps j.1.1)))].

(** The rows of the weekly report for the joined records [js]. *)
Definition weekly_rows (js : list joined) : list row :=
  map (agg_row (map weekly_row js) weekly_keys weekly_aggs)
      (group_keys weekly_keys (map weekly_row js)).

(** What a report computes on a store: its rows, or the exception. *)
Definition report_of (m : M ref) (h : heap) : exn + list row :=
  match m h with
  | (inr r, h') =>
      match h' !! r with
      | Some d => inr (rows d)
      | None => inl (NameError "dangling reference")
      end
  | (inl e, _) => inl e
  end.

(** [weekly_volume_by_muscle] after its first two statements: what it does
    with the joined view [df]. *)
Definition weekly_of_joined (df : ref) : M ref :=
  e <- pd.is_empty df ;;
  if e then ret df
  else
    d <- pd.getitem df "session_date" ;;
    w <- lift (dt_isocalendar_week d) ;;
    pd.setitem df "week" w ;;;
    d <- pd.getitem df "session_date" ;;
    y <- lift (dt_year d) ;;
    pd.setitem df "year" y ;;;
    w <- pd.getitem df "weight" ;;
    r <- pd.getitem df "reps" ;;
    pd.setitem df "volume" (series_mul w r) ;;;
    pd.groupby_agg df weekly_keys weekly_aggs.

(** The group of the weekly report a joined record falls in. *)
Definition weekly_key (j : joined) : list value :=
  sort_key weekly_keys (weekly_row j).

Definition in_week_group (k : list value) (j : joined) : bool :=
  bool_decide (weekly_key j = k).

(** ** Consistency of the three tables *)

(** Every exercise belongs to a session of the sessions table. *)
Definition exercises_resolve (ss : list Session.t) (es : list Exercise.t) : Prop :=
  forall e, e ∈ es ->
    exists s, s ∈ ss /\ Session.session_id s = Exercise.session_id e.

(** Every set belongs to an exercise of the exercises table. *)
Definition sets_resolve (es : list Exercise.t) (ts : list SetRow.t) : Prop :=
  forall t, t ∈ ts ->
    exists e, e ∈ es /\ Exercise.exercise_id e = SetRow.exercise_id t.

(** Ids are unique in each table and every reference resolves. *)
Definition consistent (ss : list Session.t) (es : list Exercise.t)
  (ts : list SetRow.t) : Prop :=
  NoDup (map Session.session_id ss) /\
  NoDup (map Exercise.exercise_id es) /\
  NoDup (map SetRow.set_id ts) /\
  exercises_resolve ss es /\ sets_resolve es ts.

(** The set row a [quick_log_set] call appends, under the exercise [eid]. *)
Definition logged_set (a : log_args) (eid : Z) (ts : list SetRow.t) : SetRow.t :=
  SetRow.mk (next_id_of (map SetRow.set_id ts)) eid
            (a_set_number a) (a_weight a) (a_reps a) (a_rir a) "".

(** ** The weekly report on records *)

(** A group of the weekly report: calendar year, ISO week, muscle. *)
Definition week : Type := (Z * Z * string)%type.


(** The group a joined record falls in: it has one when both its exercise
    and its session resolve. *)
Definition week_of (j : joined) : option week :=
  match j with
  | (_, Some e, Some s) =>
      Some (Calendar.year (Session.date s), Calendar.iso_week (Session.date s),
            Exercise.muscle e)
  | _ => None
  end.

#[export] Instance string_eq_decision : EqDecision string := string_dec.










Definition resolved (j : joined) : bool :=
  match week_of j with Some _ => true | None => false end.

(** The columns of the weekly report. *)
Definition weekly_columns : list string := ["year"; "week"; "muscle"; "sets"; "volume"].





(** The columns of the progress report. *)
Definition progress_columns : list string := ["session_date"; "value"].

(** ** Tables written by quick-log only *)

(** The ids are 1, 2, 3, ... in row order. *)
Definition numbered (ids : list Z) : Prop := ids = seqZ 1 (Z.of_nat (length ids)).

(** An exercise carries the group of its session. *)
Definition groups_agree (ss : list Session.t) (es : list Exercise.t) : Prop :=
  forall e s, e ∈ es -> s ∈ ss ->
    Session.session_id s = Exercise.session_id e ->
    Exercise.group e = Session.group s.

Definition well_logged (ss : list Session.t) (es : list Exercise.t)
  (ts : list SetRow.t) : Prop :=
  numbered (map Session.session_id ss) /\
  numbered (map Exercise.exercise_id es) /\
  numbered (map SetRow.set_id ts) /\
  exercises_resolve ss es /\ sets_resolve es ts /\ groups_agree ss es.

(** The row of the joined view for a set [t] of the exercise [e] in the
    session [s]. *)
Definition resolved_row (t : SetRow.t) (e : Exercise.t) (s : Session.t) : row :=
  joined_row no_extra (t, Some e, Some s).

(** * Properties *)

(** ** Running computations *)

Section Run.
Context {A B : Type}.

Lemma run_bind (m : M A) (f : A -> M B) h a h' :
  m h = (inr a, h') -> bind m f h = f a h'.
Proof. unfold bind. intros ->. reflexivity. Qed.

Lemma run_bind_exn (m : M A) (f : A -> M B) h e h' :
  m h = (inl e, h') -> bind m f h = (inl e, h').
Proof. unfold bind. intros ->. reflexivity. Qed.
End Run.

Lemma run_deref h r d : h !! r = Some d -> deref r h = (inr d, h).
Proof. unfold deref. intros ->. reflexivity. Qed.

Lemma lookup_new (h : heap) (d : DataFrame) : (h ++ [d]) !! length h = Some d.
Proof. rewrite lookup_app_r by lia. rewrite Nat.sub_diag. reflexivity. Qed.

Lemma lookup_old (h h' : heap) (r : ref) (d : DataFrame) :
  h !! r = Some d -> (h ++ h') !! r = Some d.
Proof. apply lookup_app_l_Some. Qed.

Lemma update_new (h : heap) (d d' : DataFrame) :
  <[length h := d']> (h ++ [d]) = h ++ [d'].
Proof.
  rewrite insert_app_r_alt by lia. rewrite Nat.sub_diag. reflexivity.
Qed.

Lemma run_is_empty h r d : h !! r = Some d -> pd.is_empty r h = (inr (frame_empty d), h).
Proof. intros H. unfold pd.is_empty. rewrite (run_bind _ _ _ _ _ (run_deref _ _ _ H)). reflexivity. Qed.

Lemma run_getitem h r d c :
  h !! r = Some d -> pd.getitem r c h = (column c d, h).
Proof. intros H. unfold pd.getitem. rewrite (run_bind _ _ _ _ _ (run_deref _ _ _ H)). reflexivity. Qed.

Lemma run_setitem h r d c s :
  h !! r = Some d -> pd.setitem r c s h = (inr tt, <[r := set_column c s d]> h).
Proof. intros H. unfold pd.setitem. rewrite (run_bind _ _ _ _ _ (run_deref _ _ _ H)). reflexivity. Qed.

Lemma run_concat h a b x y :
  h !! a = Some x -> h !! b = Some y ->
  pd.concat a b h = (inr (length h), h ++ [concat_frames x y]).
Proof.
  intros Ha Hb. unfold pd.concat.
  rewrite (run_bind _ _ _ _ _ (run_deref _ _ _ Ha)).
  rewrite (run_bind _ _ _ _ _ (run_deref _ _ _ Hb)). reflexivity.
Qed.

Lemma run_merge h l r x y on ls rs d :
  h !! l = Some x -> h !! r = Some y -> merge_left x y on ls rs = inr d ->
  pd.merge l r on ls rs h = (inr (length h), h ++ [d]).
Proof.
  intros Hl Hr Hm. unfold pd.merge.
  rewrite (run_bind _ _ _ _ _ (run_deref _ _ _ Hl)).
  rewrite (run_bind _ _ _ _ _ (run_deref _ _ _ Hr)).
  unfold bind, lift. rewrite Hm. reflexivity.
Qed.

Lemma run_rename h r d m :
  h !! r = Some d -> pd.rename r m h = (inr (length h), h ++ [rename_columns m d]).
Proof. intros H. unfold pd.rename. rewrite (run_bind _ _ _ _ _ (run_deref _ _ _ H)). reflexivity. Qed.

Lemma run_loc h r d mask :
  h !! r = Some d -> pd.loc r mask h = (inr (length h), h ++ [loc_rows mask d]).
Proof. intros H. unfold pd.loc. rewrite (run_bind _ _ _ _ _ (run_deref _ _ _ H)). reflexivity. Qed.

Lemma run_loc_column h r d mask c :
  h !! r = Some d -> pd.loc_column r mask c h = (column c (loc_rows mask d), h).
Proof. intros H. unfold pd.loc_column. rewrite (run_bind _ _ _ _ _ (run_deref _ _ _ H)). reflexivity. Qed.

Lemma run_sort_values h r d by_ s :
  h !! r = Some d -> sort_rows_by by_ d = inr s ->
  pd.sort_values r by_ h = (inr (length h), h ++ [s]).
Proof.
  intros H Hs. unfold pd.sort_values.
  rewrite (run_bind _ _ _ _ _ (run_deref _ _ _ H)).
  unfold bind, lift. rewrite Hs. reflexivity.
Qed.

Lemma run_copy h r d :
  h !! r = Some d -> pd.copy r h = (inr (length h), h ++ [d]).
Proof. intros H. unfold pd.copy. rewrite (run_bind _ _ _ _ _ (run_deref _ _ _ H)). reflexivity. Qed.

Lemma run_groupby_agg h r d by_ aggs g :
  h !! r = Some d -> group_and_aggregate by_ aggs d = inr g ->
  pd.groupby_agg r by_ aggs h = (inr (length h), h ++ [g]).
Proof.
  intros H Hg. unfold pd.groupby_agg.
  rewrite (run_bind _ _ _ _ _ (run_deref _ _ _ H)).
  unfold bind, lift. rewrite Hg. reflexivity.
Qed.

Lemma run_records h r :
  pd.DataFrame_records [r] h = (inr (length h), h ++ [frame_of_record r]).
Proof. reflexivity. Qed.

(** ** Frame: what a call leaves of the objects it was given *)


Section Preserves.
Context {A B : Type} (n : nat).

Lemma preserves_ret (P : A -> Prop) a : P a -> preserves n P (ret a).
Proof. intros Ha h Hn. unfold ret; cbn. split_and!; [done | done |]. intros ? [= <-]. done. Qed.

Lemma preserves_raise (P : A -> Prop) e : preserves n P (raise e).
Proof. intros h Hn. unfold raise; cbn. split_and!; done. Qed.

Lemma preserves_lift (r : exn + A) : preserves n (fun _ => True) (lift r).
Proof. intros h Hn. unfold lift; cbn. split_and!; done. Qed.

Lemma preserves_bind (P : A -> Prop) (Q : B -> Prop) m f :
  preserves n P m -> (forall a, P a -> preserves n Q (f a)) ->
  preserves n Q (bind m f).
Proof.
  intros Hm Hf h Hn. unfold bind.
  destruct (Hm h Hn) as (Hlen & Htake & Hpost).
  destruct (m h) as [[e | a] h'] eqn:E; cbn in *.
  - split_and!; done.
  - destruct (Hf a (Hpost a eq_refl) h' Hlen) as (Hlen' & Htake' & Hpost').
    split_and!; [done | congruence | done].
Qed.

Lemma preserves_weaken (P Q : A -> Prop) m :
  preserves n P m -> (forall a, P a -> Q a) -> preserves n Q m.
Proof.
  intros Hm HPQ h Hn. destruct (Hm h Hn) as (? & ? & Hpost).
  split_and!; [done..|]. intros a Ha. apply HPQ, Hpost, Ha.
Qed.

Lemma preserves_if (P : A -> Prop) (b : bool) m1 m2 :
  preserves n P m1 -> preserves n P m2 -> preserves n P (if b then m1 else m2).
Proof. destruct b; done. Qed.
End Preserves.

Lemma preserves_deref n r : preserves n (fun _ => True) (deref r).
Proof.
  intros h Hn. unfold deref. case_match; cbn; split_and!; done.
Qed.

Lemma preserves_alloc n d : preserves n (fresh n) (alloc d).
Proof.
  intros h Hn. unfold alloc; cbn. rewrite length_app; cbn. split_and!.
  - lia.
  - rewrite take_app_le by lia. done.
  - intros a [= <-]. exact Hn.
Qed.

Lemma preserves_update n r d : fresh n r -> preserves n (fun _ => True) (update r d).
Proof.
  intros Hr h Hn. unfold update; cbn. rewrite length_insert. split_and!; [done | | done].
  apply take_insert_ge. exact Hr.
Qed.

Create HintDb frame.

#[local] Hint Resolve preserves_deref preserves_alloc preserves_update
  preserves_ret preserves_raise preserves_lift : frame.

Ltac frame_step :=
  first
    [ eapply preserves_bind; [ solve [eauto with frame] | cbv beta; intros ]
    | eapply preserves_bind;
      [ eapply preserves_weaken; [ solve [eauto with frame] | intros; exact I ]
      | cbv beta; intros ]
    | apply preserves_if
    | solve [eauto with frame]
    | eapply preserves_weaken; [ solve [eauto with frame] | solve [ intros; exact I | intros; assumption ] ]
    | eapply preserves_weaken; [ apply preserves_lift | solve [ intros; exact I ] ] ].

Ltac frame_auto :=
  repeat first
    [ match goal with
      | |- preserves _ _ (let '(_, _) := ?p in _) => destruct p
      | |- preserves _ _ (if _ then _ else _) => apply preserves_if
      | |- preserves _ _ (bind (if _ then _ else _) _) =>
          eapply (preserves_bind _ (fun _ => True)); [ apply preserves_if | intros ]
      end
    | frame_step ].

Lemma preserves_any {A} n (m : M A) (P : A -> Prop) :
  preserves n P m -> preserves n (fun _ => True) m.
Proof. intros H. eapply preserves_weaken; [exact H | done]. Qed.

Lemma preserves_lift_any {A} n (r : exn + A) (P : A -> Prop) :
  (forall a, P a) -> preserves n P (lift r).
Proof. intros H. eapply preserves_weaken; [apply preserves_lift | intros; apply H]. Qed.

Section PandasFrame.
Context (n : nat).

Lemma preserves_is_empty r : preserves n (fun _ => True) (pd.is_empty r).
Proof. unfold pd.is_empty. repeat frame_step. Qed.

Lemma preserves_getitem r c : preserves n (fun _ => True) (pd.getitem r c).
Proof. unfold pd.getitem. repeat frame_step. Qed.

Lemma preserves_setitem r c s :
  fresh n r -> preserves n (fun _ => True) (pd.setitem r c s).
Proof. intros Hr. unfold pd.setitem. repeat frame_step. Qed.

Lemma preserves_records recs : preserves n (fresh n) (pd.DataFrame_records recs).
Proof. unfold pd.DataFrame_records. destruct recs; repeat frame_step. Qed.

Lemma preserves_columns cols : preserves n (fresh n) (pd.DataFrame_columns cols).
Proof. unfold pd.DataFrame_columns. repeat frame_step. Qed.

Lemma preserves_concat a b : preserves n (fresh n) (pd.concat a b).
Proof. unfold pd.concat. repeat frame_step. Qed.

Lemma preserves_merge l r on ls rs : preserves n (fresh n) (pd.merge l r on ls rs).
Proof. unfold pd.merge. repeat frame_step. Qed.

Lemma preserves_rename r m : preserves n (fresh n) (pd.rename r m).
Proof. unfold pd.rename. repeat frame_step. Qed.

Lemma preserves_loc r m : preserves n (fresh n) (pd.loc r m).
Proof. unfold pd.loc. repeat frame_step. Qed.

Lemma preserves_loc_column r m c : preserves n (fun _ => True) (pd.loc_column r m c).
Proof. unfold pd.loc_column. repeat frame_step. Qed.

Lemma preserves_sort_values r by_ : preserves n (fresh n) (pd.sort_values r by_).
Proof. unfold pd.sort_values. repeat frame_step. Qed.

Lemma preserves_copy r : preserves n (fresh n) (pd.copy r).
Proof. unfold pd.copy. repeat frame_step. Qed.

Lemma preserves_groupby_agg r by_ aggs :
  preserves n (fresh n) (pd.groupby_agg r by_ aggs).
Proof. unfold pd.groupby_agg. repeat frame_step. Qed.
End PandasFrame.

#[local] Hint Resolve preserves_is_empty preserves_getitem preserves_setitem
  preserves_records preserves_columns preserves_concat preserves_merge
  preserves_rename preserves_loc preserves_loc_column preserves_sort_values
  preserves_copy preserves_groupby_agg : frame.

Section ProgramFrame.
Context (n : nat).

Lemma preserves_next_id r c : preserves n (fun _ => True) (_next_id r c).
Proof. unfold _next_id. repeat frame_step. Qed.

Hint Resolve preserves_next_id : frame.

Lemma preserves_add_session s d g nt :
  preserves n (fun p => fresh n p.1) (add_session s d g nt).
Proof. unfold add_session. repeat frame_step. Qed.

Lemma preserves_add_exercise e sid nm mu g :
  preserves n (fun p => fresh n p.1) (add_exercise e sid nm mu g).
Proof. unfold add_exercise. repeat frame_step. Qed.

Lemma preserves_add_set t eid sn w r rir c :
  preserves n (fresh n) (add_set t eid sn w r rir c).
Proof. unfold add_set. repeat frame_step. Qed.

Hint Resolve preserves_add_session preserves_add_exercise preserves_add_set : frame.

Lemma preserves_quick_log_set s e t d g nm sn w r rir mu :
  preserves n (fun _ => True) (quick_log_set s e t d g nm sn w r rir mu).
Proof.
  unfold quick_log_set. frame_auto.
Qed.

Lemma preserves_joined_sets s e t : preserves n (fresh n) (_joined_sets s e t).
Proof. unfold _joined_sets. frame_auto. Qed.

Hint Resolve preserves_joined_sets : frame.

Lemma preserves_exercise_history s e t nm :
  preserves n (fresh n) (exercise_history s e t nm).
Proof. unfold exercise_history. frame_auto. Qed.

Hint Resolve preserves_exercise_history : frame.

Lemma preserves_exercise_progress s e t nm metric :
  preserves n (fresh n) (exercise_progress s e t nm metric).
Proof. unfold exercise_progress. frame_auto. Qed.

Lemma preserves_add_week_columns s : preserves n (fresh n) (add_week_columns s).
Proof. unfold add_week_columns. frame_auto. Qed.

Hint Resolve preserves_add_week_columns : frame.

Lemma preserves_weekly_volume_by_muscle s e t :
  preserves n (fresh n) (weekly_volume_by_muscle s e t).
Proof. unfold weekly_volume_by_muscle. frame_auto. Qed.
End ProgramFrame.

Lemma preserves_extends {A} (P : A -> Prop) (m : M A) (h : heap) :
  preserves (length h) P m -> exists new, (m h).2 = h ++ new.
Proof.
  intros Hm. destruct (Hm h (Nat.le_refl _)) as (Hlen & Htake & _).
  exists (drop (length h) (m h).2).
  rewrite <- (take_drop (length h) (m h).2) at 1.
  rewrite Htake, take_ge by lia. reflexivity.
Qed.


(** ** Masks, selections and columns *)

Lemma mask_and_map {T} (f g : T -> bool) (l : list T) :
  mask_and (map f l) (map g l) = map (fun x => f x && g x) l.
Proof. induction l as [|x l IH]; cbn; [done | by rewrite IH]. Qed.

Lemma mask_any_map {T} (f : T -> bool) (l : list T) :
  mask_any (map f l) = existsb f l.
Proof. unfold mask_any. induction l as [|x l IH]; cbn; [done | by rewrite IH]. Qed.

Lemma select_map {T U} (f : T -> bool) (enc : T -> U) (l : list T) :
  select (map f l) (map enc l) = map enc (List.filter f l).
Proof.
  induction l as [|x l IH]; cbn; [done |]. destruct (f x); cbn; by rewrite IH.
Qed.

Lemma find_filter {T} (f : T -> bool) (l : list T) :
  List.find f l = hd_error (List.filter f l).
Proof. induction l as [|x l IH]; cbn; [done |]. destruct (f x); done. Qed.

Lemma existsb_find {T} (f : T -> bool) (l : list T) :
  existsb f l = match List.find f l with Some _ => true | None => false end.
Proof. induction l as [|x l IH]; cbn; [done |]. destruct (f x); done. Qed.

Lemma columns_inv (d : DataFrame) (cs : list string) :
  columns d = cs ->
  exists dts, length dts = length cs /\ schema d = combine cs dts.
Proof.
  intros <-. exists (map snd (schema d)). unfold columns.
  rewrite !length_map. split; [done |].
  induction (schema d) as [|[c t] l IH]; cbn; [done | by rewrite <- IH].
Qed.

(** A table, with its schema spelled out. *)
Ltac table_inv H :=
  let Hc := fresh "Hc" in let Hr := fresh "Hr" in
  let dts := fresh "dts" in let Hlen := fresh "Hlen" in let Hs := fresh "Hs" in
  destruct H as [Hc Hr];
  apply columns_inv in Hc as (dts & Hlen & Hs);
  repeat (destruct dts as [|? dts]; [discriminate Hlen |]);
  destruct dts; [| discriminate Hlen]; clear Hlen;
  cbn in Hs;
  match type of Hs with schema ?d = _ => destruct d; cbn in Hs, Hr; subst end.

Lemma value_compare_Int a b : value_compare (Int a) (Int b) = (a ?= b).
Proof.
  cbn. unfold Qcompare; cbn. by rewrite !Z.mul_1_r.
Qed.

Lemma vmax_Int a b : vmax (Int a) (Int b) = Int (Z.max a b).
Proof.
  unfold vmax. rewrite value_compare_Int. unfold Z.max. by destruct (a ?= b).
Qed.

Lemma fold_vmax_Int zs a :
  fold_left vmax (map Int zs) (Int a) = Int (fold_left Z.max zs a).
Proof.
  revert a. induction zs as [|z zs IH]; intros a; cbn [map fold_left]; [done |].
  by rewrite vmax_Int, IH.
Qed.

Lemma int_series_max ids :
  ids <> [] -> int (series_max (map Int ids)) = inr (next_id_of ids - 1).
Proof.
  destruct ids as [|z zs]; [done |]. intros _. unfold series_max, next_id_of.
  cbn [map fold_left vmax]. rewrite fold_vmax_Int. cbn. f_equal. lia.
Qed.

Lemma fold_max_ge zs a : a <= fold_left Z.max zs a.
Proof.
  revert a. induction zs as [|z zs IH]; intros a; cbn; [lia |].
  specialize (IH (Z.max a z)). lia.
Qed.

Lemma fold_max_in zs a : fold_left Z.max zs a ∈ a :: zs.
Proof.
  revert a. induction zs as [|z zs IH]; intros a; cbn.
  - apply elem_of_cons; by left.
  - pose proof (IH (Z.max a z)) as H. apply elem_of_cons in H as [H | H].
    + destruct (Z.max_spec a z) as [[_ E] | [_ E]]; rewrite H, E.
      * apply elem_of_cons; right. apply elem_of_cons; by left.
      * apply elem_of_cons; by left.
    + apply elem_of_cons; right. apply elem_of_cons; by right.
Qed.

Lemma fold_max_upper zs a z : z ∈ a :: zs -> z <= fold_left Z.max zs a.
Proof.
  revert a. induction zs as [|y zs IH]; intros a Hz; cbn.
  - apply list_elem_of_singleton in Hz. lia.
  - pose proof (fold_max_ge zs (Z.max a y)) as Hge.
    apply elem_of_cons in Hz as [-> | Hz]; [lia |].
    apply elem_of_cons in Hz as [-> | Hz]; [lia |].
    apply IH. apply elem_of_cons; by right.
Qed.

Lemma next_id_of_max ids k :
  k ∈ ids -> (forall z, z ∈ ids -> z <= k) -> next_id_of ids = k + 1.
Proof.
  destruct ids as [|a zs]; [set_solver |]. intros Hk Hmax. cbn.
  pose proof (fold_max_in zs a) as Hin. pose proof (fold_max_upper zs a k Hk).
  specialize (Hmax _ Hin). lia.
Qed.

Lemma next_id_of_above ids z : z ∈ ids -> z < next_id_of ids.
Proof.
  destruct ids as [|a zs]; [set_solver |]. intros Hz. cbn.
  pose proof (fold_max_upper zs a z Hz). lia.
Qed.

(** ** The record builders on tables *)

Lemma dtype_of_columns (c : string) (d : DataFrame) :
  c ∈ columns d -> exists dt, dtype_of c (schema d) = Some dt.
Proof.
  unfold columns. induction (schema d) as [|[k t] l IH]; cbn; intros Hc.
  - by apply elem_of_nil in Hc.
  - destruct (String.eqb_spec c k) as [-> | Hne]; [by eexists |].
    apply IH. apply elem_of_cons in Hc as [-> | Hc]; done.
Qed.

Lemma frame_empty_table {T} cols (enc : T -> row) d (l : list T) :
  table cols enc d l -> cols <> [] ->
  frame_empty d = match l with [] => true | _ => false end.
Proof.
  intros [Hc Hr] Hne. unfold frame_empty. rewrite Hr.
  destruct l; cbn; [done |]. unfold columns in Hc.
  destruct (schema d); [by subst | done].
Qed.

Lemma run_next_id {T} h r d cols (enc : T -> row) (l : list T) c (proj : T -> Z) :
  h !! r = Some d -> table cols enc d l -> c ∈ cols ->
  (forall x, get c (enc x) = Int (proj x)) ->
  _next_id r c h = (inr (next_id_of (map proj l)), h).
Proof.
  intros Hr Ht Hc Hget. unfold _next_id.
  rewrite (run_bind _ _ _ _ _ (run_is_empty _ _ _ Hr)).
  rewrite (frame_empty_table _ _ _ _ Ht) by (intros ->; by apply elem_of_nil in Hc).
  destruct l as [|x l]; [done |].
  destruct Ht as [Hcols Hrows].
  destruct (dtype_of_columns c d) as [dt Hdt]; [by rewrite Hcols |].
  erewrite run_bind; last first.
  { rewrite (run_getitem _ _ _ _ Hr). unfold column. rewrite Hdt. reflexivity. }
  cbn [s_values]. rewrite Hrows, map_map.
  rewrite (map_ext _ (fun x => Int (proj x))) by done.
  rewrite <- (map_map proj Int).
  unfold bind, lift. rewrite int_series_max by done.
  unfold ret. do 2 f_equal. lia.
Qed.

Lemma filter_mem_self (cs : list string) :
  List.filter (fun c => negb (mem c cs)) cs = [].
Proof.
  assert (forall l, (forall c, c ∈ l -> c ∈ cs) ->
                    List.filter (fun c => negb (mem c cs)) l = []) as H.
  { induction l as [|c l IH]; intros Hl; cbn; [done |].
    assert (mem c cs = true) as ->.
    { unfold mem. apply existsb_exists. exists c. split.
      - apply list_elem_of_In, Hl. by left.
      - apply String.eqb_refl. }
    cbn. apply IH. intros c' Hc'. apply Hl. by right. }
  by apply H.
Qed.

Lemma concat_frames_table {T} cols (enc : T -> row) a (l : list T) x :
  table cols enc a l ->
  (forall y, map fst (enc y) = cols) ->
  (forall y, reindex cols (enc y) = enc y) ->
  table cols enc (concat_frames a (frame_of_record (enc x))) (l ++ [x]).
Proof.
  intros [Hc Hr] Hkeys Hre. unfold table, concat_frames, columns. cbn.
  rewrite !map_map. cbn. change (map (fun x0 : string * value => x0.1)) with (@map (string * value) string fst).
  fold (columns a). rewrite Hc, Hkeys, filter_mem_self, app_nil_r.
  split; [apply map_id |].
  rewrite Hr, map_map, map_app. rewrite !Hre.
  rewrite (map_ext _ enc) by done. done.
Qed.


Lemma concat_date_dtype S ss x :
  is_sessions S ss ->
  dtype_of "date" (schema (concat_frames S (frame_of_record (session_row x))))
  = Some datetime64.
Proof.
  intros [[Hc Hr] Hdt]. unfold concat_frames. cbn [schema].
  change (columns (frame_of_record (session_row x))) with sessions_columns.
  rewrite Hc, filter_mem_self. cbn -[concat_dtype]. f_equal.
  unfold concat_dtype, live_dtype. rewrite Hr.
  destruct ss as [|s ss]; cbn; [done |].
  rewrite Hdt by done. reflexivity.
Qed.

Lemma run_add_session h r S ss d g nt :
  h !! r = Some S -> is_sessions S ss ->
  let id := next_id_of (map Session.session_id ss) in
  exists r' h' S',
    returns (add_session r d g nt) h (r', id) h' /\
    h' !! r' = Some S' /\ is_sessions S' (ss ++ [Session.mk id d g nt]).
Proof.
  intros Hr HS id. unfold add_session.
  eexists _, _, _. split_and!.
  - split.
    + erewrite run_bind; last first.
      { eapply (run_next_id _ _ _ _ _ _ _ Session.session_id);
          [done | exact (proj1 HS) | | done].
        unfold sessions_columns. set_solver. }
      erewrite run_bind by apply run_records.
      erewrite run_bind; last first.
      { apply run_concat; [by apply lookup_old | apply lookup_new]. }
      reflexivity.
    + rewrite <- app_assoc. by apply prefix_app_r.
  - apply lookup_new.
  - split.
    + apply (concat_frames_table sessions_columns session_row _ _
                 (Session.mk id d g nt)); [exact (proj1 HS) | done | done].
    + intros _. exact (concat_date_dtype S ss (Session.mk id d g nt) HS).
Qed.

Lemma run_add_exercise h r E es sid nm mu g :
  h !! r = Some E -> is_exercises E es ->
  let id := next_id_of (map Exercise.exercise_id es) in
  exists r' h' E',
    returns (add_exercise r sid nm mu g) h (r', id) h' /\
    h' !! r' = Some E' /\
    is_exercises E' (es ++ [Exercise.mk id sid nm (or_empty mu) (or_empty g)]).
Proof.
  intros Hr HE id. unfold add_exercise.
  eexists _, _, _. split_and!.
  - split.
    + erewrite run_bind; last first.
      { eapply (run_next_id _ _ _ _ _ _ _ Exercise.exercise_id); [done.. | | done].
        unfold exercises_columns. set_solver. }
      erewrite run_bind by apply run_records.
      erewrite run_bind; last first.
      { apply run_concat; [by apply lookup_old | apply lookup_new]. }
      reflexivity.
    + rewrite <- app_assoc. by apply prefix_app_r.
  - apply lookup_new.
  - by apply (concat_frames_table exercises_columns exercise_row _ _
                (Exercise.mk id sid nm (or_empty mu) (or_empty g))).
Qed.

Lemma run_add_set h r T ts eid sn w rp rir c :
  h !! r = Some T -> is_sets T ts ->
  let id := next_id_of (map SetRow.set_id ts) in
  exists r' h' T',
    returns (add_set r eid sn w rp rir c) h r' h' /\
    h' !! r' = Some T' /\
    is_sets T' (ts ++ [SetRow.mk id eid sn w rp rir c]).
Proof.
  intros Hr HT id. unfold add_set.
  eexists _, _, _. split_and!.
  - split.
    + erewrite run_bind; last first.
      { eapply (run_next_id _ _ _ _ _ _ _ SetRow.set_id); [done.. | | done].
        unfold sets_columns. set_solver. }
      erewrite run_bind by apply run_records.
      apply run_concat; [by apply lookup_old | apply lookup_new].
    + rewrite <- app_assoc. by apply prefix_app_r.
  - apply lookup_new.
  - by apply (concat_frames_table sets_columns set_row _ _
                (SetRow.mk id eid sn w rp rir c)).
Qed.

(** ** Quick-log on tables *)

Lemma returns_bind {A B} (m : M A) (f : A -> M B) h a h1 b h2 :
  returns m h a h1 -> returns (f a) h1 b h2 -> returns (bind m f) h b h2.
Proof.
  intros [E1 P1] [E2 P2]. split; [| by etrans].
  by rewrite (run_bind _ _ _ _ _ E1).
Qed.

Lemma returns_pure {A B} (m : M A) (f : A -> M B) h a b h2 :
  m h = (inr a, h) -> returns (f a) h b h2 -> returns (bind m f) h b h2.
Proof. intros E1 [E2 P2]. split; [| done]. by rewrite (run_bind _ _ _ _ _ E1). Qed.

Lemma returns_ret {A} (a : A) h : returns (ret a) h a h.
Proof. split; [done | reflexivity]. Qed.

Lemma session_mask S ss d g c_date c_group :
  rows S = map session_row ss ->
  column "date" S = inr c_date -> column "group" S = inr c_group ->
  mask_and (series_eq c_date (Timestamp d)) (series_eq c_group (Str g))
  = map (session_matches d g) ss.
Proof.
  unfold column. intros Hr.
  destruct (dtype_of "date" _); [| done]. destruct (dtype_of "group" _); [| done].
  intros [= <-] [= <-]. unfold series_eq; cbn [s_values].
  rewrite Hr, !map_map. cbn. apply mask_and_map.
Qed.

Lemma exercise_mask E es sid nm c_sid c_name :
  rows E = map exercise_row es ->
  column "session_id" E = inr c_sid -> column "exercise_name" E = inr c_name ->
  mask_and (series_eq c_sid (Int sid)) (series_eq c_name (Str nm))
  = map (exercise_matches sid nm) es.
Proof.
  unfold column. intros Hr.
  destruct (dtype_of "session_id" _); [| done].
  destruct (dtype_of "exercise_name" _); [| done].
  intros [= <-] [= <-]. unfold series_eq; cbn [s_values].
  rewrite Hr, !map_map. cbn. apply mask_and_map.
Qed.

Lemma column_table {T} cols (enc : T -> row) d (l : list T) c :
  table cols enc d l -> c ∈ cols ->
  exists dt, column c d = inr (mkSeries dt (map (fun x => get c (enc x)) l)).
Proof.
  intros [Hc Hr] Hin. destruct (dtype_of_columns c d) as [dt Hdt]; [by rewrite Hc |].
  exists dt. unfold column. by rewrite Hdt, Hr, map_map.
Qed.

Lemma first_id {T} cols (enc : T -> row) d (l : list T) (f : T -> bool) c
  (proj : T -> Z) x :
  table cols enc d l -> c ∈ cols -> (forall y, get c (enc y) = Int (proj y)) ->
  List.find f l = Some x ->
  exists ids, column c (loc_rows (map f l) d) = inr ids /\
              iloc0 ids = inr (Int (proj x)).
Proof.
  intros Ht Hin Hget Hfind.
  assert (table cols enc (loc_rows (map f l) d) (List.filter f l)) as Ht'.
  { destruct Ht as [Hc Hr]. split; [done |]. cbn. rewrite Hr. apply select_map. }
  destruct (column_table _ _ _ _ c Ht' Hin) as [dt Hcol].
  eexists. split; [exact Hcol |].
  rewrite find_filter in Hfind. unfold iloc0. cbn [s_values].
  destruct (List.filter f l); [done |]. cbn in *. injection Hfind as ->.
  by rewrite Hget.
Qed.

Lemma run_find_or_add_session h rs S ss d g :
  h !! rs = Some S -> is_sessions S ss ->
  exists c_date c_group,
    column "date" S = inr c_date /\ column "group" S = inr c_group /\
    let mask := mask_and (series_eq c_date (Timestamp d))
                         (series_eq c_group (Str g)) in
    exists r' h' S',
      returns (if mask_any mask then
                 ids <- pd.loc_column rs mask "session_id" ;;
                 v <- lift (iloc0 ids) ;;
                 session_id <- lift (int v) ;;
                 ret (rs, session_id)
               else add_session rs d g "") h
              (r', (find_or_add_session d g ss).2) h' /\
      h' !! r' = Some S' /\ is_sessions S' (find_or_add_session d g ss).1.
Proof.
  intros Hr HS.
  destruct (column_table _ _ _ _ "date" (proj1 HS)) as [dt1 H1];
    [unfold sessions_columns; set_solver |].
  destruct (column_table _ _ _ _ "group" (proj1 HS)) as [dt2 H2];
    [unfold sessions_columns; set_solver |].
  eexists _, _. split_and!; [exact H1 | exact H2 |]. cbv zeta.
  rewrite (session_mask S ss d g _ _ (proj2 (proj1 HS)) H1 H2).
  rewrite mask_any_map, existsb_find. unfold find_or_add_session.
  destruct (List.find (session_matches d g) ss) as [s|] eqn:Hfind.
  - destruct (first_id _ _ _ _ (session_matches d g) "session_id"
                Session.session_id s (proj1 HS)) as (ids & Hids & Hi);
      try done; [unfold sessions_columns; set_solver |].
    exists rs, h, S. split_and!; [| done..].
    eapply returns_pure. { rewrite (run_loc_column _ _ _ _ _ Hr). by rewrite Hids. }
    eapply returns_pure. { unfold lift. by rewrite Hi. }
    eapply returns_pure. { reflexivity. }
    apply returns_ret.
  - exact (run_add_session h rs S ss d g "" Hr HS).
Qed.

Lemma run_find_or_add_exercise h re E es sid nm mu g :
  h !! re = Some E -> is_exercises E es ->
  exists c_sid c_name,
    column "session_id" E = inr c_sid /\ column "exercise_name" E = inr c_name /\
    let mask := mask_and (series_eq c_sid (Int sid))
                         (series_eq c_name (Str nm)) in
    exists r' h' E',
      returns (if mask_any mask then
                 ids <- pd.loc_column re mask "exercise_id" ;;
                 v <- lift (iloc0 ids) ;;
                 exercise_id <- lift (int v) ;;
                 ret (re, exercise_id)
               else add_exercise re sid nm mu (Some g)) h
              (r', (find_or_add_exercise sid nm mu g es).2) h' /\
      h' !! r' = Some E' /\ is_exercises E' (find_or_add_exercise sid nm mu g es).1.
Proof.
  intros Hr HE.
  destruct (column_table _ _ _ _ "session_id" HE) as [dt1 H1];
    [unfold exercises_columns; set_solver |].
  destruct (column_table _ _ _ _ "exercise_name" HE) as [dt2 H2];
    [unfold exercises_columns; set_solver |].
  eexists _, _. split_and!; [exact H1 | exact H2 |]. cbv zeta.
  rewrite (exercise_mask E es sid nm _ _ (proj2 HE) H1 H2).
  rewrite mask_any_map, existsb_find. unfold find_or_add_exercise.
  destruct (List.find (exercise_matches sid nm) es) as [e|] eqn:Hfind.
  - destruct (first_id _ _ _ _ (exercise_matches sid nm) "exercise_id"
                Exercise.exercise_id e HE) as (ids & Hids & Hi);
      try done; [unfold exercises_columns; set_solver |].
    exists re, h, E. split_and!; [| done..].
    eapply returns_pure. { rewrite (run_loc_column _ _ _ _ _ Hr). by rewrite Hids. }
    eapply returns_pure. { unfold lift. by rewrite Hi. }
    eapply returns_pure. { reflexivity. }
    apply returns_ret.
  - exact (run_add_exercise h re E es sid nm mu (Some g) Hr HE).
Qed.

Lemma run_quick_log_set h rs re rt S E T ss es ts a :
  h !! rs = Some S -> h !! re = Some E -> h !! rt = Some T ->
  is_sessions S ss -> is_exercises E es -> is_sets T ts ->
  exists rs' re' rt' h' S' E' T',
    returns (call_quick_log_set rs re rt a) h (rs', re', rt') h' /\
    h' !! rs' = Some S' /\ h' !! re' = Some E' /\ h' !! rt' = Some T' /\
    is_sessions S' (quick_log_records a (ss, es, ts)).1.1 /\
    is_exercises E' (quick_log_records a (ss, es, ts)).1.2 /\
    is_sets T' (quick_log_records a (ss, es, ts)).2.
Proof.
  intros Hs He Ht HS HE HT.
  destruct a as [d g nm sn w rp rir mu].
  unfold call_quick_log_set, quick_log_set, quick_log_records; cbn [a_date a_group
    a_name a_set_number a_weight a_reps a_rir a_muscle].
  destruct (run_find_or_add_session h rs S ss d g Hs HS)
    as (c_date & c_group & H1 & H2 & rs' & h1 & S' & Hrun1 & Hs' & HS').
  cbv zeta in Hrun1.
  destruct (find_or_add_session d g ss) as [ss' sid] eqn:Ess. cbn [fst snd] in *.
  pose proof (proj2 Hrun1) as P1.
  pose proof (prefix_lookup_Some _ _ _ _ He P1) as He1.
  pose proof (prefix_lookup_Some _ _ _ _ Ht P1) as Ht1.
  destruct (run_find_or_add_exercise h1 re E es sid nm mu g He1 HE)
    as (c_sid & c_name & H3 & H4 & re' & h2 & E' & Hrun2 & He' & HE').
  cbv zeta in Hrun2.
  destruct (find_or_add_exercise sid nm mu g es) as [es' eid] eqn:Ees.
  cbn [fst snd] in *.
  pose proof (proj2 Hrun2) as P2.
  pose proof (prefix_lookup_Some _ _ _ _ Ht1 P2) as Ht2.
  destruct (run_add_set h2 rt T ts eid sn w rp rir "" Ht2 HT)
    as (rt' & h3 & T' & Hrun3 & Ht' & HT').
  pose proof (proj2 Hrun3) as P3.
  exists rs', re', rt', h3, S', E', T'. split_and!.
  - eapply returns_pure. { rewrite (run_getitem _ _ _ _ Hs). by rewrite H1. }
    eapply returns_pure. { rewrite (run_getitem _ _ _ _ Hs). by rewrite H2. }
    eapply returns_bind; [exact Hrun1 |]. cbv beta iota.
    eapply returns_pure. { rewrite (run_getitem _ _ _ _ He1). by rewrite H3. }
    eapply returns_pure. { rewrite (run_getitem _ _ _ _ He1). by rewrite H4. }
    eapply returns_bind; [exact Hrun2 |]. cbv beta iota.
    eapply returns_bind; [exact Hrun3 |]. apply returns_ret.
  - eapply prefix_lookup_Some; [exact Hs' | by etrans].
  - eapply prefix_lookup_Some; [exact He' | done].
  - done.
  - done.
  - done.
  - done.
Qed.

(** ** Find-or-create on records *)



Lemma find_app_none {T} (f : T -> bool) (l l' : list T) :
  List.find f l = None -> List.find f (l ++ l') = List.find f l'.
Proof.
  induction l as [|x l IH]; cbn; [done |]. destruct (f x); [done | exact IH].
Qed.


Lemma session_matches_self d g id nt :
  session_matches d g (Session.mk id d g nt) = true.
Proof. unfold session_matches; cbn. by rewrite Z.eqb_refl, String.eqb_refl. Qed.


Lemma exercise_matches_self sid nm id mu g :
  exercise_matches sid nm (Exercise.mk id sid nm mu g) = true.
Proof. unfold exercise_matches; cbn. by rewrite Z.eqb_refl, String.eqb_refl. Qed.









Lemma returns_functional {A} (m : M A) h a1 h1 a2 h2 :
  returns m h a1 h1 -> returns m h a2 h2 -> a1 = a2 /\ h1 = h2.
Proof. intros [E1 _] [E2 _]. rewrite E1 in E2. by injection E2. Qed.





Lemma table_of_columns {T} cols (enc : T -> row) :
  table cols enc (frame_of cols []) [].
Proof. split; [| done]. unfold columns, frame_of; cbn. rewrite map_map. apply map_id. Qed.

Lemma run_load_data_no_files_frames h :
  returns load_data_no_files h
          (length h, S (length h), S (S (length h)))
          (h ++ [frame_of sessions_columns []; frame_of exercises_columns [];
                 frame_of sets_columns []]).
Proof.
  split; [| by apply prefix_app_r].
  unfold load_data_no_files, _empty_sessions_df, _empty_exercises_df,
    _empty_sets_df, pd.DataFrame_columns, bind, alloc, ret.
  rewrite !length_app, <- !app_assoc. cbn.
  by rewrite !Nat.add_1_r.
Qed.

Lemma run_load_data_no_files h :
  exists d1 d2 d3,
    returns load_data_no_files h
            (length h, S (length h), S (S (length h))) (h ++ [d1; d2; d3]) /\
    is_sessions d1 [] /\ is_exercises d2 [] /\ is_sets d3 [].
Proof.
  eexists _, _, _. split_and!.
  - apply run_load_data_no_files_frames.
  - split; [apply table_of_columns | done].
  - apply table_of_columns.
  - apply table_of_columns.
Qed.





(** ** Identity allocation *)

Lemma frame_empty_false d c s :
  rows d <> [] -> column c d = inr s -> frame_empty d = false.
Proof.
  unfold frame_empty, column. intros Hr Hc.
  destruct (rows d); [done |]. destruct (schema d); [done | done].
Qed.

(** C3: [_next_id] returns 1 on a table without rows; on a table with rows
    it returns the maximum of the identifier column plus one; it leaves the
    store as it was; and once [add_session] has inserted a row with the id
    [k] it allocated, the next call returns [k + 1]. *)
Theorem next_id_allocates (h : heap) (df : ref) (d : DataFrame) (id_col : string) :
  h !! df = Some d ->
  (rows d = [] -> _next_id df id_col h = (inr 1, h)) /\
  (forall dt ids k,
      rows d <> [] ->
      column id_col d = inr (mkSeries dt (map Int ids)) ->
      k ∈ ids -> (forall z, z ∈ ids -> z <= k) ->
      _next_id df id_col h = (inr (k + 1), h)) /\
  (forall ss date g nt,
      is_sessions d ss ->
      exists r' k h',
        returns (add_session df date g nt) h (r', k) h' /\
        _next_id r' "session_id" h' = (inr (k + 1), h')).
Proof.
  intros Hd. split_and!.
  - intros Hrows. unfold _next_id.
    rewrite (run_bind _ _ _ _ _ (run_is_empty _ _ _ Hd)).
    unfold frame_empty. by rewrite Hrows.
  - intros dt ids k Hrows Hcol Hk Hmax. unfold _next_id.
    rewrite (run_bind _ _ _ _ _ (run_is_empty _ _ _ Hd)).
    rewrite (frame_empty_false _ _ _ Hrows Hcol).
    erewrite run_bind; last by rewrite (run_getitem _ _ _ _ Hd), Hcol.
    cbn [s_values]. unfold bind, lift.
    rewrite int_series_max by (intros ->; by apply elem_of_nil in Hk).
    rewrite (next_id_of_max _ _ Hk Hmax). unfold ret. do 2 f_equal. lia.
  - intros ss date g nt HS.
    destruct (run_add_session h df d ss date g nt Hd HS)
      as (r' & h' & S' & Hrun & Hr' & HS').
    exists r', (next_id_of (map Session.session_id ss)), h'. split; [done |].
    rewrite (run_next_id _ _ _ _ _ _ "session_id" Session.session_id Hr' (proj1 HS'));
      [| unfold sessions_columns; set_solver | done].
    do 2 f_equal. rewrite map_app. cbn. apply next_id_of_max.
    + apply elem_of_app. right. by apply list_elem_of_singleton.
    + intros z [Hz | Hz%list_elem_of_singleton]%elem_of_app; [| lia].
      pose proof (next_id_of_above _ _ Hz). lia.
Qed.

(** The theorem on a sessions table with the ids 3 and 7. *)
Lemma next_id_allocates_witness :
  let d := frame_of sessions_columns
             (map session_row [Session.mk 3 100 "Push" ""; Session.mk 7 101 "Pull" ""]) in
  _next_id 0%nat "session_id" [d] = (inr 8, [d]).
Proof.
  intros d.
  apply (proj1 (proj2 (next_id_allocates [d] 0%nat d "session_id" eq_refl))
               int64 [3; 7] 7).
  - simpl. discriminate.
  - reflexivity.
  - set_solver.
  - intros z Hz. apply elem_of_cons in Hz as [-> | Hz]; [lia |].
    apply list_elem_of_singleton in Hz. lia.
Defined.

(** ** Tables are snapshots *)

Lemma preserves_leaves {A} (P : A -> Prop) (m : M A) (h : heap) :
  preserves (length h) P m -> leaves_store m h.
Proof. apply preserves_extends. Qed.

Lemma preserves_new {A} (f : A -> ref) (m : M A) (h : heap) :
  preserves (length h) (fun a => fresh (length h) (f a)) m ->
  returns_new_object f m h.
Proof.
  intros Hm a Ha. destruct (Hm h (Nat.le_refl _)) as (_ & _ & Hpost).
  apply lookup_ge_None. exact (Hpost a Ha).
Qed.

(** C9: no operation changes a table it was given.  Whatever the store and
    the arguments, and whether the call returns or raises, the store after
    a call of [add_session], [add_exercise], [add_set], [quick_log_set],
    [_joined_sets], [exercise_history], [exercise_progress],
    [add_week_columns] or [weekly_volume_by_muscle] is the store before it
    followed by new objects; and the table a record builder or an analytics
    function returns is one of the new objects, never the argument. *)
Theorem tables_are_snapshots (h : heap) :
  (forall sessions date g notes,
      leaves_store (add_session sessions date g notes) h /\
      returns_new_object fst (add_session sessions date g notes) h) /\
  (forall exercises sid name muscle g,
      leaves_store (add_exercise exercises sid name muscle g) h /\
      returns_new_object fst (add_exercise exercises sid name muscle g) h) /\
  (forall sets eid n w reps rir comments,
      leaves_store (add_set sets eid n w reps rir comments) h /\
      returns_new_object id (add_set sets eid n w reps rir comments) h) /\
  (forall sessions exercises sets date g name n w reps rir muscle,
      leaves_store
        (quick_log_set sessions exercises sets date g name n w reps rir muscle) h) /\
  (forall sessions exercises sets,
      leaves_store (_joined_sets sessions exercises sets) h /\
      returns_new_object id (_joined_sets sessions exercises sets) h) /\
  (forall sessions exercises sets name,
      leaves_store (exercise_history sessions exercises sets name) h /\
      returns_new_object id (exercise_history sessions exercises sets name) h) /\
  (forall sessions exercises sets name metric,
      leaves_store (exercise_progress sessions exercises sets name metric) h /\
      returns_new_object id
        (exercise_progress sessions exercises sets name metric) h) /\
  (forall sessions,
      leaves_store (add_week_columns sessions) h /\
      returns_new_object id (add_week_columns sessions) h) /\
  (forall sessions exercises sets,
      leaves_store (weekly_volume_by_muscle sessions exercises sets) h /\
      returns_new_object id (weekly_volume_by_muscle sessions exercises sets) h).
Proof.
  split_and!; intros.
  - split; [eapply preserves_leaves | apply preserves_new];
      apply preserves_add_session.
  - split; [eapply preserves_leaves | apply preserves_new];
      apply preserves_add_exercise.
  - split; [eapply preserves_leaves | apply preserves_new];
      apply preserves_add_set.
  - eapply preserves_leaves, preserves_quick_log_set.
  - split; [eapply preserves_leaves | apply preserves_new];
      apply preserves_joined_sets.
  - split; [eapply preserves_leaves | apply preserves_new];
      apply preserves_exercise_history.
  - split; [eapply preserves_leaves | apply preserves_new];
      apply preserves_exercise_progress.
  - split; [eapply preserves_leaves | apply preserves_new];
      apply preserves_add_week_columns.
  - split; [eapply preserves_leaves | apply preserves_new];
      apply preserves_weekly_volume_by_muscle.
Qed.

(** ** The joined view *)

Lemma filter_map_comm {A B} (f : B -> bool) (g : A -> B) (l : list A) :
  List.filter f (map g l) = map g (List.filter (fun x => f (g x)) l).
Proof.
  induction l as [|x l IH]; cbn; [done |]. destruct (f (g x)); cbn; by rewrite IH.
Qed.

Lemma merge_rows_left_join {L R} on lcols rcols (encL : L -> row) (encR : R -> row)
  (m : L -> R -> bool) (ls : list L) (rs : list R) :
  (forall l r, key_match (get on (encL l)) (get on (encR r)) = m l r) ->
  merge_rows on lcols rcols (map encL ls) (map encR rs)
  = map (merged_row lcols rcols encL encR) (left_join m ls rs).
Proof.
  intros Hm. unfold merge_rows, left_join.
  induction ls as [|l ls IH]; cbn [map flat_map]; [done |].
  rewrite map_app. f_equal; [| exact IH].
  unfold matches. rewrite filter_map_comm.
  rewrite (List.filter_ext _ (m l)) by (intros r; apply Hm).
  destruct (List.filter (m l) rs) as [|y ys]; cbn; [done |].
  rewrite !map_map. reflexivity.
Qed.

Arguments merge_rows : simpl never.
Arguments left_join : simpl never.

Lemma exercise_key t e :
  key_match (get "exercise_id" (set_row t)) (get "exercise_id" (exercise_row e))
  = exercise_of t e.
Proof. reflexivity. Qed.

(** The two merges and the rename, on tables: the rows of the joined view
    are the rows of the joined records, and the session date keeps the
    dtype of the date column. *)
Lemma joined_frame S E T ss es ts :
  is_sessions S ss -> is_exercises E es -> is_sets T ts ->
  exists d1 d2,
    merge_left T E "exercise_id" "" "_ex" = inr d1 /\
    merge_left d1 S "session_id" "" "_sess" = inr d2 /\
    table joined_columns (joined_row no_extra) (rename_columns renaming d2)
          (joined_records ss es ts) /\
    dtype_of "session_date" (schema (rename_columns renaming d2))
    = dtype_of "date" (schema S).
Proof.
  intros [HS _] HE HT. table_inv HS. table_inv HE. table_inv HT.
  eexists _, _. split_and!.
  - cbn. reflexivity.
  - cbn. reflexivity.
  - split; [reflexivity |]. cbn [rows rename_columns].
    rewrite (merge_rows_left_join _ _ _ set_row exercise_row exercise_of)
      by apply exercise_key.
    rewrite (merge_rows_left_join _ _ _ _ session_row session_of); last first.
    { intros [t [e|]] s; reflexivity. }
    rewrite map_map. apply map_ext.
    intros [[t [e|]] [s|]]; reflexivity.
  - reflexivity.
Qed.

Lemma run_joined_sets h rs re rt S E T d1 d2 :
  h !! rs = Some S -> h !! re = Some E -> h !! rt = Some T ->
  merge_left T E "exercise_id" "" "_ex" = inr d1 ->
  merge_left d1 S "session_id" "" "_sess" = inr d2 ->
  returns (_joined_sets rs re rt) h (length h + 2)%nat
          (h ++ [d1; d2; rename_columns renaming d2]).
Proof.
  intros Hs He Ht H1 H2. split; [| by apply prefix_app_r].
  unfold _joined_sets.
  erewrite run_bind by (eapply run_merge; eassumption).
  erewrite run_bind; last first.
  { eapply run_merge; [apply lookup_new | by apply lookup_old | eassumption]. }
  erewrite run_rename by apply lookup_new.
  rewrite !length_app, <- !app_assoc. cbn [length app].
  f_equal. f_equal. lia.
Qed.

(** ** One row per set *)

Lemma left_join_unique {L R} (m : L -> R -> bool) (ls : list L) (rs : list R) :
  (forall l, (length (List.filter (m l) rs) <= 1)%nat) ->
  left_join m ls rs = map (fun l => (l, List.find (m l) rs)) ls.
Proof.
  intros Huniq. unfold left_join.
  induction ls as [|l ls IH]; cbn [flat_map map]; [done |].
  rewrite <- IH. specialize (Huniq l). rewrite find_filter.
  destruct (List.filter (m l) rs) as [|y [|z ys]]; cbn in *; [done | done | lia].
Qed.

Lemma unique_id_filter {T} (proj : T -> Z) (k : Z) (l : list T) :
  NoDup (map proj l) ->
  (length (List.filter (fun x => (k =? proj x)%Z) l) <= 1)%nat.
Proof.
  induction l as [|x l IH]; cbn; [lia |].
  intros [Hx Hl]%NoDup_cons. specialize (IH Hl).
  destruct (Z.eqb_spec k (proj x)) as [-> | Hne]; [| done].
  assert (List.filter (fun y => proj x =? proj y) l = []) as ->; [| cbn; lia].
  clear IH Hl. induction l as [|y l IH]; cbn; [done |].
  destruct (Z.eqb_spec (proj x) (proj y)) as [E | _].
  - exfalso. apply Hx. cbn. rewrite E. by left.
  - apply IH. intros H. apply Hx. by right.
Qed.

(** C8: when exercise ids and session ids are unique, the joined view has
    exactly one row per Set row, in the order of the sets table; the row
    carries the set, the name, muscle and group of the exercise the set
    refers to, and the date, group and notes of that exercise's session;
    where the exercise or the session does not resolve the row is still
    there, with missing values in the columns of the missing partner. *)
Theorem joined_view_one_row_per_set (h : heap) (rs re rt : ref)
  (S E T : DataFrame) ss es ts :
  h !! rs = Some S -> h !! re = Some E -> h !! rt = Some T ->
  is_sessions S ss -> is_exercises E es -> is_sets T ts ->
  NoDup (map Exercise.exercise_id es) -> NoDup (map Session.session_id ss) ->
  exists r h' J,
    returns (_joined_sets rs re rt) h r h' /\ h' !! r = Some J /\
    columns J = joined_columns /\
    length (rows J) = length ts /\
    rows J = map (fun t =>
                    let oe := List.find (exercise_of t) es in
                    let os := List.find (session_of (t, oe)) ss in
                    joined_row no_extra (t, oe, os)) ts.
Proof.
  intros Hs He Ht HS HE HT Hes Hss.
  destruct (joined_frame S E T ss es ts HS HE HT)
    as (d1 & d2 & H1 & H2 & [Hcols Hrows] & _).
  pose proof (run_joined_sets h rs re rt S E T d1 d2 Hs He Ht H1 H2) as Hrun.
  assert (joined_records ss es ts
          = map (fun t => (t, List.find (exercise_of t) es,
                           List.find (session_of (t, List.find (exercise_of t) es)) ss))
                ts) as Hj.
  { unfold joined_records.
    rewrite (left_join_unique exercise_of); last first.
    { intros t. apply (unique_id_filter Exercise.exercise_id), Hes. }
    rewrite (left_join_unique session_of); last first.
    { intros [t [e|]]; unfold session_of; cbn [snd].
      - apply (unique_id_filter Session.session_id), Hss.
      - clear. induction ss; cbn; [lia | done]. }
    by rewrite map_map. }
  eexists _, _, _. split_and!.
  - exact Hrun.
  - rewrite lookup_app_r by lia.
    by replace (_ - _)%nat with 2%nat by lia.
  - exact Hcols.
  - by rewrite Hrows, Hj, !length_map.
  - by rewrite Hrows, Hj, map_map.
Qed.

(** The theorem on two sets, the second with a dangling exercise id. *)
Lemma joined_view_one_row_per_set_witness :
  let ss := [Session.mk 1 100 "Push" "felt strong"] in
  let es := [Exercise.mk 1 1 "Bench" "chest" "Push"] in
  let ts := [SetRow.mk 1 1 1 (100 # 1) 5 None ""; SetRow.mk 2 9 1 (60 # 1) 8 None ""] in
  let S := frame_of sessions_columns (map session_row ss) in
  let E := frame_of exercises_columns (map exercise_row es) in
  let T := frame_of sets_columns (map set_row ts) in
  exists r h' J,
    returns (_joined_sets 0%nat 1%nat 2%nat) [S; E; T] r h' /\ h' !! r = Some J /\
    columns J = joined_columns /\
    length (rows J) = 2%nat /\
    rows J = map (fun t =>
                    let oe := List.find (exercise_of t) es in
                    let os := List.find (session_of (t, oe)) ss in
                    joined_row no_extra (t, oe, os)) ts.
Proof.
  intros ss es ts S E T.
  apply (joined_view_one_row_per_set [S; E; T] 0%nat 1%nat 2%nat S E T ss es ts).
  - reflexivity.
  - reflexivity.
  - reflexivity.
  - split; [split |]; reflexivity.
  - split; reflexivity.
  - split; reflexivity.
  - simpl. apply NoDup_singleton.
  - simpl. apply NoDup_singleton.
Defined.

(** ** Sorting *)

Section SortFacts.
Context {A : Type} (leb : A -> A -> bool).

Lemma insert_sorted_perm x l : Permutation (insert_sorted leb x l) (x :: l).
Proof.
  induction l as [|y l IH]; cbn; [done |].
  destruct (leb x y); [done |].
  rewrite IH. apply perm_swap.
Qed.

Lemma isort_perm l : Permutation (isort leb l) l.
Proof.
  induction l as [|x l IH]; cbn; [done |].
  rewrite insert_sorted_perm. by constructor.
Qed.

Definition le_of : A -> A -> Prop := fun x y => leb x y = true.

Hypothesis leb_total : forall x y, leb x y = false -> leb y x = true.

Lemma insert_sorted_sorted x l :
  Sorted le_of l -> Sorted le_of (insert_sorted leb x l).
Proof.
  induction l as [|y l IH]; cbn; intros Hs.
  - repeat constructor.
  - destruct (leb x y) eqn:E.
    + constructor; [done |]. by constructor.
    + apply Sorted_inv in Hs as [Hs Hhd]. constructor; [by apply IH |].
      destruct l as [|z l]; cbn.
      * constructor. by apply leb_total.
      * destruct (leb x z); constructor; [by apply leb_total |].
        by apply HdRel_inv in Hhd.
Qed.

Lemma isort_sorted l : Sorted le_of (isort leb l).
Proof.
  induction l as [|x l IH]; cbn; [constructor |].
  by apply insert_sorted_sorted.
Qed.

(** Stability: the elements of a class of ties keep their order. *)
Lemma insert_sorted_stable (p : A -> bool) x l :
  (forall y, p x = true -> p y = true -> leb x y = true) ->
  List.filter p (insert_sorted leb x l) = List.filter p (x :: l).
Proof.
  intros Htie. induction l as [|y l IH]; cbn; [done |].
  destruct (leb x y) eqn:E; [done |]. cbn. rewrite IH. cbn.
  destruct (p x) eqn:Px, (p y) eqn:Py; try done.
  rewrite Htie in E; done.
Qed.

Lemma isort_stable (p : A -> bool) l :
  (forall x y, p x = true -> p y = true -> leb x y = true) ->
  List.filter p (isort leb l) = List.filter p l.
Proof.
  intros Htie. induction l as [|x l IH]; cbn; [done |].
  rewrite insert_sorted_stable by (intros y; apply Htie).
  cbn. by rewrite IH.
Qed.
End SortFacts.

(** The order on values is total and reflexive. *)
Lemma value_compare_antisym a b :
  value_compare b a = CompOpp (value_compare a b).
Proof.
  destruct a, b; cbn;
    try reflexivity;
    try (symmetry; apply Qcompare_antisym);
    try apply Z.compare_antisym.
  apply String.compare_antisym.
Qed.

Lemma string_compare_refl s : String.compare s s = Eq.
Proof.
  pose proof (String.compare_antisym s s) as H.
  destruct (String.compare s s); [done | discriminate H | discriminate H].
Qed.

Lemma value_compare_refl a : value_compare a a = Eq.
Proof.
  destruct a; cbn; try reflexivity.
  - apply Z.compare_refl.
  - apply Qeq_alt. reflexivity.
  - apply string_compare_refl.
  - apply Z.compare_refl.
Qed.

Lemma lex_compare_antisym xs ys :
  lex_compare ys xs = CompOpp (lex_compare xs ys).
Proof.
  revert ys. induction xs as [|x xs IH]; intros [|y ys]; cbn; try done.
  rewrite (value_compare_antisym x y).
  destruct (value_compare x y); cbn; [apply IH | done | done].
Qed.

Lemma lex_compare_refl xs : lex_compare xs xs = Eq.
Proof. induction xs as [|x xs IH]; cbn; [done |]. by rewrite value_compare_refl. Qed.

Lemma lex_leb_total xs ys : lex_leb xs ys = false -> lex_leb ys xs = true.
Proof.
  unfold lex_leb. rewrite (lex_compare_antisym xs ys).
  by destruct (lex_compare xs ys).
Qed.

Lemma lex_leb_refl xs : lex_leb xs xs = true.
Proof. unfold lex_leb. by rewrite lex_compare_refl. Qed.

Lemma row_leb_total by_ x y : row_leb by_ x y = false -> row_leb by_ y x = true.
Proof. apply lex_leb_total. Qed.


(** ** Exercise history *)

Lemma value_eqb_Str v name : value_eqb v (Str name) = bool_decide (v = Str name).
Proof.
  destruct v; cbn; try (symmetry; by apply bool_decide_eq_false_2).
  destruct (String.eqb_spec s name) as [-> | Hne].
  - symmetry. by apply bool_decide_eq_true_2.
  - symmetry. apply bool_decide_eq_false_2. congruence.
Qed.

Lemma select_filter {T} (f : T -> bool) (l : list T) :
  select (map f l) l = List.filter f l.
Proof. rewrite <- (map_id l) at 2. rewrite select_map. apply map_id. Qed.

Lemma has_column_in c d : c ∈ columns d -> has_column c d = true.
Proof.
  intros [dt H]%dtype_of_columns. unfold has_column. by rewrite H.
Qed.

Lemma missing_column_none cs d :
  (forall c, c ∈ cs -> c ∈ columns d) -> missing_column cs d = None.
Proof.
  unfold missing_column. induction cs as [|c cs IH]; intros H; cbn; [done |].
  rewrite has_column_in by (apply H; by left). cbn.
  apply IH. intros c' Hc'. apply H. by right.
Qed.

Lemma sort_rows_by_ok by_ d :
  (forall c, c ∈ by_ -> c ∈ columns d) ->
  sort_rows_by by_ d
  = inr {| schema := schema d; rows := isort (row_leb by_) (rows d) |}.
Proof. intros H. unfold sort_rows_by. by rewrite missing_column_none. Qed.

Lemma column_in c d :
  c ∈ columns d -> exists dt, column c d = inr (mkSeries dt (map (get c) (rows d))).
Proof.
  intros [dt H]%dtype_of_columns. exists dt. unfold column. by rewrite H.
Qed.

Lemma run_exercise_history h rs re rt S E T d1 d2 name :
  h !! rs = Some S -> h !! re = Some E -> h !! rt = Some T ->
  merge_left T E "exercise_id" "" "_ex" = inr d1 ->
  merge_left d1 S "session_id" "" "_sess" = inr d2 ->
  columns (rename_columns renaming d2) = joined_columns ->
  let J := rename_columns renaming d2 in
  returns (exercise_history rs re rt name) h (length h + 4)%nat
          (h ++ [d1; d2; J; loc_rows (map (named name) (rows J)) J;
                 history_frame name J]).
Proof.
  intros Hs He Ht H1 H2 Hcols J.
  pose proof (run_joined_sets h rs re rt S E T d1 d2 Hs He Ht H1 H2) as [Hrun _].
  split; [| by apply prefix_app_r].
  unfold exercise_history. rewrite (run_bind _ _ _ _ _ Hrun).
  assert ((h ++ [d1; d2; J]) !! (length h + 2)%nat = Some J) as HJ.
  { rewrite lookup_app_r by lia. by replace (_ - _)%nat with 2%nat by lia. }
  destruct (column_in "exercise_name" J) as [dt Hcol].
  { unfold J. rewrite Hcols. unfold joined_columns, sets_columns. set_solver. }
  erewrite run_bind; last by rewrite (run_getitem _ _ _ _ HJ), Hcol.
  unfold series_eq. cbn [s_values]. rewrite map_map.
  rewrite (map_ext _ (named name)) by (intros r; apply value_eqb_Str).
  erewrite run_bind by (apply run_loc; exact HJ).
  erewrite run_sort_values; [| apply lookup_new |]; last first.
  { apply sort_rows_by_ok. intros c Hc.
    change (c ∈ columns (rename_columns renaming d2)). rewrite Hcols.
    unfold joined_columns, sets_columns.
    apply elem_of_cons in Hc as [-> | Hc]; [set_solver |].
    apply list_elem_of_singleton in Hc as ->. set_solver. }
  cbn [rows loc_rows schema]. rewrite select_filter.
  rewrite !length_app, <- !app_assoc. cbn [length app].
  unfold history_frame. f_equal. f_equal. lia.
Qed.

Lemma row_leb_dates x y d1 n1 d2 n2 :
  sort_key history_keys x = [Timestamp d1; Int n1] ->
  sort_key history_keys y = [Timestamp d2; Int n2] ->
  (history_order x y <-> d1 < d2 \/ (d1 = d2 /\ n1 <= n2)).
Proof.
  intros Hx Hy. unfold history_order, row_leb, lex_leb. rewrite Hx, Hy.
  cbn [lex_compare]. change (value_compare (Timestamp d1) (Timestamp d2)) with (d1 ?= d2).
  rewrite value_compare_Int.
  destruct (Z.compare_spec d1 d2) as [-> | Hlt | Hgt].
  - destruct (Z.compare_spec n1 n2); split; intros; try done; try lia.
  - split; [intros _; lia | done].
  - split; [done | lia].
Qed.

Lemma row_leb_missing_last x y v d n :
  sort_key history_keys x = [NaN; v] ->
  sort_key history_keys y = [Timestamp d; n] ->
  ~ history_order x y.
Proof.
  intros Hx Hy. unfold history_order, row_leb, lex_leb. by rewrite Hx, Hy.
Qed.

(** C7: [exercise_history] returns exactly the rows of the joined view
    whose exercise_name is the given name, in ascending order of (session
    date, set_number) -- a missing date after every date -- and rows that
    tie on both keys in the order the join has them. *)
Theorem exercise_history_filters_and_sorts (h : heap) (rs re rt : ref)
  (S E T : DataFrame) ss es ts (name : string) :
  h !! rs = Some S -> h !! re = Some E -> h !! rt = Some T ->
  is_sessions S ss -> is_exercises E es -> is_sets T ts ->
  exists rj hj J r h' H,
    returns (_joined_sets rs re rt) h rj hj /\ hj !! rj = Some J /\
    returns (exercise_history rs re rt name) h r h' /\ h' !! r = Some H /\
    Permutation (rows H) (List.filter (named name) (rows J)) /\
    Sorted history_order (rows H) /\
    (forall k, List.filter (tied k) (rows H)
               = List.filter (tied k) (List.filter (named name) (rows J))) /\
    (forall x y d1 n1 d2 n2,
        sort_key history_keys x = [Timestamp d1; Int n1] ->
        sort_key history_keys y = [Timestamp d2; Int n2] ->
        (history_order x y <-> d1 < d2 \/ (d1 = d2 /\ n1 <= n2))) /\
    (forall x y v d n,
        sort_key history_keys x = [NaN; v] ->
        sort_key history_keys y = [Timestamp d; n] ->
        ~ history_order x y).
Proof.
  intros Hs He Ht HS HE HT.
  destruct (joined_frame S E T ss es ts HS HE HT)
    as (d1 & d2 & H1 & H2 & [Hcols Hrows] & _).
  pose proof (run_joined_sets h rs re rt S E T d1 d2 Hs He Ht H1 H2) as Hrun.
  pose proof (run_exercise_history h rs re rt S E T d1 d2 name
                Hs He Ht H1 H2 Hcols) as Hhist.
  eexists _, _, _, _, _, _. split_and!.
  - exact Hrun.
  - rewrite lookup_app_r by lia. by replace (_ - _)%nat with 2%nat by lia.
  - exact Hhist.
  - rewrite lookup_app_r by lia. by replace (_ - _)%nat with 4%nat by lia.
  - apply isort_perm.
  - apply (isort_sorted (row_leb history_keys)), row_leb_total.
  - intros k. apply isort_stable. intros x y Hx Hy.
    unfold tied in Hx, Hy. apply bool_decide_eq_true_1 in Hx, Hy.
    unfold row_leb. rewrite Hx, Hy. apply lex_leb_refl.
  - apply row_leb_dates.
  - apply row_leb_missing_last.
Qed.

(** The theorem on a bench press logged twice and a squat in between. *)
Lemma exercise_history_filters_and_sorts_witness :
  let ss := [Session.mk 1 100 "Push" ""] in
  let es := [Exercise.mk 1 1 "Bench" "chest" "Push";
             Exercise.mk 2 1 "Squat" "legs" "Push"] in
  let ts := [SetRow.mk 1 1 2 (90 # 1) 8 None ""; SetRow.mk 2 2 1 (140 # 1) 5 None "";
             SetRow.mk 3 1 1 (100 # 1) 5 None ""] in
  let S := frame_of sessions_columns (map session_row ss) in
  let E := frame_of exercises_columns (map exercise_row es) in
  let T := frame_of sets_columns (map set_row ts) in
  exists rj hj J r h' H,
    returns (_joined_sets 0%nat 1%nat 2%nat) [S; E; T] rj hj /\ hj !! rj = Some J /\
    returns (exercise_history 0%nat 1%nat 2%nat "Bench") [S; E; T] r h' /\
    h' !! r = Some H /\
    Permutation (rows H) (List.filter (named "Bench") (rows J)) /\
    Sorted history_order (rows H) /\
    (forall k, List.filter (tied k) (rows H)
               = List.filter (tied k) (List.filter (named "Bench") (rows J))) /\
    (forall x y d1 n1 d2 n2,
        sort_key history_keys x = [Timestamp d1; Int n1] ->
        sort_key history_keys y = [Timestamp d2; Int n2] ->
        (history_order x y <-> d1 < d2 \/ (d1 = d2 /\ n1 <= n2))) /\
    (forall x y v d n,
        sort_key history_keys x = [NaN; v] ->
        sort_key history_keys y = [Timestamp d; n] ->
        ~ history_order x y).
Proof.
  intros ss es ts S E T.
  apply (exercise_history_filters_and_sorts [S; E; T] 0%nat 1%nat 2%nat
           S E T ss es ts "Bench").
  - reflexivity.
  - reflexivity.
  - reflexivity.
  - split; [split |]; reflexivity.
  - split; reflexivity.
  - split; reflexivity.
Defined.

(** ** The weekly report on the empty tables, and across a new year *)

Lemma frame_empty_rows d :
  columns d <> [] ->
  frame_empty d = match rows d with [] => true | _ :: _ => false end.
Proof.
  unfold frame_empty, columns. intros H.
  destruct (rows d); [done |]. by destruct (schema d).
Qed.

Lemma frame_empty_history name J :
  columns J = joined_columns ->
  frame_empty (history_frame name J)
  = match rows (history_frame name J) with [] => true | _ :: _ => false end.
Proof.
  intros Hc. apply frame_empty_rows.
  change (columns (history_frame name J)) with (columns J). by rewrite Hc.
Qed.

Lemma rows_history name J :
  rows (history_frame name J)
  = isort (row_leb history_keys) (List.filter (named name) (rows J)).
Proof. reflexivity. Qed.

(** C5, evaluated: on the three empty tables of [load_data],
    [exercise_progress] returns a frame without rows, but
    [weekly_volume_by_muscle] raises: [add_week_columns] asks the [.dt]
    accessor of the date column before the [df.empty] guard is reached, and
    the date column of a frame made by [pd.DataFrame(columns=...)] has
    dtype object. *)
Theorem weekly_volume_by_muscle_raises_on_empty_tables (h : heap) :
  (forall name metric,
      exists r h' H,
        returns (p <- load_data_no_files ;;
                 exercise_progress p.1.1 p.1.2 p.2 name metric) h r h' /\
        h' !! r = Some H /\ rows H = []) /\
  exists h',
    (p <- load_data_no_files ;; weekly_volume_by_muscle p.1.1 p.1.2 p.2) h
    = (inl (AttributeError "Can only use .dt accessor with datetimelike values"), h').
Proof.
  destruct (run_load_data_no_files h) as (d1 & d2 & d3 & Hload & HS & HE & HT).
  assert ((h ++ [d1; d2; d3]) !! length h = Some d1) as Hs.
  { by rewrite lookup_app_r, Nat.sub_diag by lia. }
  assert ((h ++ [d1; d2; d3]) !! S (length h) = Some d2) as He.
  { rewrite lookup_app_r by lia. by replace (_ - _)%nat with 1%nat by lia. }
  assert ((h ++ [d1; d2; d3]) !! S (S (length h)) = Some d3) as Ht.
  { rewrite lookup_app_r by lia. by replace (_ - _)%nat with 2%nat by lia. }
  split.
  - intros name metric.
    destruct (joined_frame d1 d2 d3 [] [] [] HS HE HT)
      as (m1 & m2 & H1 & H2 & [Hcols Hrows] & _).
    pose proof (run_exercise_history _ _ _ _ _ _ _ m1 m2 name
                  Hs He Ht H1 H2 Hcols) as Hhist.
    cbv zeta in Hhist.
    eexists _, _, _. split_and!.
    + eapply returns_bind; [exact Hload |]. cbn [fst snd].
      unfold exercise_progress.
      eapply returns_bind; [exact Hhist |].
      eapply returns_pure.
      { apply run_is_empty. rewrite lookup_app_r by lia.
        by replace (_ - _)%nat with 4%nat by lia. }
      rewrite (frame_empty_history _ _ Hcols), rows_history, Hrows.
      cbn. apply returns_ret.
    + rewrite lookup_app_r by lia. by replace (_ - _)%nat with 4%nat by lia.
    + by rewrite rows_history, Hrows.
  - clear. pose proof (run_load_data_no_files_frames h) as [Hload _].
    eexists. rewrite (run_bind _ _ _ _ _ Hload). cbn [fst snd].
    unfold weekly_volume_by_muscle, add_week_columns.
    erewrite run_bind_exn; [reflexivity |].
    erewrite run_bind; last first.
    { apply run_copy. by rewrite lookup_app_r, Nat.sub_diag by lia. }
    erewrite run_bind; last first.
    { rewrite (run_getitem _ _ (frame_of sessions_columns [])) by apply lookup_new.
      reflexivity. }
    reflexivity.
Qed.

(** C6, evaluated: the week of the report is the ISO week, the year is the
    calendar year ([.dt.year]), not the ISO year.  Monday 2024-12-30 and
    Wednesday 2025-01-01 lie in the same ISO week, week 1 of ISO year
    2025; a chest set on each is reported in two rows, under (2024, 1) and
    under (2025, 1), with one set each.  Two chest sets in a week that
    does not straddle a new year, 2025-01-06 and 2025-01-08, are reported
    in one row with sets = 2 and volume = 100 * 5 + 90 * 8. *)
Theorem weekly_volume_splits_iso_week_at_new_year :
  let monday := Calendar.days_from_civil 2024 12 30 in
  let wednesday := Calendar.days_from_civil 2025 1 1 in
  let bench d w r := LogArgs d "Push" "Bench" 1 w r None (Some "chest") in
  (Calendar.iso_year monday, Calendar.iso_week monday) = (2025, 1) /\
  (Calendar.iso_year wednesday, Calendar.iso_week wednesday) = (2025, 1) /\
  (Calendar.year monday, Calendar.year wednesday) = (2024, 2025) /\
  rows_returned
          (scenario [bench monday (100 # 1) 5; bench wednesday (90 # 1) 8]
                    weekly_volume_by_muscle)
  = inr (Some [[("year", Int 2024); ("week", Int 1); ("muscle", Str "chest");
                ("sets", Int 1); ("volume", Float 500)];
               [("year", Int 2025); ("week", Int 1); ("muscle", Str "chest");
                ("sets", Int 1); ("volume", Float 720)]]) /\
  rows_returned
          (scenario [bench (Calendar.days_from_civil 2025 1 6) (100 # 1) 5;
                     bench (Calendar.days_from_civil 2025 1 8) (90 # 1) 8]
                    weekly_volume_by_muscle)
  = inr (Some [[("year", Int 2025); ("week", Int 2); ("muscle", Str "chest");
                ("sets", Int 2); ("volume", Float 1220)]]).
Proof. cbv zeta. split_and!; vm_compute; reflexivity. Qed.

(** ** Cells, columns and reductions *)

Lemma zip_with_values_map {T} f (g k : T -> value) (l : list T) :
  zip_with_values f (map g l) (map k l) = map (fun x => f (g x) (k x)) l.
Proof. induction l as [|x l IH]; cbn; [done | by rewrite IH]. Qed.

Lemma set_cells_map (c : string) (f : row -> value) (l : list row) :
  set_cells c (map f l) l = map (fun r => set_cell c (f r) r) l.
Proof. induction l as [|x l IH]; cbn; [done | by rewrite IH]. Qed.

Lemma set_cells_encoded {T} (c : string) (f : T -> value) (enc : T -> row)
  (l : list T) :
  set_cells c (map f l) (map enc l) = map (fun x => set_cell c (f x) (enc x)) l.
Proof. induction l as [|x l IH]; cbn; [done | by rewrite IH]. Qed.

Lemma get_set_cell_eq c v r : get c (set_cell c v r) = v.
Proof.
  induction r as [|[k w] r IH]; cbn.
  - by rewrite String.eqb_refl.
  - destruct (String.eqb c k) eqn:E; cbn; rewrite E; [done | exact IH].
Qed.

Lemma get_set_cell_ne c c' v r : c' <> c -> get c' (set_cell c v r) = get c' r.
Proof.
  intros Hne. induction r as [|[k w] r IH]; cbn.
  - by apply String.eqb_neq in Hne as ->.
  - destruct (String.eqb_spec c k) as [-> | Hck]; cbn.
    + by apply String.eqb_neq in Hne as ->.
    + by rewrite IH.
Qed.

Lemma dtype_of_set_dtype_eq c d sch : dtype_of c (set_dtype c d sch) = Some d.
Proof.
  induction sch as [|[k e] sch IH]; cbn.
  - by rewrite String.eqb_refl.
  - destruct (String.eqb c k) eqn:E; cbn; rewrite E; [done | exact IH].
Qed.

Lemma dtype_of_set_dtype_ne c c' d sch :
  c' <> c -> dtype_of c' (set_dtype c d sch) = dtype_of c' sch.
Proof.
  intros Hne. induction sch as [|[k e] sch IH]; cbn.
  - by apply String.eqb_neq in Hne as ->.
  - destruct (String.eqb_spec c k) as [-> | Hck]; cbn.
    + by apply String.eqb_neq in Hne as ->.
    + by rewrite IH.
Qed.

Lemma has_column_dtype c d dt : dtype_of c (schema d) = Some dt -> has_column c d = true.
Proof. unfold has_column. by intros ->. Qed.

(** Maximum. *)
Lemma value_compare_numbers a b :
  is_number a -> is_number b -> value_compare a b = Qcompare (to_Q a) (to_Q b).
Proof. destruct a, b; cbn; done. Qed.

Lemma vmax_numbers a b :
  is_number a -> is_number b ->
  (vmax a b = a \/ vmax a b = b) /\
  (to_Q a <= to_Q (vmax a b))%Q /\ (to_Q b <= to_Q (vmax a b))%Q.
Proof.
  intros Ha Hb.
  assert (vmax a b = match Qcompare (to_Q a) (to_Q b) with Lt => b | _ => a end) as ->.
  { rewrite <- value_compare_numbers by done. destruct a, b; done. }
  destruct (Qcompare (to_Q a) (to_Q b)) eqn:E.
  - apply Qeq_alt in E. split_and!; [by left | apply Qle_refl |].
    rewrite E. apply Qle_refl.
  - apply Qlt_alt in E. split_and!; [by right | by apply Qlt_le_weak | apply Qle_refl].
  - apply Qgt_alt in E. split_and!; [by left | apply Qle_refl | by apply Qlt_le_weak].
Qed.

Lemma fold_vmax_spec vs a :
  is_number a -> Forall is_number vs ->
  is_number (fold_left vmax vs a) /\
  fold_left vmax vs a ∈ a :: vs /\
  (forall v, v ∈ a :: vs -> (to_Q v <= to_Q (fold_left vmax vs a))%Q).
Proof.
  intros Ha Hvs. revert a Ha.
  induction Hvs as [|b vs Hb Hvs IH]; intros a Ha; cbn [fold_left].
  - split_and!; [done | by left |].
    intros v Hv%list_elem_of_singleton. subst. apply Qle_refl.
  - destruct (vmax_numbers a b Ha Hb) as (Hor & Hla & Hlb).
    assert (is_number (vmax a b)) as Hm by (destruct Hor as [-> | ->]; done).
    destruct (IH _ Hm) as (Hn & Hin & Hub).
    split_and!; [done | |].
    + apply elem_of_cons in Hin as [Hin | Hin].
      * rewrite Hin. destruct Hor as [-> | ->]; [by left | right; by left].
      * by do 2 right.
    + intros v Hv.
      assert (to_Q (vmax a b) <= to_Q (fold_left vmax vs (vmax a b)))%Q as Hmm.
      { apply Hub. by left. }
      apply elem_of_cons in Hv as [-> | Hv]; [by eapply Qle_trans |].
      apply elem_of_cons in Hv as [-> | Hv]; [by eapply Qle_trans |].
      apply Hub. by right.
Qed.

Lemma series_max_spec vs :
  vs <> [] -> Forall is_number vs ->
  series_max vs ∈ vs /\ (forall v, v ∈ vs -> (to_Q v <= to_Q (series_max vs))%Q).
Proof.
  destruct vs as [|a vs]; [done |]. intros _ Hvs.
  apply Forall_cons in Hvs as [Ha Hvs].
  unfold series_max. cbn [fold_left].
  assert (vmax NaN a = a) as -> by (by destruct a).
  destruct (fold_vmax_spec vs a Ha Hvs) as (_ & Hin & Hub). done.
Qed.

(** Sum. *)
Lemma vadd_numbers a b :
  is_number a -> is_number b ->
  is_number (vadd a b) /\ (to_Q (vadd a b) == to_Q a + to_Q b)%Q /\
  (is_float a \/ is_float b -> is_float (vadd a b)).
Proof.
  destruct a, b; cbn; try done; intros _ _; split_and!; try done;
    try apply Qred_correct; try tauto.
  rewrite inject_Z_plus. reflexivity.
Qed.

Lemma fold_vadd_spec vs a :
  is_number a -> Forall is_number vs ->
  is_number (fold_left vadd_skipna vs a) /\
  (to_Q (fold_left vadd_skipna vs a)
   == to_Q a + fold_right (fun v acc => to_Q v + acc) 0 vs)%Q /\
  (is_float a \/ Exists is_float vs -> is_float (fold_left vadd_skipna vs a)).
Proof.
  intros Ha Hvs. revert a Ha.
  induction Hvs as [|b vs Hb Hvs IH]; intros a Ha; cbn [fold_left fold_right].
  - split_and!; [done | by rewrite Qplus_0_r |].
    intros [H | H%Exists_nil]; done.
  - assert (vadd_skipna a b = vadd a b) as -> by (by destruct b).
    destruct (vadd_numbers a b Ha Hb) as (Hn & Hq & Hf).
    destruct (IH _ Hn) as (Hn' & Hq' & Hf').
    split_and!; [done | |].
    + rewrite Hq', Hq. by rewrite Qplus_assoc.
    + intros [H | H]; apply Hf'.
      * left. apply Hf. by left.
      * apply Exists_cons in H as [H | H]; [left; apply Hf; by right | by right].
Qed.

Lemma series_sum_spec {T} (f : T -> value) (l : list T) :
  l <> [] -> Forall (fun x => is_float (f x)) l ->
  exists q, series_sum (map f l) = Float q /\
            (q == fold_right (fun x acc => to_Q (f x) + acc) 0 l)%Q.
Proof.
  intros Hne Hf.
  assert (Forall is_number (map f l)) as Hnum.
  { apply Forall_map. eapply Forall_impl; [exact Hf |].
    intros x Hx. cbn in Hx. by destruct (f x). }
  destruct (fold_vadd_spec (map f l) (Int 0) I Hnum) as (_ & Hq & Hfl).
  unfold series_sum.
  assert (is_float (fold_left vadd_skipna (map f l) (Int 0))) as Hfloat.
  { apply Hfl. right. destruct l as [|x l]; [done |].
    apply Forall_cons in Hf as [Hx _]. by apply Exists_cons_hd. }
  destruct (fold_left vadd_skipna (map f l) (Int 0)) as [| |q| |]; try done.
  exists q. split; [done |]. cbn in Hq. rewrite Hq, Qplus_0_l.
  clear. induction l as [|x l IH]; cbn; [done |]. by rewrite IH.
Qed.

(** ** Grouping by session date *)

Section SortMap.
Context {A B : Type} (leb1 : A -> A -> bool) (leb2 : B -> B -> bool) (f : A -> B).
Hypothesis leb_f : forall x y, leb2 (f x) (f y) = leb1 x y.

Lemma insert_sorted_map x l :
  insert_sorted leb2 (f x) (map f l) = map f (insert_sorted leb1 x l).
Proof.
  induction l as [|y l IH]; cbn; [done |].
  rewrite leb_f. destruct (leb1 x y); cbn; [done | by rewrite IH].
Qed.

Lemma isort_map l : isort leb2 (map f l) = map f (isort leb1 l).
Proof.
  induction l as [|x l IH]; cbn; [done |]. by rewrite IH, insert_sorted_map.
Qed.
End SortMap.

Lemma isort_id {A} (leb : A -> A -> bool) (l : list A) :
  Sorted (fun x y => leb x y = true) l -> isort leb l = l.
Proof.
  induction l as [|x l IH]; cbn; [done |].
  intros [Hs Hhd]%Sorted_inv. rewrite IH by done.
  destruct l as [|y l]; cbn; [done |].
  apply HdRel_inv in Hhd. by rewrite Hhd.
Qed.

Lemma Sorted_weaken {A} (R R' : A -> A -> Prop) (l : list A) :
  (forall x y, R x y -> R' x y) -> Sorted R l -> Sorted R' l.
Proof.
  intros HR. induction 1 as [|x l Hs IH Hhd]; constructor; [done |].
  destruct Hhd; constructor. by apply HR.
Qed.

Lemma lex_compare_date_key a b : lex_compare (date_key a) (date_key b) = (a ?= b).
Proof. cbn. by destruct (a ?= b). Qed.

Lemma lex_leb_date_key a b : lex_leb (date_key a) (date_key b) = (a <=? b).
Proof. unfold lex_leb. rewrite lex_compare_date_key. unfold Z.leb. by destruct (a ?= b). Qed.

Lemma dedup_date_keys zs :
  StronglySorted Z.le zs ->
  exists zs',
    dedup_adjacent (map date_key zs) = map date_key zs' /\
    StronglySorted Z.lt zs' /\
    (forall z, z ∈ zs' <-> z ∈ zs).
Proof.
  induction zs as [|z zs IH]; intros Hs.
  - exists []. split_and!; [done | constructor | done].
  - apply StronglySorted_inv in Hs as [Hs Hz].
    destruct (IH Hs) as (zs' & Hd & Hs' & Hin).
    destruct zs as [|z1 zs2].
    + exists [z]. split_and!; [done | repeat constructor | done].
    + cbn [map dedup_adjacent]. rewrite lex_compare_date_key.
      cbn [map] in Hd.
      destruct (Z.compare_spec z z1) as [-> | Hlt | Hgt].
      * exists zs'. split_and!; [exact Hd | done |].
        intros y. rewrite Hin, !elem_of_cons. tauto.
      * exists (z :: zs'). split_and!.
        -- cbn [map]. by rewrite <- Hd.
        -- constructor; [done |]. apply Forall_forall. intros y Hy%Hin.
           apply Forall_cons in Hz as [_ Hz]. apply StronglySorted_inv in Hs as [_ Hz1].
           apply elem_of_cons in Hy as [-> | Hy]; [done |].
           rewrite Forall_forall in Hz1. specialize (Hz1 y Hy). lia.
        -- intros y. rewrite !elem_of_cons, Hin, elem_of_cons. tauto.
      * apply Forall_cons in Hz as [Hz _]. lia.
Qed.

Lemma complete_date_keys (rows : list row) :
  Forall (fun r => is_date_cell (get "session_date" r)) rows ->
  List.filter complete (map (sort_key ["session_date"]) rows)
  = map date_key (omap date_of rows).
Proof.
  induction 1 as [|r rows Hr Hrows IH]; [done |].
  change (omap date_of (r :: rows))
    with (match date_of r with
          | Some y => y :: omap date_of rows
          | None => omap date_of rows
          end).
  cbn [map List.filter]. unfold date_of at 1, sort_key at 1.
  cbn [map complete forallb].
  destruct (get "session_date" r) eqn:E; cbn in Hr; try done; cbn;
    rewrite ?E; cbn; by rewrite IH.
Qed.

Lemma elem_of_dates (d : Z) (rows : list row) :
  d ∈ omap date_of rows <->
  exists r, r ∈ rows /\ get "session_date" r = Timestamp d.
Proof.
  rewrite list_elem_of_omap. unfold date_of. split.
  - intros (r & Hr & Hd). exists r. split; [done |].
    destruct (get "session_date" r); try done. by injection Hd as ->.
  - intros (r & Hr & Hd). exists r. split; [done |]. by rewrite Hd.
Qed.

(** The groups of a frame grouped by session date: the dates that occur,
    each once, in ascending order. *)
Lemma group_keys_dates rows :
  Forall (fun r => is_date_cell (get "session_date" r)) rows ->
  exists dates,
    group_keys ["session_date"] rows = map date_key dates /\
    StronglySorted Z.lt dates /\
    (forall d, d ∈ dates <->
               exists r, r ∈ rows /\ get "session_date" r = Timestamp d).
Proof.
  intros Hrows. unfold group_keys. rewrite (complete_date_keys _ Hrows).
  rewrite (isort_map Z.leb lex_leb date_key) by apply lex_leb_date_key.
  destruct (dedup_date_keys (isort Z.leb (omap date_of rows))) as (ds & Hd & Hs & Hin).
  { apply Sorted_StronglySorted; [intros x y z; lia |].
    eapply Sorted_weaken; [| apply (isort_sorted Z.leb)].
    - intros x y H. by apply Z.leb_le.
    - intros x y H. apply Z.leb_gt in H. apply Z.leb_le. lia. }
  exists ds. split_and!; [done | done |].
  intros d. rewrite Hin, <- elem_of_dates.
  by rewrite (isort_perm Z.leb).
Qed.

Lemma in_group_date d r :
  in_group ["session_date"] (date_key d) r
  = bool_decide (get "session_date" r = Timestamp d).
Proof.
  unfold in_group, date_key. cbn [sort_key map lex_compare].
  destruct (get "session_date" r) as [| | | |d']; cbn;
    try (symmetry; by apply bool_decide_eq_false_2).
  destruct (Z.compare_spec d' d) as [-> | H | H].
  - symmetry. by apply bool_decide_eq_true_2.
  - symmetry. apply bool_decide_eq_false_2. intros [=]. lia.
  - symmetry. apply bool_decide_eq_false_2. intros [=]. lia.
Qed.

Lemma group_date d rows : group ["session_date"] (date_key d) rows = on_date d rows.
Proof. unfold group, on_date. apply List.filter_ext, in_group_date. Qed.

(** ** The progress report *)

Lemma group_and_aggregate_ok by_ aggs d :
  (forall c, c ∈ by_ ++ map agg_col aggs -> c ∈ columns d) ->
  group_and_aggregate by_ aggs d
  = inr {| schema := map (fun c => (c, dtype_or_object c d)) by_
                     ++ map (fun a => (agg_out a,
                                       agg_dtype (agg_fun a)
                                                 (dtype_or_object (agg_col a) d))) aggs;
           rows := map (agg_row (rows d) by_ aggs) (group_keys by_ (rows d)) |}.
Proof.
  intros H. unfold group_and_aggregate. by rewrite missing_column_none.
Qed.

(** Grouping by date, reducing one column and sorting by date again. *)
Lemma report_by_date (R : list row) (col : string) (f : aggfunc) :
  Forall (fun r => is_date_cell (get "session_date" r)) R ->
  exists dates,
    StronglySorted Z.lt dates /\
    (forall d, d ∈ dates <->
               exists r, r ∈ R /\ get "session_date" r = Timestamp d) /\
    isort (row_leb ["session_date"])
          (map (agg_row R ["session_date"] [NamedAgg "value" col f])
               (group_keys ["session_date"] R))
    = report_rows (get col) f R dates.
Proof.
  intros HR. destruct (group_keys_dates R HR) as (dates & Hk & Hs & Hin).
  exists dates. split_and!; [done | done |].
  rewrite Hk, map_map. unfold report_rows.
  rewrite (map_ext _ (fun d => [("session_date", Timestamp d);
                              ("value", aggregate f (map (get col) (on_date d R)))])).
  2:{ intros d. unfold agg_row. cbn. by rewrite group_date. }
  rewrite (isort_map Z.leb); last first.
  { intros x y. unfold row_leb. cbn. apply (lex_leb_date_key x y). }
  f_equal. apply isort_id.
  apply StronglySorted_Sorted in Hs.
  eapply Sorted_weaken; [| exact Hs]. intros x y Hxy. apply Z.leb_le. lia.
Qed.

(** The same after [df[col] = cells]: the new column is what is reduced. *)
Lemma with_cell_on_date col (val : row -> value) d (R : list row) :
  col <> "session_date" ->
  map (get col) (on_date d (map (fun r => set_cell col (val r) r) R))
  = map val (on_date d R).
Proof.
  intros Hne. unfold on_date. rewrite filter_map_comm, map_map.
  rewrite (List.filter_ext _ (fun r => bool_decide (get "session_date" r = Timestamp d))).
  2:{ intros r. by rewrite get_set_cell_ne by done. }
  apply map_ext. intros r. apply get_set_cell_eq.
Qed.

Lemma with_cell_dates col (val : row -> value) (R : list row) :
  col <> "session_date" ->
  Forall (fun r => is_date_cell (get "session_date" r)) R ->
  Forall (fun r => is_date_cell (get "session_date" r))
         (map (fun r => set_cell col (val r) r) R).
Proof.
  intros Hne HR. apply Forall_map. eapply Forall_impl; [exact HR |].
  intros r Hr. cbn. by rewrite get_set_cell_ne by done.
Qed.

Lemma report_by_date_with_cell (R : list row) (col : string) (val : row -> value)
  (f : aggfunc) :
  col <> "session_date" ->
  Forall (fun r => is_date_cell (get "session_date" r)) R ->
  let R' := map (fun r => set_cell col (val r) r) R in
  exists dates,
    StronglySorted Z.lt dates /\
    (forall d, d ∈ dates <->
               exists r, r ∈ R /\ get "session_date" r = Timestamp d) /\
    isort (row_leb ["session_date"])
          (map (agg_row R' ["session_date"] [NamedAgg "value" col f])
               (group_keys ["session_date"] R'))
    = report_rows val f R dates.
Proof.
  intros Hne HR R'.
  destruct (report_by_date R' col f (with_cell_dates col val R Hne HR))
    as (dates & Hs & Hin & Hrows).
  exists dates. split_and!; [done | |].
  - intros d. rewrite Hin. unfold R'. split.
    + intros (r & Hr & Hd). apply list_elem_of_fmap in Hr as (r0 & -> & Hr0).
      exists r0. split; [done |]. by rewrite get_set_cell_ne in Hd by done.
    + intros (r & Hr & Hd). exists (set_cell col (val r) r). split.
      * apply list_elem_of_fmap. by exists r.
      * by rewrite get_set_cell_ne by done.
  - rewrite Hrows. unfold report_rows. apply map_ext. intros d.
    unfold R'. by rewrite with_cell_on_date by done.
Qed.

Lemma exercise_progress_unfold s e t name metric :
  exercise_progress s e t name metric
  = (df <- exercise_history s e t name ;; progress_of_history df metric).
Proof. reflexivity. Qed.

Lemma in_joined_columns c :
  c ∈ ["session_date"; "weight"; "reps"; "exercise_name"; "muscle"; "set_id"] ->
  c ∈ joined_columns.
Proof. unfold joined_columns, sets_columns. set_solver. Qed.

Lemma columns_of_dtype c d dt : dtype_of c (schema d) = Some dt -> c ∈ columns d.
Proof.
  unfold columns. induction (schema d) as [|[k e] sch IH]; cbn; [done |].
  destruct (String.eqb_spec c k) as [-> | Hne]; [by left |].
  intros H. right. by apply IH.
Qed.

(** Grouping the frame at [r] by date. *)
Lemma run_group_by_date (k : heap) (r : ref) (D : DataFrame) (col : string) (f : aggfunc) :
  k !! r = Some D ->
  "session_date" ∈ columns D -> col ∈ columns D ->
  exists G,
    pd.groupby_agg r ["session_date"] [NamedAgg "value" col f] k
    = (inr (length k), k ++ [G]) /\
    has_column "session_date" G = true /\
    rows G = map (agg_row (rows D) ["session_date"] [NamedAgg "value" col f])
                 (group_keys ["session_date"] (rows D)).
Proof.
  intros Hr Hsd Hcol.
  pose proof (group_and_aggregate_ok ["session_date"] [NamedAgg "value" col f] D)
    as HG.
  cbn in HG. specialize (HG ltac:(intros c [-> | Hc]%elem_of_cons; [done |];
                                  by apply list_elem_of_singleton in Hc as ->)).
  eexists. split_and!.
  - eapply run_groupby_agg; [exact Hr | exact HG].
  - reflexivity.
  - reflexivity.
Qed.

(** Sorting the grouped frame at [a] by date. *)
Lemma run_sort_by_date (k : heap) (a : ref) (G : DataFrame) :
  k !! a = Some G -> has_column "session_date" G = true ->
  exists P,
    pd.sort_values a ["session_date"] k = (inr (length k), k ++ [P]) /\
    rows P = isort (row_leb ["session_date"]) (rows G).
Proof.
  intros Ha Hc. eexists. split.
  - eapply run_sort_values; [exact Ha |].
    unfold sort_rows_by, missing_column. cbn. rewrite Hc. cbn. reflexivity.
  - reflexivity.
Qed.

Lemma run_progress_top (k : heap) (r : ref) (Hf : DataFrame) :
  k !! r = Some Hf -> columns Hf = joined_columns -> rows Hf <> [] ->
  Forall (fun x => is_date_cell (get "session_date" x)) (rows Hf) ->
  exists G P dates,
    progress_of_history r "top_set_weight" k = (inr (S (length k)), k ++ [G; P]) /\
    StronglySorted Z.lt dates /\
    (forall d, d ∈ dates <->
               exists x, x ∈ rows Hf /\ get "session_date" x = Timestamp d) /\
    rows P = report_rows (get "weight") agg_max (rows Hf) dates.
Proof.
  intros Hr Hcols Hne Hdates.
  destruct (run_group_by_date k r Hf "weight" agg_max Hr)
    as (G & Hrun & HGc & HGr).
  { rewrite Hcols. apply in_joined_columns. set_solver. }
  { rewrite Hcols. apply in_joined_columns. set_solver. }
  destruct (run_sort_by_date (k ++ [G]) (length k) G (lookup_new _ _) HGc)
    as (P & Hsort & HPr).
  destruct (report_by_date (rows Hf) "weight" agg_max Hdates) as (dates & Hs & Hin & Hrep).
  exists G, P, dates. split_and!; [| done | done | by rewrite HPr, HGr].
  unfold progress_of_history.
  rewrite (run_bind _ _ _ _ _ (run_is_empty _ _ _ Hr)).
  rewrite frame_empty_rows by (rewrite Hcols; done).
  destruct (rows Hf); [done |]. cbn [String.eqb Ascii.eqb Bool.eqb].
  rewrite (run_bind _ _ _ _ _ Hrun), Hsort.
  rewrite length_app, <- app_assoc. cbn [length app]. f_equal. f_equal. lia.
Qed.

(** The two metrics that first write a column into the history frame: the
    write, then the grouping. *)
Lemma run_write_and_group (k : heap) (r : ref) (Hf : DataFrame) (col : string)
  (cells : Series -> Series -> Series) (val : row -> value) (f : aggfunc) :
  k !! r = Some Hf -> columns Hf = joined_columns ->
  col <> "session_date" ->
  (forall d1 d2 (R : list row),
      s_values (cells (mkSeries d1 (map (get "weight") R))
                      (mkSeries d2 (map (get "reps") R)))
      = map val R) ->
  exists Hf' G,
    (w <- pd.getitem r "weight" ;;
     rp <- pd.getitem r "reps" ;;
     pd.setitem r col (cells w rp) ;;;
     pd.groupby_agg r ["session_date"] [NamedAgg "value" col f]) k
    = (inr (length k), <[r := Hf']> k ++ [G]) /\
    has_column "session_date" G = true /\
    rows G = map (agg_row (map (fun x => set_cell col (val x) x) (rows Hf))
                          ["session_date"] [NamedAgg "value" col f])
                 (group_keys ["session_date"]
                             (map (fun x => set_cell col (val x) x) (rows Hf))).
Proof.
  intros Hr Hcols Hne Hcells.
  destruct (column_in "weight" Hf) as [dw Hw].
  { rewrite Hcols. apply in_joined_columns. set_solver. }
  destruct (column_in "reps" Hf) as [dr Hrp].
  { rewrite Hcols. apply in_joined_columns. set_solver. }
  set (s := cells (mkSeries dw (map (get "weight") (rows Hf)))
                  (mkSeries dr (map (get "reps") (rows Hf)))).
  assert (<[r := set_column col s Hf]> k !! r = Some (set_column col s Hf)) as Hr'.
  { apply list_lookup_insert_eq. by eapply lookup_lt_Some. }
  destruct (run_group_by_date _ r _ col f Hr') as (G & Hrun & HGc & HGr).
  { assert ("session_date" ∈ columns Hf) as Hin.
    { rewrite Hcols. apply in_joined_columns. set_solver. }
    apply dtype_of_columns in Hin as [dt Hdt].
    apply (columns_of_dtype _ _ dt). cbn [schema set_column].
    by rewrite dtype_of_set_dtype_ne by done. }
  { apply (columns_of_dtype _ _ (s_dtype s)). cbn [schema set_column].
    apply dtype_of_set_dtype_eq. }
  exists (set_column col s Hf), G. split_and!; [| done |].
  - erewrite run_bind; last by rewrite (run_getitem _ _ _ _ Hr), Hw.
    erewrite run_bind; last by rewrite (run_getitem _ _ _ _ Hr), Hrp.
    erewrite run_bind by (apply run_setitem; exact Hr).
    cbv beta. fold s. rewrite Hrun. by rewrite length_insert.
  - rewrite HGr. cbn [rows set_column]. unfold s. rewrite Hcells.
    by rewrite set_cells_map.
Qed.

Lemma run_progress_with_cell (k : heap) (r : ref) (Hf : DataFrame) (metric col : string)
  (cells : Series -> Series -> Series) (val : row -> value) (f : aggfunc) :
  k !! r = Some Hf -> columns Hf = joined_columns -> rows Hf <> [] ->
  Forall (fun x => is_date_cell (get "session_date" x)) (rows Hf) ->
  col <> "session_date" ->
  (forall d1 d2 (R : list row),
      s_values (cells (mkSeries d1 (map (get "weight") R))
                      (mkSeries d2 (map (get "reps") R)))
      = map val R) ->
  progress_of_history r metric
  = (e <- pd.is_empty r ;;
     if e then ret r
     else agg <- (w <- pd.getitem r "weight" ;;
                  rp <- pd.getitem r "reps" ;;
                  pd.setitem r col (cells w rp) ;;;
                  pd.groupby_agg r ["session_date"] [NamedAgg "value" col f]) ;;
          pd.sort_values agg ["session_date"]) ->
  exists Hf' G P dates,
    progress_of_history r metric k
    = (inr (S (length k)), <[r := Hf']> k ++ [G; P]) /\
    StronglySorted Z.lt dates /\
    (forall d, d ∈ dates <->
               exists x, x ∈ rows Hf /\ get "session_date" x = Timestamp d) /\
    rows P = report_rows val f (rows Hf) dates.
Proof.
  intros Hr Hcols Hne Hdates Hcol Hcells ->.
  destruct (run_write_and_group k r Hf col cells val f Hr Hcols Hcol Hcells)
    as (Hf' & G & Hrun & HGc & HGr).
  destruct (run_sort_by_date (<[r := Hf']> k ++ [G]) (length k) G) as (P & Hsort & HPr);
    [| done |].
  { rewrite <- (length_insert k r Hf'). apply lookup_new. }
  destruct (report_by_date_with_cell (rows Hf) col val f Hcol Hdates)
    as (dates & Hs & Hin & Hrep).
  exists Hf', G, P, dates. split_and!; [| done | done | by rewrite HPr, HGr].
  rewrite (run_bind _ _ _ _ _ (run_is_empty _ _ _ Hr)).
  rewrite frame_empty_rows by (rewrite Hcols; done).
  destruct (rows Hf); [done |].
  rewrite (run_bind _ _ _ _ _ Hrun), Hsort.
  rewrite length_app, length_insert, <- app_assoc. cbn [length app].
  f_equal. f_equal. lia.
Qed.

(** ** The metrics *)

Lemma series_max_is_maximum (val : row -> value) (fQ : row -> Q) (G : list row) :
  G <> [] ->
  Forall (fun r => is_float (val r) /\ (to_Q (val r) == fQ r)%Q) G ->
  exists q, series_max (map val G) = Float q /\ is_maximum fQ G q.
Proof.
  intros Hne HG.
  destruct (series_max_spec (map val G)) as [Hin Hub].
  { by destruct G. }
  { apply Forall_map. eapply Forall_impl; [exact HG |].
    intros r [Hr _]. cbn. by destruct (val r). }
  apply list_elem_of_fmap in Hin as (r0 & Hr0 & Hin0).
  rewrite Forall_forall in HG.
  destruct (HG r0 Hin0) as [Hfl Hq0].
  destruct (val r0) as [| |q| |] eqn:E; try done.
  exists q. split; [done |]. split.
  - exists r0. split; [done |]. by rewrite <- Hq0.
  - intros r Hr. destruct (HG r Hr) as [_ Hq]. rewrite <- Hq.
    specialize (Hub (val r)). rewrite Hr0 in Hub. cbn in Hub. apply Hub.
    apply list_elem_of_fmap. by exists r.
Qed.

Lemma series_sum_is_total (val : row -> value) (fQ : row -> Q) (G : list row) :
  G <> [] ->
  Forall (fun r => is_float (val r) /\ (to_Q (val r) == fQ r)%Q) G ->
  exists q, series_sum (map val G) = Float q /\ (q == total fQ G)%Q.
Proof.
  intros Hne HG.
  destruct (series_sum_spec val G Hne) as (q & Hq & Hsum).
  { eapply Forall_impl; [exact HG |]. by intros r [Hr _]. }
  exists q. split; [done |]. rewrite Hsum. unfold total.
  clear -HG. induction HG as [|r G [_ Hr] HG IH]; cbn; [done |].
  by rewrite IH, Hr.
Qed.

Lemma weight_cell r :
  history_row r ->
  is_float (get "weight" r) /\ (to_Q (get "weight" r) == weight_of r)%Q.
Proof. intros [[w Hw] _]. unfold weight_of. rewrite Hw. done. Qed.

Lemma volume_cell_spec r :
  history_row r ->
  is_float (volume_cell r) /\ (to_Q (volume_cell r) == volume_of r)%Q.
Proof.
  intros ([w Hw] & [n Hn] & _). unfold volume_cell, volume_of, weight_of, reps_of.
  rewrite Hw, Hn. cbn. split; [done |]. apply Qred_correct.
Qed.

Lemma e1rm_cell_spec r :
  history_row r ->
  is_float (e1rm_cell r) /\ (to_Q (e1rm_cell r) == e1rm_of r)%Q.
Proof.
  intros ([w Hw] & [n Hn] & _). unfold e1rm_cell, e1rm_of, weight_of, reps_of.
  rewrite Hw, Hn. cbn. split; [done |].
  rewrite !Qred_correct. reflexivity.
Qed.

Lemma on_date_nonempty d (R : list row) x :
  x ∈ R -> get "session_date" x = Timestamp d -> on_date d R <> [].
Proof.
  intros Hx Hd Hnil.
  assert (In x (on_date d R)) as Hin.
  { apply filter_In. split; [by apply list_elem_of_In |].
    by apply bool_decide_eq_true_2. }
  rewrite Hnil in Hin. done.
Qed.

Lemma on_date_subset d (R : list row) (P : row -> Prop) :
  Forall P R -> Forall P (on_date d R).
Proof.
  rewrite !Forall_forall. intros H x Hx. apply H.
  apply list_elem_of_In. apply list_elem_of_In in Hx.
  by apply filter_In in Hx as [Hx _].
Qed.

(** Every row of a report over the dates of [R] is the row of the metric. *)
Lemma report_rows_progress metric (val : row -> value) (f : aggfunc)
  (R : list row) (dates : list Z) :
  Forall history_row R ->
  (forall d, d ∈ dates ->
             exists r, r ∈ R /\ get "session_date" r = Timestamp d) ->
  (forall G, G <> [] -> Forall history_row G ->
             exists q, aggregate f (map val G) = Float q /\ metric_value metric G q) ->
  Forall2 (progress_row metric R) dates (report_rows val f R dates).
Proof.
  intros HR Hdates Hval. unfold report_rows.
  apply Forall2_fmap_r, Forall_Forall2_diag, Forall_forall.
  intros d Hd. destruct (Hdates d Hd) as (x & Hx & Hxd).
  destruct (Hval (on_date d R)) as (q & Hq & Hm).
  { by eapply on_date_nonempty. }
  { by apply on_date_subset. }
  exists q. by rewrite Hq.
Qed.

Lemma top_set_weight_metric G :
  G <> [] -> Forall history_row G ->
  exists q, aggregate agg_max (map (get "weight") G) = Float q /\
            metric_value "top_set_weight" G q.
Proof.
  intros Hne HG.
  destruct (series_max_is_maximum (get "weight") weight_of G Hne) as (q & Hq & Hm).
  { eapply Forall_impl; [exact HG |]. apply weight_cell. }
  exists q. split; [done |]. by constructor.
Qed.

Lemma total_volume_metric G :
  G <> [] -> Forall history_row G ->
  exists q, aggregate agg_sum (map volume_cell G) = Float q /\
            metric_value "total_volume" G q.
Proof.
  intros Hne HG.
  destruct (series_sum_is_total volume_cell volume_of G Hne) as (q & Hq & Hm).
  { eapply Forall_impl; [exact HG |]. apply volume_cell_spec. }
  exists q. split; [done |]. by constructor.
Qed.

Lemma e1rm_metric G :
  G <> [] -> Forall history_row G ->
  exists q, aggregate agg_max (map e1rm_cell G) = Float q /\
            metric_value "e1rm" G q.
Proof.
  intros Hne HG.
  destruct (series_max_is_maximum e1rm_cell e1rm_of G Hne) as (q & Hq & Hm).
  { eapply Forall_impl; [exact HG |]. apply e1rm_cell_spec. }
  exists q. split; [done |]. by constructor.
Qed.

(** The rows of a history are history rows. *)
Lemma joined_row_history_row extra j : history_row (joined_row extra j).
Proof.
  destruct j as [[t oe] os]. split_and!.
  - by eexists.
  - by eexists.
  - unfold joined_row. cbn. by destruct os.
Qed.

Lemma history_rows name J (js : list joined) extra :
  rows J = map (joined_row extra) js ->
  Forall history_row (rows (history_frame name J)).
Proof.
  intros HJ. rewrite rows_history. apply Forall_forall. intros r Hr.
  rewrite (isort_perm (row_leb history_keys)) in Hr.
  apply list_elem_of_In, filter_In in Hr as [Hr _]. rewrite HJ in Hr.
  apply in_map_iff in Hr as (j & <- & _). apply joined_row_history_row.
Qed.

Lemma volume_cells d1 d2 (R : list row) :
  s_values (series_mul (mkSeries d1 (map (get "weight") R))
                       (mkSeries d2 (map (get "reps") R)))
  = map volume_cell R.
Proof. cbn. apply zip_with_values_map. Qed.

Lemma e1rm_cells d1 d2 (R : list row) :
  s_values (series_mul (mkSeries d1 (map (get "weight") R))
                       (series_radd_scalar 1
                          (series_div_scalar (mkSeries d2 (map (get "reps") R)) 30)))
  = map e1rm_cell R.
Proof.
  cbn. rewrite !map_map.
  apply (zip_with_values_map vmul (get "weight")
           (fun r => vadd (Int 1) (vdiv (get "reps" r) (Float 30)))).
Qed.

(** What [exercise_progress] returns on a history with rows, for the three
    metrics. *)
Lemma run_progress_of_history (k : heap) (r : ref) (Hf : DataFrame) (metric : string) :
  k !! r = Some Hf -> columns Hf = joined_columns -> rows Hf <> [] ->
  Forall history_row (rows Hf) ->
  metric ∈ ["top_set_weight"; "total_volume"; "e1rm"] ->
  exists Hf' G P dates,
    progress_of_history r metric k
    = (inr (S (length k)), <[r := Hf']> k ++ [G; P]) /\
    StronglySorted Z.lt dates /\
    (forall d, d ∈ dates <->
               exists x, x ∈ rows Hf /\ get "session_date" x = Timestamp d) /\
    Forall2 (progress_row metric (rows Hf)) dates (rows P).
Proof.
  intros Hr Hcols Hne HR Hmetric.
  assert (Forall (fun x => is_date_cell (get "session_date" x)) (rows Hf)) as Hdates.
  { eapply Forall_impl; [exact HR |]. by intros x (_ & _ & Hx). }
  apply elem_of_cons in Hmetric as [-> | Hmetric];
    [| apply elem_of_cons in Hmetric as [-> | Hmetric];
       [| apply list_elem_of_singleton in Hmetric as ->]].
  - destruct (run_progress_top k r Hf Hr Hcols Hne Hdates)
      as (G & P & dates & Hrun & Hs & Hin & Hrows).
    exists Hf, G, P, dates. split_and!; [| done | done |].
    + by rewrite list_insert_id.
    + rewrite Hrows. apply report_rows_progress; [done | apply Hin |].
      apply top_set_weight_metric.
  - destruct (run_progress_with_cell k r Hf "total_volume" "volume" series_mul
                volume_cell agg_sum Hr Hcols Hne Hdates)
      as (Hf' & G & P & dates & Hrun & Hs & Hin & Hrows);
      [done | apply volume_cells | reflexivity |].
    exists Hf', G, P, dates. split_and!; [done | done | done |].
    rewrite Hrows. apply report_rows_progress; [done | apply Hin |].
    apply total_volume_metric.
  - destruct (run_progress_with_cell k r Hf "e1rm" "e1rm"
                (fun w rp => series_mul w (series_radd_scalar 1 (series_div_scalar rp 30)))
                e1rm_cell agg_max Hr Hcols Hne Hdates)
      as (Hf' & G & P & dates & Hrun & Hs & Hin & Hrows);
      [done | apply e1rm_cells | reflexivity |].
    exists Hf', G, P, dates. split_and!; [done | done | done |].
    rewrite Hrows. apply report_rows_progress; [done | apply Hin |].
    apply e1rm_metric.
Qed.

Lemma history_then (h : heap) (x : DataFrame) (new : list DataFrame) (n : nat) :
  (n < length new)%nat ->
  h `prefix_of` <[(length h + n)%nat := x]> (h ++ new).
Proof.
  intros Hn. rewrite insert_app_r_alt by lia.
  apply prefix_app_r. reflexivity.
Qed.



(** ** An unknown metric *)

Lemma run_progress_unknown (k : heap) (r : ref) (Hf : DataFrame) (metric : string) :
  k !! r = Some Hf -> columns Hf = joined_columns -> rows Hf <> [] ->
  metric ∉ ["top_set_weight"; "total_volume"; "e1rm"] ->
  progress_of_history r metric k
  = (inl (ValueError ("Unknown metric: " ++ metric)%string), k).
Proof.
  intros Hr Hcols Hne Hmetric. unfold progress_of_history.
  rewrite (run_bind _ _ _ _ _ (run_is_empty _ _ _ Hr)).
  rewrite frame_empty_rows by (rewrite Hcols; done).
  destruct (rows Hf); [done |].
  destruct (String.eqb_spec metric "top_set_weight") as [-> | _].
  { exfalso. apply Hmetric. repeat constructor. }
  destruct (String.eqb_spec metric "total_volume") as [-> | _].
  { exfalso. apply Hmetric. repeat constructor. }
  destruct (String.eqb_spec metric "e1rm") as [-> | _].
  { exfalso. apply Hmetric. repeat constructor. }
  reflexivity.
Qed.

Lemma run_progress_empty (k : heap) (r : ref) (Hf : DataFrame) (metric : string) :
  k !! r = Some Hf -> columns Hf = joined_columns -> rows Hf = [] ->
  progress_of_history r metric k = (inr r, k).
Proof.
  intros Hr Hcols Hnil. unfold progress_of_history.
  rewrite (run_bind _ _ _ _ _ (run_is_empty _ _ _ Hr)).
  rewrite frame_empty_rows by (rewrite Hcols; done).
  by rewrite Hnil.
Qed.

(** C4 (amended): with a metric name outside 'top_set_weight',
    'total_volume' and 'e1rm', [exercise_progress] raises ValueError, with
    the metric name in the message, exactly when the history of the
    exercise has rows; on a history without rows it returns that empty
    history whatever the metric; with one of the three names it never
    raises.  In every case the three tables it was given are unchanged. *)
Theorem exercise_progress_unknown_metric (h : heap) (rs re rt : ref)
  (S E T : DataFrame) ss es ts (name metric : string) :
  h !! rs = Some S -> h !! re = Some E -> h !! rt = Some T ->
  is_sessions S ss -> is_exercises E es -> is_sets T ts ->
  exists rH hH H,
    returns (exercise_history rs re rt name) h rH hH /\ hH !! rH = Some H /\
    (rows H = [] ->
     returns (exercise_progress rs re rt name metric) h rH hH) /\
    (rows H <> [] ->
     metric ∉ ["top_set_weight"; "total_volume"; "e1rm"] ->
     exists h',
       exercise_progress rs re rt name metric h
       = (inl (ValueError ("Unknown metric: " ++ metric)%string), h') /\
       h' !! rs = Some S /\ h' !! re = Some E /\ h' !! rt = Some T) /\
    (rows H <> [] ->
     metric ∈ ["top_set_weight"; "total_volume"; "e1rm"] ->
     exists r h',
       returns (exercise_progress rs re rt name metric) h r h' /\
       h' !! rs = Some S /\ h' !! re = Some E /\ h' !! rt = Some T).
Proof.
  intros Hs He Ht HS HE HT.
  destruct (joined_frame S E T ss es ts HS HE HT)
    as (d1 & d2 & H1 & H2 & [Hcols Hrows] & _).
  pose proof (run_exercise_history h rs re rt S E T d1 d2 name
                Hs He Ht H1 H2 Hcols) as Hhist.
  cbv zeta in Hhist.
  set (J := rename_columns renaming d2) in *.
  set (hH := h ++ [d1; d2; J; loc_rows (map (named name) (rows J)) J;
                   history_frame name J]) in *.
  assert (hH !! (length h + 4)%nat = Some (history_frame name J)) as HrH.
  { unfold hH. rewrite lookup_app_r by lia.
    by replace (_ - _)%nat with 4%nat by lia. }
  exists (length h + 4)%nat, hH, (history_frame name J).
  split_and!; [done | done | | |].
  - intros Hnil. split; [| exact (proj2 Hhist)].
    rewrite exercise_progress_unfold, (run_bind _ _ _ _ _ (proj1 Hhist)).
    by apply (run_progress_empty hH _ (history_frame name J)).
  - intros Hne Hmetric. exists hH. split_and!.
    + rewrite exercise_progress_unfold, (run_bind _ _ _ _ _ (proj1 Hhist)).
      by apply (run_progress_unknown hH _ (history_frame name J)).
    + by apply lookup_old.
    + by apply lookup_old.
    + by apply lookup_old.
  - intros Hne Hmetric.
    destruct (run_progress_of_history hH (length h + 4)%nat (history_frame name J)
                metric HrH Hcols Hne (history_rows name J _ _ Hrows) Hmetric)
      as (Hf' & G & P & dates & Hrun & _).
    assert (h `prefix_of` <[(length h + 4)%nat := Hf']> hH ++ [G; P]) as Hpre.
    { etrans; [| by apply prefix_app_r]. unfold hH. apply history_then. cbn. lia. }
    eexists _, _. split_and!.
    + split; [| exact Hpre].
      rewrite exercise_progress_unfold, (run_bind _ _ _ _ _ (proj1 Hhist)).
      exact Hrun.
    + by eapply prefix_lookup_Some.
    + by eapply prefix_lookup_Some.
    + by eapply prefix_lookup_Some.
Qed.

(** The theorem on one bench session and the metric 'bogus'. *)
Lemma exercise_progress_unknown_metric_witness :
  let ss := [Session.mk 1 100 "Push" ""] in
  let es := [Exercise.mk 1 1 "Bench" "chest" "Push"] in
  let ts := [SetRow.mk 1 1 1 (100 # 1) 5 None ""] in
  let S := frame_of sessions_columns (map session_row ss) in
  let E := frame_of exercises_columns (map exercise_row es) in
  let T := frame_of sets_columns (map set_row ts) in
  exists rH hH H,
    returns (exercise_history 0%nat 1%nat 2%nat "Bench") [S; E; T] rH hH /\
    hH !! rH = Some H /\
    (rows H = [] ->
     returns (exercise_progress 0%nat 1%nat 2%nat "Bench" "bogus") [S; E; T] rH hH) /\
    (rows H <> [] ->
     "bogus" ∉ ["top_set_weight"; "total_volume"; "e1rm"] ->
     exists h',
       exercise_progress 0%nat 1%nat 2%nat "Bench" "bogus" [S; E; T]
       = (inl (ValueError "Unknown metric: bogus"), h') /\
       h' !! 0%nat = Some S /\ h' !! 1%nat = Some E /\ h' !! 2%nat = Some T) /\
    (rows H <> [] ->
     "bogus" ∈ ["top_set_weight"; "total_volume"; "e1rm"] ->
     exists r h',
       returns (exercise_progress 0%nat 1%nat 2%nat "Bench" "bogus") [S; E; T] r h' /\
       h' !! 0%nat = Some S /\ h' !! 1%nat = Some E /\ h' !! 2%nat = Some T).
Proof.
  intros ss es ts S E T.
  apply (exercise_progress_unknown_metric [S; E; T] 0%nat 1%nat 2%nat
           S E T ss es ts "Bench" "bogus").
  - reflexivity.
  - reflexivity.
  - reflexivity.
  - split; [split |]; reflexivity.
  - split; reflexivity.
  - split; reflexivity.
Defined.

(** C4 as stated, for any inputs including empty ones, fails: on the empty
    tables, and on tables without a row of the exercise, the metric 'bogus'
    raises nothing; the history without rows is returned. *)
Lemma exercise_progress_bogus_metric_on_empty_history :
  let bench := LogArgs 100 "Push" "Bench" 1 (100 # 1) 5 None (Some "chest") in
  rows_returned
    (scenario [] (fun s e t => exercise_progress s e t "Bench" "bogus"))
  = inr (Some []) /\
  rows_returned
    (scenario [bench] (fun s e t => exercise_progress s e t "Squat" "bogus"))
  = inr (Some []) /\
  rows_returned
    (scenario [bench] (fun s e t => exercise_progress s e t "Bench" "bogus"))
  = inl (ValueError "Unknown metric: bogus").
Proof. cbv zeta. split_and!; vm_compute; reflexivity. Qed.

(** ** The weekly report *)

Lemma run_add_week_columns (h : heap) (rs : ref) (S : DataFrame) ss :
  h !! rs = Some S -> table sessions_columns session_row S ss ->
  dtype_of "date" (schema S) = Some datetime64 ->
  exists Sw,
    returns (add_week_columns rs) h (length h) (h ++ [Sw]) /\
    table session_week_columns session_week_row Sw ss /\
    dtype_of "date" (schema Sw) = Some datetime64.
Proof.
  intros Hs HS Hdt. table_inv HS. cbn in Hdt. injection Hdt as ->.
  eexists. split_and!.
  - split; [| by apply prefix_app_r]. unfold add_week_columns.
    erewrite run_bind by (apply run_copy; exact Hs).
    erewrite run_bind; last by rewrite (run_getitem _ _ _ _ (lookup_new _ _)).
    erewrite run_bind by reflexivity.
    erewrite run_bind by (apply run_setitem, lookup_new).
    rewrite update_new.
    erewrite run_bind; last by rewrite (run_getitem _ _ _ _ (lookup_new _ _)).
    erewrite run_bind by reflexivity.
    erewrite run_bind by (apply run_setitem, lookup_new).
    rewrite update_new. reflexivity.
  - split; [reflexivity |]. cbn [rows set_column s_values].
    rewrite (map_map session_row), (map_map _ (over_days Calendar.iso_week)).
    rewrite set_cells_encoded.
    rewrite (map_map _ (get "date")), (map_map _ (over_days Calendar.year)).
    rewrite set_cells_encoded. reflexivity.
  - reflexivity.
Qed.

Lemma run_add_week_columns_raises (h : heap) (rs : ref) (S : DataFrame) (dty : dtype) :
  h !! rs = Some S ->
  dtype_of "date" (schema S) = Some dty -> dty <> datetime64 ->
  add_week_columns rs h
  = (inl (AttributeError "Can only use .dt accessor with datetimelike values"),
     h ++ [S]).
Proof.
  intros Hs Hdt Hne. unfold add_week_columns.
  erewrite run_bind by (apply run_copy; exact Hs).
  erewrite run_bind; last first.
  { rewrite (run_getitem _ _ _ _ (lookup_new _ _)). unfold column.
    rewrite Hdt. reflexivity. }
  erewrite run_bind_exn; [reflexivity |].
  unfold lift, dt_isocalendar_week, dt. cbn [s_dtype].
  by destruct dty.
Qed.

(** The joined view over the sessions frame with its week columns. *)
Lemma joined_frame_week Sw E T ss es ts :
  table session_week_columns session_week_row Sw ss ->
  is_exercises E es -> is_sets T ts ->
  exists d1 d2,
    merge_left T E "exercise_id" "" "_ex" = inr d1 /\
    merge_left d1 Sw "session_id" "" "_sess" = inr d2 /\
    table (joined_columns ++ ["week"; "year"]) (joined_row week_columns)
          (rename_columns renaming d2) (joined_records ss es ts) /\
    dtype_of "session_date" (schema (rename_columns renaming d2))
    = dtype_of "date" (schema Sw).
Proof.
  intros HS HE HT. table_inv HS. table_inv HE. table_inv HT.
  eexists _, _. split_and!.
  - cbn. reflexivity.
  - cbn. reflexivity.
  - split; [reflexivity |]. cbn [rows rename_columns].
    rewrite (merge_rows_left_join _ _ _ set_row exercise_row exercise_of)
      by apply exercise_key.
    rewrite (merge_rows_left_join _ _ _ _ session_week_row session_of); last first.
    { intros [t [e|]] s; reflexivity. }
    rewrite map_map. apply map_ext.
    intros [[t [e|]] [s|]]; reflexivity.
  - reflexivity.
Qed.

Lemma weekly_volume_by_muscle_unfold s e t :
  weekly_volume_by_muscle s e t
  = (sw <- add_week_columns s ;;
     df <- _joined_sets sw e t ;;
     weekly_of_joined df).
Proof. reflexivity. Qed.

Lemma week_cells (js : list joined) :
  set_cells "week"
    (map (over_days Calendar.iso_week)
         (map (get "session_date") (map (joined_row week_columns) js)))
    (map (joined_row week_columns) js)
  = map (joined_row week_columns) js.
Proof.
  rewrite (map_map (joined_row week_columns)), map_map, set_cells_encoded.
  apply map_ext. intros [[t oe] [s|]]; reflexivity.
Qed.

Lemma year_cells (js : list joined) :
  set_cells "year"
    (map (over_days Calendar.year)
         (map (get "session_date") (map (joined_row week_columns) js)))
    (map (joined_row week_columns) js)
  = map (joined_row week_columns) js.
Proof.
  rewrite (map_map (joined_row week_columns)), map_map, set_cells_encoded.
  apply map_ext. intros [[t oe] [s|]]; reflexivity.
Qed.

Lemma weekly_volume_cells (js : list joined) :
  set_cells "volume"
    (zip_with_values vmul
       (map (get "weight") (map (joined_row week_columns) js))
       (map (get "reps") (map (joined_row week_columns) js)))
    (map (joined_row week_columns) js)
  = map weekly_row js.
Proof.
  rewrite !(map_map (joined_row week_columns)), zip_with_values_map.
  rewrite set_cells_encoded.
  apply map_ext. intros [[t oe] [s|]]; reflexivity.
Qed.

Lemma run_weekly_of_joined (k : heap) (r : ref) (J : DataFrame) (js : list joined) :
  k !! r = Some J ->
  table (joined_columns ++ ["week"; "year"]) (joined_row week_columns) J js ->
  dtype_of "session_date" (schema J) = Some datetime64 ->
  js <> [] ->
  exists J3 W,
    weekly_of_joined r k = (inr (length k), <[r := J3]> k ++ [W]) /\
    rows W = weekly_rows js.
Proof.
  intros Hr HJ Hdt Hne. table_inv HJ. cbn in Hdt. injection Hdt as ->.
  assert (r < length k)%nat as Hlt by (by eapply lookup_lt_Some).
  eexists _, _. split.
  - unfold weekly_of_joined.
    rewrite (run_bind _ _ _ _ _ (run_is_empty _ _ _ Hr)).
    unfold frame_empty. cbn [rows schema]. destruct js as [|j js]; [done |].
    cbn [map].
    erewrite run_bind; last by rewrite (run_getitem _ _ _ _ Hr).
    erewrite run_bind by reflexivity.
    erewrite run_bind by (apply run_setitem; exact Hr).
    erewrite run_bind; last first.
    { rewrite (run_getitem _ _ _ _ (list_lookup_insert_eq _ _ _ Hlt)). reflexivity. }
    erewrite run_bind by reflexivity.
    erewrite run_bind; last first.
    { apply run_setitem. by apply list_lookup_insert_eq. }
    rewrite list_insert_insert_eq.
    erewrite run_bind; last first.
    { rewrite (run_getitem _ _ _ _ (list_lookup_insert_eq _ _ _ Hlt)). reflexivity. }
    erewrite run_bind; last first.
    { rewrite (run_getitem _ _ _ _ (list_lookup_insert_eq _ _ _ Hlt)). reflexivity. }
    erewrite run_bind; last first.
    { apply run_setitem. by apply list_lookup_insert_eq. }
    rewrite list_insert_insert_eq.
    erewrite run_groupby_agg; [| by apply list_lookup_insert_eq | reflexivity].
    rewrite length_insert. reflexivity.
  - cbn [rows set_column s_values series_mul group_and_aggregate].
    rewrite week_cells, year_cells, weekly_volume_cells. reflexivity.
Qed.

Lemma run_weekly_volume_by_muscle (h : heap) (rs re rt : ref)
  (S E T : DataFrame) ss es ts :
  h !! rs = Some S -> h !! re = Some E -> h !! rt = Some T ->
  table sessions_columns session_row S ss -> is_exercises E es -> is_sets T ts ->
  dtype_of "date" (schema S) = Some datetime64 ->
  exists r h' W,
    returns (weekly_volume_by_muscle rs re rt) h r h' /\ h' !! r = Some W /\
    rows W = weekly_rows (joined_records ss es ts).
Proof.
  intros Hs He Ht HS HE HT Hdt.
  destruct (run_add_week_columns h rs S ss Hs HS Hdt) as (Sw & Hweek & HSw & Hdtw).
  destruct (joined_frame_week Sw E T ss es ts HSw HE HT)
    as (d1 & d2 & H1 & H2 & HJ & HdtJ).
  rewrite Hdtw in HdtJ.
  pose proof (run_joined_sets (h ++ [Sw]) (length h) re rt Sw E T d1 d2
                (lookup_new _ _) (lookup_old _ _ _ _ He) (lookup_old _ _ _ _ Ht)
                H1 H2) as Hjoin.
  set (J := rename_columns renaming d2) in *.
  set (k := (h ++ [Sw]) ++ [d1; d2; J]) in *.
  assert (k !! (length (h ++ [Sw]) + 2)%nat = Some J) as HrJ.
  { unfold k. rewrite lookup_app_r by lia. by replace (_ - _)%nat with 2%nat by lia. }
  assert (h `prefix_of` k) as Hpre.
  { unfold k. rewrite <- app_assoc. by apply prefix_app_r. }
  destruct (joined_records ss es ts) as [|j js] eqn:Ejs.
  - exists (length (h ++ [Sw]) + 2)%nat, k, J. split_and!.
    + split; [| exact Hpre]. rewrite weekly_volume_by_muscle_unfold.
      rewrite (run_bind _ _ _ _ _ (proj1 Hweek)), (run_bind _ _ _ _ _ (proj1 Hjoin)).
      unfold weekly_of_joined.
      rewrite (run_bind _ _ _ _ _ (run_is_empty _ _ _ HrJ)).
      unfold frame_empty. by rewrite (proj2 HJ).
    + exact HrJ.
    + by rewrite (proj2 HJ).
  - destruct (run_weekly_of_joined k _ J (j :: js) HrJ HJ HdtJ) as (J3 & W & Hrun & HW);
      [done |].
    eexists _, _, W. split_and!.
    + split.
      * rewrite weekly_volume_by_muscle_unfold.
        rewrite (run_bind _ _ _ _ _ (proj1 Hweek)), (run_bind _ _ _ _ _ (proj1 Hjoin)).
        exact Hrun.
      * etrans; [| by apply prefix_app_r]. unfold k.
        rewrite <- app_assoc, length_app. cbn [length app].
        replace (length h + 1 + 2)%nat with (length h + 3)%nat by lia.
        apply history_then. cbn. lia.
    + rewrite lookup_app_r by (rewrite length_insert; lia).
      rewrite length_insert. by rewrite Nat.sub_diag.
    + exact HW.
Qed.

Lemma run_weekly_volume_by_muscle_raises (h : heap) (rs re rt : ref) (S : DataFrame)
  (dty : dtype) :
  h !! rs = Some S ->
  dtype_of "date" (schema S) = Some dty -> dty <> datetime64 ->
  weekly_volume_by_muscle rs re rt h
  = (inl (AttributeError "Can only use .dt accessor with datetimelike values"),
     h ++ [S]).
Proof.
  intros Hs Hdt Hne. rewrite weekly_volume_by_muscle_unfold.
  by rewrite (run_bind_exn _ _ _ _ _ (run_add_week_columns_raises h rs S dty Hs Hdt Hne)).
Qed.

(** The report of [weekly_volume_by_muscle] depends on the sets table only
    through the joined records. *)
Lemma report_of_weekly (h : heap) (rs re rt : ref) (S E T : DataFrame) ss es ts :
  h !! rs = Some S -> h !! re = Some E -> h !! rt = Some T ->
  is_sessions S ss -> is_exercises E es -> is_sets T ts ->
  exists dty,
    dtype_of "date" (schema S) = Some dty /\
    report_of (weekly_volume_by_muscle rs re rt) h
    = match dty with
      | datetime64 => inr (weekly_rows (joined_records ss es ts))
      | _ => inl (AttributeError "Can only use .dt accessor with datetimelike values")
      end.
Proof.
  intros Hs He Ht [HS _] HE HT.
  destruct (dtype_of_columns "date" S) as [dty Hdt].
  { rewrite (proj1 HS). unfold sessions_columns. set_solver. }
  exists dty. split; [done |]. unfold report_of.
  assert (dty = datetime64 \/ dty <> datetime64) as [-> | Hne].
  { destruct dty; (by left) || (by right). }
  - destruct (run_weekly_volume_by_muscle h rs re rt S E T ss es ts
                Hs He Ht HS HE HT Hdt) as (r & h' & W & [Hrun _] & Hr & HW).
    by rewrite Hrun, Hr, HW.
  - rewrite (run_weekly_volume_by_muscle_raises h rs re rt S dty Hs Hdt Hne).
    by destruct dty.
Qed.

(** ** Missing and empty muscles in the weekly report *)

Lemma dedup_adjacent_subset (l : list (list value)) k :
  k ∈ dedup_adjacent l -> k ∈ l.
Proof.
  revert k. induction l as [|a l IH]; intros k; [done |].
  destruct l as [|b l]; [done |]. cbn [dedup_adjacent].
  destruct (lex_compare a b).
  - intros H. right. by apply IH.
  - intros [-> | H]%elem_of_cons; [by left | right; by apply IH].
  - intros [-> | H]%elem_of_cons; [by left | right; by apply IH].
Qed.

Lemma dedup_adjacent_mem (l : list (list value)) k :
  (forall a b, a ∈ l -> b ∈ l -> lex_compare a b = Eq -> a = b) ->
  k ∈ l -> k ∈ dedup_adjacent l.
Proof.
  revert k. induction l as [|a l IH]; intros k Hinj Hk; [done |].
  assert (forall x, x ∈ l -> x ∈ dedup_adjacent l) as IH'.
  { intros x Hx. apply IH; [| done].
    intros u v Hu Hv. apply Hinj; by right. }
  destruct l as [|b l]; [done |]. cbn [dedup_adjacent].
  destruct (lex_compare a b) eqn:E.
  - apply elem_of_cons in Hk as [-> | Hk]; [| by apply IH'].
    rewrite (Hinj a b) by (done || (by left) || (right; by left)).
    apply IH'. by left.
  - apply elem_of_cons in Hk as [-> | Hk]; [by left | right; by apply IH'].
  - apply elem_of_cons in Hk as [-> | Hk]; [by left | right; by apply IH'].
Qed.

Lemma group_keys_complete by_ (R : list row) k :
  k ∈ group_keys by_ R -> complete k = true.
Proof.
  unfold group_keys. intros Hk%dedup_adjacent_subset.
  rewrite (isort_perm lex_leb) in Hk.
  apply list_elem_of_In, filter_In in Hk as [_ Hk]. exact Hk.
Qed.

Lemma value_compare_eq_notna a b :
  value_compare a b = Eq -> isna b = false -> isna a = false.
Proof. destruct a, b; cbn; done. Qed.

Lemma lex_compare_eq_complete xs k :
  lex_compare xs k = Eq -> complete k = true -> complete xs = true.
Proof.
  revert k. induction xs as [|x xs IH]; intros [|y k]; cbn; try done.
  destruct (value_compare x y) eqn:E; try done.
  intros Hk [Hy Hc]%andb_true_iff. apply andb_true_iff. split.
  - apply negb_true_iff. apply negb_true_iff in Hy.
    by apply (value_compare_eq_notna x y).
  - by apply (IH k).
Qed.

(** A row whose group key has a missing component takes no part in a
    grouped report. *)
Lemma grouped_without_incomplete by_ aggs (R1 R2 : list row) (x : row) :
  complete (sort_key by_ x) = false ->
  map (agg_row (R1 ++ x :: R2) by_ aggs) (group_keys by_ (R1 ++ x :: R2))
  = map (agg_row (R1 ++ R2) by_ aggs) (group_keys by_ (R1 ++ R2)).
Proof.
  intros Hx.
  assert (group_keys by_ (R1 ++ x :: R2) = group_keys by_ (R1 ++ R2)) as ->.
  { unfold group_keys. rewrite !map_app, !List.filter_app. cbn [map List.filter].
    by rewrite Hx. }
  apply map_ext_in. intros k Hk%list_elem_of_In%group_keys_complete.
  unfold agg_row. f_equal. apply map_ext. intros a. do 3 f_equal.
  unfold group. rewrite !List.filter_app. cbn [List.filter].
  destruct (in_group by_ k x) eqn:E; [| done].
  exfalso. unfold in_group in E.
  destruct (lex_compare (sort_key by_ x) k) eqn:Ec; try done.
  rewrite (lex_compare_eq_complete _ _ Ec Hk) in Hx. done.
Qed.

Lemma left_join_app {L R} (m : L -> R -> bool) (l1 l2 : list L) (rs : list R) :
  left_join m (l1 ++ l2) rs = left_join m l1 rs ++ left_join m l2 rs.
Proof. unfold left_join. apply flat_map_app. Qed.

Lemma left_join_unmatched {L R} (m : L -> R -> bool) (l : L) (rs : list R) :
  (forall r, r ∈ rs -> m l r = false) -> left_join m [l] rs = [(l, None)].
Proof.
  intros H. unfold left_join. cbn.
  assert (List.filter (m l) rs = []) as ->; [| done].
  induction rs as [|r rs IH]; cbn; [done |].
  rewrite H by (by left). apply IH. intros r' Hr'. apply H. by right.
Qed.

Lemma joined_records_unresolved ss es ts1 t ts2 :
  (forall e, e ∈ es -> Exercise.exercise_id e <> SetRow.exercise_id t) ->
  joined_records ss es (ts1 ++ t :: ts2)
  = joined_records ss es ts1 ++ (t, None, None) :: joined_records ss es ts2.
Proof.
  intros Hno. unfold joined_records.
  change (t :: ts2) with ([t] ++ ts2).
  rewrite !left_join_app, (left_join_unmatched exercise_of t es).
  - by rewrite (left_join_unmatched session_of (t, None) ss).
  - intros e He. unfold exercise_of. apply Z.eqb_neq. intros Heq.
    by apply (Hno e He).
Qed.

Lemma weekly_rows_unresolved js1 t js2 :
  weekly_rows (js1 ++ (t, None, None) :: js2) = weekly_rows (js1 ++ js2).
Proof.
  unfold weekly_rows. rewrite !map_app. cbn [map].
  by apply grouped_without_incomplete.
Qed.

Lemma in_left_join {L R} (m : L -> R -> bool) (ls : list L) (rs : list R) l r :
  l ∈ ls -> r ∈ rs -> m l r = true -> (l, Some r) ∈ left_join m ls rs.
Proof.
  intros Hl Hr Hm. unfold left_join.
  apply list_elem_of_In, in_flat_map. exists l. split; [by apply list_elem_of_In |].
  assert (In r (List.filter (m l) rs)) as Hin.
  { apply filter_In. split; [by apply list_elem_of_In | done]. }
  destruct (List.filter (m l) rs) as [|y ys]; [done |].
  apply in_map_iff. by exists r.
Qed.

Lemma in_joined_records ss es ts t e s :
  t ∈ ts -> e ∈ es -> s ∈ ss ->
  SetRow.exercise_id t = Exercise.exercise_id e ->
  Exercise.session_id e = Session.session_id s ->
  (t, Some e, Some s) ∈ joined_records ss es ts.
Proof.
  intros Ht He Hs Hte Hes. unfold joined_records.
  apply in_left_join; [| done |].
  - apply in_left_join; [done | done |]. unfold exercise_of. by apply Z.eqb_eq.
  - unfold session_of. cbn. by apply Z.eqb_eq.
Qed.

(** The complete keys of the weekly report are (year, week, muscle)
    triples, and two of them compare equal only when they are equal. *)
Lemma weekly_key_shape j :
  complete (weekly_key j) = true ->
  exists y w m, weekly_key j = [Int y; Int w; Str m].
Proof.
  destruct j as [[t [e|]] [s|]]; cbn; try done. intros _. by eexists _, _, _.
Qed.

Lemma weekly_key_eq y w m y' w' m' :
  lex_compare [Int y; Int w; Str m] [Int y'; Int w'; Str m'] = Eq ->
  [Int y; Int w; Str m] = [Int y'; Int w'; Str m'].
Proof.
  cbn [lex_compare]. rewrite !value_compare_Int.
  destruct (Z.compare_spec y y') as [-> | |]; try done.
  destruct (Z.compare_spec w w') as [-> | |]; try done.
  cbn [value_compare]. destruct (String.compare m m') eqn:E; try done.
  apply String.compare_eq_iff in E as ->. done.
Qed.

Lemma weekly_keys_of (js : list joined) :
  map (sort_key weekly_keys) (map weekly_row js) = map weekly_key js.
Proof. by rewrite map_map. Qed.

Lemma weekly_group_key js k :
  k ∈ List.filter complete (map weekly_key js) -> k ∈ group_keys weekly_keys (map weekly_row js).
Proof.
  intros Hk. unfold group_keys. rewrite weekly_keys_of.
  apply dedup_adjacent_mem; [| by rewrite (isort_perm lex_leb)].
  intros a b Ha Hb. rewrite (isort_perm lex_leb) in Ha, Hb.
  apply list_elem_of_In, filter_In in Ha as [Ha Hca], Hb as [Hb Hcb].
  apply in_map_iff in Ha as (ja & <- & _), Hb as (jb & <- & _).
  destruct (weekly_key_shape ja Hca) as (y & w & m & ->).
  destruct (weekly_key_shape jb Hcb) as (y' & w' & m' & ->).
  apply weekly_key_eq.
Qed.

Lemma in_group_weekly y w m j :
  in_group weekly_keys [Int y; Int w; Str m] (weekly_row j)
  = in_week_group [Int y; Int w; Str m] j.
Proof.
  unfold in_group, in_week_group. fold (weekly_key j).
  destruct (lex_compare (weekly_key j) [Int y; Int w; Str m]) eqn:E.
  - symmetry. apply bool_decide_eq_true_2.
    destruct (weekly_key_shape j) as (y' & w' & m' & Hj).
    { by apply (lex_compare_eq_complete _ _ E). }
    rewrite Hj in *. by apply weekly_key_eq.
  - symmetry. apply bool_decide_eq_false_2. intros Hj. rewrite Hj in E.
    by rewrite lex_compare_refl in E.
  - symmetry. apply bool_decide_eq_false_2. intros Hj. rewrite Hj in E.
    by rewrite lex_compare_refl in E.
Qed.

Lemma count_set_ids (js : list joined) :
  series_count (map (get "set_id") (map weekly_row js)) = Int (Z.of_nat (length js)).
Proof.
  unfold series_count. do 2 f_equal. rewrite map_map.
  induction js as [|[[t oe] os] js IH]; cbn; [done |]. by rewrite <- IH.
Qed.

(** The row of the weekly report for a (year, week, muscle) group that
    occurs. *)
Lemma weekly_row_of_group (js : list joined) y w m j0 :
  j0 ∈ js -> weekly_key j0 = [Int y; Int w; Str m] ->
  exists row,
    row ∈ weekly_rows js /\
    get "year" row = Int y /\ get "week" row = Int w /\ get "muscle" row = Str m /\
    get "sets" row
    = Int (Z.of_nat (length (List.filter (in_week_group [Int y; Int w; Str m]) js))).
Proof.
  intros Hj0 Hk.
  exists (agg_row (map weekly_row js) weekly_keys weekly_aggs [Int y; Int w; Str m]).
  split_and!; try reflexivity.
  - unfold weekly_rows. apply list_elem_of_fmap. eexists. split; [reflexivity |].
    apply weekly_group_key. apply list_elem_of_In, filter_In. split.
    + apply in_map_iff. exists j0. split; [done | by apply list_elem_of_In].
    + done.
  - unfold agg_row, weekly_aggs. cbn [combine weekly_keys map app get String.eqb
      Ascii.eqb Bool.eqb agg_out agg_col agg_fun aggregate].
    unfold group. rewrite filter_map_comm.
    rewrite (List.filter_ext _ (in_week_group [Int y; Int w; Str m]))
      by (intros j; apply in_group_weekly).
    apply count_set_ids.
Qed.

Lemma weekly_key_resolved t e s :
  weekly_key (t, Some e, Some s)
  = [Int (Calendar.year (Session.date s)); Int (Calendar.iso_week (Session.date s));
     Str (Exercise.muscle e)].
Proof. reflexivity. Qed.

Lemma filter_length_pos {A} (f : A -> bool) (l : list A) x :
  x ∈ l -> f x = true -> (1 <= length (List.filter f l))%nat.
Proof.
  intros Hx Hf.
  assert (In x (List.filter f l)) as Hin.
  { apply filter_In. split; [by apply list_elem_of_In | done]. }
  destruct (List.filter f l); [done | cbn; lia].
Qed.

(** C10 (amended): a Set row whose exercise_id refers to no exercise, so
    that the left join leaves its muscle missing, is omitted from the
    weekly report: the report of the tables with the set is the report of
    the tables without it.  A set whose exercise has the empty string as
    its muscle, and whose exercise's session resolves (so that year and
    week are there), is kept: the report has a row for the year and the
    ISO week of that session with muscle '', which counts the sets of
    that group, this one among them. *)
Theorem weekly_volume_drops_missing_muscle (h : heap) (rs re rt rt' : ref)
  (S E T T' : DataFrame) ss es ts1 ts2 (t : SetRow.t) :
  h !! rs = Some S -> h !! re = Some E -> h !! rt = Some T -> h !! rt' = Some T' ->
  is_sessions S ss -> is_exercises E es ->
  is_sets T (ts1 ++ t :: ts2) -> is_sets T' (ts1 ++ ts2) ->
  ((forall e, e ∈ es -> Exercise.exercise_id e <> SetRow.exercise_id t) ->
   report_of (weekly_volume_by_muscle rs re rt) h
   = report_of (weekly_volume_by_muscle rs re rt') h) /\
  (forall e s,
     e ∈ es -> s ∈ ss ->
     SetRow.exercise_id t = Exercise.exercise_id e ->
     Exercise.session_id e = Session.session_id s ->
     Exercise.muscle e = "" ->
     let key := [Int (Calendar.year (Session.date s));
                 Int (Calendar.iso_week (Session.date s)); Str ""] in
     let n := length (List.filter (in_week_group key)
                        (joined_records ss es (ts1 ++ t :: ts2))) in
     exists report row,
       report_of (weekly_volume_by_muscle rs re rt) h = inr report /\
       row ∈ report /\
       get "year" row = Int (Calendar.year (Session.date s)) /\
       get "week" row = Int (Calendar.iso_week (Session.date s)) /\
       get "muscle" row = Str "" /\
       get "sets" row = Int (Z.of_nat n) /\ (1 <= n)%nat).
Proof.
  intros Hs He Ht Ht' HS HE HT HT'.
  destruct (report_of_weekly h rs re rt S E T ss es _ Hs He Ht HS HE HT)
    as (dty & Hdty & Hrep).
  destruct (report_of_weekly h rs re rt' S E T' ss es _ Hs He Ht' HS HE HT')
    as (dty' & Hdty' & Hrep').
  rewrite Hdty in Hdty'. injection Hdty' as <-.
  split.
  - intros Hnone. rewrite Hrep, Hrep'.
    rewrite (joined_records_unresolved ss es ts1 t ts2 Hnone).
    rewrite weekly_rows_unresolved.
    unfold joined_records. by rewrite !left_join_app.
  - intros e s Hein Hsin Hte Hes Hmus key n.
    assert (dty = datetime64) as ->.
    { destruct HS as [_ Hdate]. rewrite Hdate in Hdty; [by injection Hdty |].
      intros ->. by apply elem_of_nil in Hsin. }
    assert ((t, Some e, Some s) ∈ joined_records ss es (ts1 ++ t :: ts2)) as Hj.
    { apply in_joined_records; try done. set_solver. }
    assert (weekly_key (t, Some e, Some s) = key) as Hkey.
    { by rewrite weekly_key_resolved, Hmus. }
    destruct (weekly_row_of_group _ _ _ _ _ Hj Hkey)
      as (row & Hrow & Hy & Hw & Hm & Hsets).
    exists (weekly_rows (joined_records ss es (ts1 ++ t :: ts2))), row.
    split_and!; try done.
    apply (filter_length_pos _ _ _ Hj). unfold in_week_group.
    by apply bool_decide_eq_true_2.
Qed.

(** The theorem on a session of 2024-06-03 with a plank that has no muscle:
    a set with a dangling exercise id changes nothing in the report, and the
    set of the plank is counted in the group (2024, week 23, ''). *)
Lemma weekly_volume_drops_missing_muscle_witness :
  let d := Calendar.days_from_civil 2024 6 3 in
  let ss := [Session.mk 1 d "Core" ""] in
  let es := [Exercise.mk 1 1 "Plank" "" ""] in
  let t1 := SetRow.mk 1 1 1 (10 # 1) 5 None "" in
  let t2 := SetRow.mk 2 9 1 (60 # 1) 8 None "" in
  let S := frame_of sessions_columns (map session_row ss) in
  let E := frame_of exercises_columns (map exercise_row es) in
  let T12 := frame_of sets_columns (map set_row [t1; t2]) in
  let T1 := frame_of sets_columns (map set_row [t1]) in
  let T2 := frame_of sets_columns (map set_row [t2]) in
  let h := [S; E; T12; T1; T2] in
  report_of (weekly_volume_by_muscle 0%nat 1%nat 2%nat) h
  = report_of (weekly_volume_by_muscle 0%nat 1%nat 3%nat) h /\
  exists report row,
    report_of (weekly_volume_by_muscle 0%nat 1%nat 2%nat) h = inr report /\
    row ∈ report /\
    get "year" row = Int 2024 /\ get "week" row = Int 23 /\
    get "muscle" row = Str "" /\ get "sets" row = Int 1.
Proof.
  intros d ss es t1 t2 S E T12 T1 T2 h. split.
  - refine (proj1 (weekly_volume_drops_missing_muscle h 0%nat 1%nat 2%nat 3%nat
                     S E T12 T1 ss es [t1] [] t2 _ _ _ _ _ _ _ _) _).
    + reflexivity.
    + reflexivity.
    + reflexivity.
    + reflexivity.
    + split; [split |]; reflexivity.
    + split; reflexivity.
    + split; reflexivity.
    + split; reflexivity.
    + intros e He. apply list_elem_of_In in He. simpl in He.
      destruct He as [<- | []]. simpl. lia.
  - destruct (proj2 (weekly_volume_drops_missing_muscle h 0%nat 1%nat 2%nat 4%nat
                       S E T12 T2 ss es [] [t2] t1
                       eq_refl eq_refl eq_refl eq_refl
                       (conj (conj eq_refl eq_refl) (fun _ => eq_refl))
                       (conj eq_refl eq_refl) (conj eq_refl eq_refl)
                       (conj eq_refl eq_refl))
                    (Exercise.mk 1 1 "Plank" "" "") (Session.mk 1 d "Core" "")
                    (list_elem_of_here _ _) (list_elem_of_here _ _)
                    eq_refl eq_refl eq_refl)
      as (report & row & Hrep & Hrow & Hy & Hw & Hm & Hn & _).
    exists report, row. split_and!; assumption.
Defined.

(** C10 as stated, for any input tables, fails in its second half: a set
    whose exercise has muscle '' is dropped with its whole group when the
    session of that exercise does not resolve, as year and week are then
    missing.  Here the plank belongs to session 99, which does not exist,
    and the report has no row; with the plank in session 1 the report has
    the row (2024, week 23, ''). *)
Lemma weekly_volume_drops_empty_muscle_without_session :
  let d := Calendar.days_from_civil 2024 6 3 in
  let log (session_id : Z) :=
    p <- load_data_no_files ;;
    s <- add_session p.1.1 d "Core" "" ;;
    e <- add_exercise p.1.2 session_id "Plank" None None ;;
    t <- add_set p.2 e.2 1 (10 # 1) 5 None "" ;;
    weekly_volume_by_muscle s.1 e.1 t in
  rows_returned (log 99) = inr (Some []) /\
  rows_returned (log 1)
  = inr (Some [[("year", Int 2024); ("week", Int 23); ("muscle", Str "");
                ("sets", Int 1); ("volume", Float (50 # 1))]]).
Proof. cbv zeta. split; vm_compute; reflexivity. Qed.
(** ** The record builders *)


Lemma ids_below_next {T} (proj : T -> Z) (l : list T) x :
  x ∈ l -> proj x < next_id_of (map proj l).
Proof.
  intros Hx. apply next_id_of_above, list_elem_of_fmap. by exists x.
Qed.







(** ** Identity allocation: the failures *)

Lemma series_max_all_missing (vs : list value) :
  Forall (fun v => v = NaN) vs -> series_max vs = NaN.
Proof.
  unfold series_max. induction 1 as [|v vs -> _ IH]; [done | exact IH].
Qed.

(** X4: on a table with rows, [_next_id] raises KeyError with the column
    name when the table has no such column, and ValueError when the column
    holds no value at all (its maximum is NaN, which [int] refuses); in both
    cases the store is as before. *)
Theorem next_id_fails_without_ids (h : heap) (df : ref) (d : DataFrame)
  (id_col : string) :
  h !! df = Some d -> rows d <> [] -> schema d <> [] ->
  (dtype_of id_col (schema d) = None ->
   _next_id df id_col h = (inl (KeyError id_col), h)) /\
  (forall dt, dtype_of id_col (schema d) = Some dt ->
     Forall (fun r => get id_col r = NaN) (rows d) ->
     _next_id df id_col h
     = (inl (ValueError "cannot convert float NaN to integer"), h)).
Proof.
  intros Hd Hrows Hsch.
  assert (frame_empty d = false) as Hne.
  { unfold frame_empty. destruct (rows d); [done |]. by destruct (schema d). }
  split.
  - intros Hnone. unfold _next_id.
    rewrite (run_bind _ _ _ _ _ (run_is_empty _ _ _ Hd)), Hne.
    erewrite run_bind_exn; [reflexivity |].
    rewrite (run_getitem _ _ _ _ Hd). unfold column. by rewrite Hnone.
  - intros dt Hdt Hnan. unfold _next_id.
    rewrite (run_bind _ _ _ _ _ (run_is_empty _ _ _ Hd)), Hne.
    erewrite run_bind; last first.
    { rewrite (run_getitem _ _ _ _ Hd). unfold column. by rewrite Hdt. }
    cbn [s_values]. rewrite series_max_all_missing; [reflexivity |].
    apply Forall_fmap. exact Hnan.
Qed.

(** The theorem on a sessions table asked for a column it does not have,
    and on a table whose ids are all missing. *)
Lemma next_id_fails_without_ids_witness :
  let d := frame_of sessions_columns (map session_row [Session.mk 3 100 "Push" ""]) in
  let d' := frame_of ["set_id"; "reps"] [[("reps", Int 5)]] in
  _next_id 0%nat "set_id" [d; d'] = (inl (KeyError "set_id"), [d; d']) /\
  _next_id 1%nat "set_id" [d; d']
  = (inl (ValueError "cannot convert float NaN to integer"), [d; d']).
Proof.
  intros d d'. split.
  - apply (proj1 (next_id_fails_without_ids [d; d'] 0%nat d "set_id" eq_refl
                    ltac:(simpl; discriminate) ltac:(simpl; discriminate))).
    reflexivity.
  - apply (proj2 (next_id_fails_without_ids [d; d'] 1%nat d' "set_id" eq_refl
                    ltac:(simpl; discriminate) ltac:(simpl; discriminate)) object).
    + reflexivity.
    + repeat constructor.
Defined.
(** ** Quick-log: what it adds and what it keeps *)

Lemma find_some_in {T} (f : T -> bool) (l : list T) x :
  List.find f l = Some x -> x ∈ l /\ f x = true.
Proof.
  intros H. apply find_some in H as [H1 H2]. split; [by apply list_elem_of_In | done].
Qed.

Lemma find_or_add_session_shape d g ss :
  exists new s,
    (find_or_add_session d g ss).1 = ss ++ new /\ (length new <= 1)%nat /\
    List.find (session_matches d g) (ss ++ new) = Some s /\
    Session.session_id s = (find_or_add_session d g ss).2 /\
    (forall x, x ∈ new -> x = Session.mk (next_id_of (map Session.session_id ss)) d g "").
Proof.
  unfold find_or_add_session.
  destruct (List.find (session_matches d g) ss) as [s|] eqn:Hfind; cbn [fst snd].
  - exists [], s. rewrite app_nil_r. split_and!; try done. cbn; lia.
    intros x Hx. by apply elem_of_nil in Hx.
  - eexists [_], _. split_and!; [done | cbn; lia | | | ].
    + rewrite find_app_none by done. cbn. by rewrite session_matches_self.
    + done.
    + by intros x ->%list_elem_of_singleton.
Qed.

Lemma find_or_add_exercise_shape sid nm mu g es :
  exists new e,
    (find_or_add_exercise sid nm mu g es).1 = es ++ new /\ (length new <= 1)%nat /\
    List.find (exercise_matches sid nm) (es ++ new) = Some e /\
    Exercise.exercise_id e = (find_or_add_exercise sid nm mu g es).2 /\
    (forall x, x ∈ new ->
       x = Exercise.mk (next_id_of (map Exercise.exercise_id es)) sid nm (or_empty mu) g).
Proof.
  unfold find_or_add_exercise.
  destruct (List.find (exercise_matches sid nm) es) as [e|] eqn:Hfind; cbn [fst snd].
  - exists [], e. rewrite app_nil_r. split_and!; try done. cbn; lia.
    intros x Hx. by apply elem_of_nil in Hx.
  - eexists [_], _. split_and!; [done | cbn; lia | | | ].
    + rewrite find_app_none by done. cbn. by rewrite exercise_matches_self.
    + done.
    + by intros x ->%list_elem_of_singleton.
Qed.

Lemma session_matches_spec d g s :
  session_matches d g s = true <-> Session.date s = d /\ Session.group s = g.
Proof.
  unfold session_matches. rewrite andb_true_iff, Z.eqb_eq, String.eqb_eq. tauto.
Qed.

Lemma exercise_matches_spec sid nm e :
  exercise_matches sid nm e = true
  <-> Exercise.session_id e = sid /\ Exercise.exercise_name e = nm.
Proof.
  unfold exercise_matches. rewrite andb_true_iff, Z.eqb_eq, String.eqb_eq. tauto.
Qed.

(** The tables after one call, on records. *)
Lemma quick_log_records_shape a ss es ts :
  exists new_ss new_es s e,
    quick_log_records a (ss, es, ts)
    = (ss ++ new_ss, es ++ new_es, ts ++ [logged_set a (Exercise.exercise_id e) ts]) /\
    (length new_ss <= 1)%nat /\ (length new_es <= 1)%nat /\
    List.find (session_matches (a_date a) (a_group a)) (ss ++ new_ss) = Some s /\
    List.find (exercise_matches (Session.session_id s) (a_name a)) (es ++ new_es)
    = Some e /\
    (forall x, x ∈ new_ss ->
       x = Session.mk (next_id_of (map Session.session_id ss))
                      (a_date a) (a_group a) "") /\
    (forall x, x ∈ new_es ->
       x = Exercise.mk (next_id_of (map Exercise.exercise_id es))
                       (Session.session_id s) (a_name a) (or_empty (a_muscle a))
                       (a_group a)).
Proof.
  unfold quick_log_records.
  destruct (find_or_add_session_shape (a_date a) (a_group a) ss)
    as (new_ss & s & Hss & Hlen1 & Hfs & Hsid & Hnew1).
  destruct (find_or_add_session (a_date a) (a_group a) ss) as [ss' sid].
  cbn [fst snd] in *. subst ss' sid.
  destruct (find_or_add_exercise_shape (Session.session_id s) (a_name a) (a_muscle a)
              (a_group a) es) as (new_es & e & Hes & Hlen2 & Hfe & Heid & Hnew2).
  destruct (find_or_add_exercise (Session.session_id s) (a_name a) (a_muscle a)
              (a_group a) es) as [es' eid].
  cbn [fst snd] in *. subst es' eid.
  exists new_ss, new_es, s, e. split_and!; done.
Qed.



Lemma exercises_resolve_app ss new es :
  exercises_resolve ss es -> exercises_resolve (ss ++ new) es.
Proof.
  intros H e He. destruct (H e He) as (s & Hs & Hid). exists s. split; [| done].
  apply elem_of_app. by left.
Qed.

Lemma sets_resolve_app es new ts :
  sets_resolve es ts -> sets_resolve (es ++ new) ts.
Proof.
  intros H t Ht. destruct (H t Ht) as (e & He & Hid). exists e. split; [| done].
  apply elem_of_app. by left.
Qed.








(** ** Logging, then reading back *)

Lemma logged_set_joined a ss es ts s e :
  s ∈ ss -> e ∈ es -> Exercise.session_id e = Session.session_id s ->
  (logged_set a (Exercise.exercise_id e) ts, Some e, Some s)
  ∈ joined_records ss es (ts ++ [logged_set a (Exercise.exercise_id e) ts]).
Proof.
  intros Hs He Hid. apply in_joined_records; try done.
  apply elem_of_app. right. by apply list_elem_of_singleton.
Qed.

(** X8: a set logged with [quick_log_set] is read back by
    [exercise_history].  On any three tables, the history of the logged
    exercise name on the returned tables has a row with the new set id and
    the number, weight and reps of the call, dated with the date of the
    call. *)
Theorem quick_log_set_then_exercise_history (h : heap) (rs re rt : ref)
  (S E T : DataFrame) ss es ts (a : log_args) :
  h !! rs = Some S -> h !! re = Some E -> h !! rt = Some T ->
  is_sessions S ss -> is_exercises E es -> is_sets T ts ->
  exists p h1 r h2 H row,
    returns (call_quick_log_set rs re rt a) h p h1 /\
    returns (exercise_history p.1.1 p.1.2 p.2 (a_name a)) h1 r h2 /\
    h2 !! r = Some H /\ row ∈ rows H /\
    get "set_id" row = Int (next_id_of (map SetRow.set_id ts)) /\
    get "exercise_name" row = Str (a_name a) /\
    get "session_date" row = Timestamp (a_date a) /\
    get "group_sess" row = Str (a_group a) /\
    get "set_number" row = Int (a_set_number a) /\
    get "weight" row = mk_float (a_weight a) /\
    get "reps" row = Int (a_reps a) /\
    get "rir" row = opt_int (a_rir a).
Proof.
  intros Hs He Ht HS HE HT.
  destruct (run_quick_log_set h rs re rt S E T ss es ts a Hs He Ht HS HE HT)
    as (rs' & re' & rt' & h1 & S' & E' & T' & Hrun & Hs' & He' & Ht' & HS' & HE' & HT').
  destruct (quick_log_records_shape a ss es ts)
    as (new_ss & new_es & s & e & Hq & _ & _ & Hfs & Hfe & _ & _).
  rewrite Hq in HS', HE', HT'. cbn [fst snd] in *.
  apply find_some_in in Hfs as [Hsin [Hd Hg]%session_matches_spec].
  apply find_some_in in Hfe as [Hein [Hsid Hnm]%exercise_matches_spec].
  destruct (joined_frame S' E' T' _ _ _ HS' HE' HT')
    as (d1 & d2 & H1 & H2 & [Hcols Hrows] & _).
  pose proof (run_exercise_history h1 rs' re' rt' S' E' T' d1 d2 (a_name a)
                Hs' He' Ht' H1 H2 Hcols) as Hhist.
  cbv zeta in Hhist.
  set (J := rename_columns renaming d2) in *.
  set (t := logged_set a (Exercise.exercise_id e) ts) in *.
  exists (rs', re', rt'), h1. eexists _, _, (history_frame (a_name a) J).
  exists (joined_row no_extra (t, Some e, Some s)).
  split_and!; [exact Hrun | exact Hhist | | | | | | | | | |].
  - rewrite lookup_app_r by lia. by replace (_ - _)%nat with 4%nat by lia.
  - rewrite rows_history, (isort_perm (row_leb history_keys)).
    apply list_elem_of_In, filter_In. split.
    + apply list_elem_of_In. rewrite Hrows. apply list_elem_of_fmap.
      eexists. split; [reflexivity |]. by apply logged_set_joined.
    + unfold named. apply bool_decide_eq_true_2. cbn. by rewrite Hnm.
  - reflexivity.
  - cbn. by rewrite Hnm.
  - cbn. by rewrite Hd.
  - cbn. by rewrite Hg.
  - reflexivity.
  - reflexivity.
  - reflexivity.
  - reflexivity.
Qed.

(** The theorem on tables with one bench set, for a second one. *)
Lemma quick_log_set_then_exercise_history_witness :
  let ss := [Session.mk 1 100 "Push" ""] in
  let es := [Exercise.mk 1 1 "Bench" "chest" "Push"] in
  let ts := [SetRow.mk 1 1 1 (100 # 1) 5 None ""] in
  let S := frame_of sessions_columns (map session_row ss) in
  let E := frame_of exercises_columns (map exercise_row es) in
  let T := frame_of sets_columns (map set_row ts) in
  let a := LogArgs 100 "Push" "Bench" 2 (90 # 1) 8 (Some 1) None in
  exists p h1 r h2 H row,
    returns (call_quick_log_set 0%nat 1%nat 2%nat a) [S; E; T] p h1 /\
    returns (exercise_history p.1.1 p.1.2 p.2 "Bench") h1 r h2 /\
    h2 !! r = Some H /\ row ∈ rows H /\
    get "set_id" row = Int 2 /\
    get "exercise_name" row = Str "Bench" /\
    get "session_date" row = Timestamp 100 /\
    get "group_sess" row = Str "Push" /\
    get "set_number" row = Int 2 /\
    get "weight" row = mk_float (90 # 1) /\
    get "reps" row = Int 8 /\
    get "rir" row = opt_int (Some 1).
Proof.
  intros ss es ts S E T a.
  apply (quick_log_set_then_exercise_history [S; E; T] 0%nat 1%nat 2%nat S E T ss es ts a).
  - reflexivity.
  - reflexivity.
  - reflexivity.
  - split; [split |]; reflexivity.
  - split; reflexivity.
  - split; reflexivity.
Defined.


(** ** The weekly report, group by group *)



















(** The frame [weekly_volume_by_muscle] returns from a joined view with
    rows: the grouped report and its five columns. *)
Lemma run_weekly_of_joined_frame (k : heap) (r : ref) (J : DataFrame) (js : list joined) :
  k !! r = Some J ->
  table (joined_columns ++ ["week"; "year"]) (joined_row week_columns) J js ->
  dtype_of "session_date" (schema J) = Some datetime64 ->
  js <> [] ->
  exists J3 W,
    weekly_of_joined r k = (inr (length k), <[r := J3]> k ++ [W]) /\
    rows W = weekly_rows js /\ columns W = weekly_columns.
Proof.
  intros Hr HJ Hdt Hne. table_inv HJ. cbn in Hdt. injection Hdt as ->.
  assert (r < length k)%nat as Hlt by (by eapply lookup_lt_Some).
  eexists _, _. split_and!.
  - unfold weekly_of_joined.
    rewrite (run_bind _ _ _ _ _ (run_is_empty _ _ _ Hr)).
    unfold frame_empty. cbn [rows schema]. destruct js as [|j js]; [done |].
    cbn [map].
    erewrite run_bind; last by rewrite (run_getitem _ _ _ _ Hr).
    erewrite run_bind by reflexivity.
    erewrite run_bind by (apply run_setitem; exact Hr).
    erewrite run_bind; last first.
    { rewrite (run_getitem _ _ _ _ (list_lookup_insert_eq _ _ _ Hlt)). reflexivity. }
    erewrite run_bind by reflexivity.
    erewrite run_bind; last first.
    { apply run_setitem. by apply list_lookup_insert_eq. }
    rewrite list_insert_insert_eq.
    erewrite run_bind; last first.
    { rewrite (run_getitem _ _ _ _ (list_lookup_insert_eq _ _ _ Hlt)). reflexivity. }
    erewrite run_bind; last first.
    { rewrite (run_getitem _ _ _ _ (list_lookup_insert_eq _ _ _ Hlt)). reflexivity. }
    erewrite run_bind; last first.
    { apply run_setitem. by apply list_lookup_insert_eq. }
    rewrite list_insert_insert_eq.
    erewrite run_groupby_agg; [| by apply list_lookup_insert_eq | reflexivity].
    rewrite length_insert. reflexivity.
  - cbn [rows set_column s_values series_mul group_and_aggregate].
    rewrite week_cells, year_cells, weekly_volume_cells. reflexivity.
  - reflexivity.
Qed.

Lemma left_join_cons {L R} (m : L -> R -> bool) (l : L) (ls : list L) (rs : list R) :
  left_join m (l :: ls) rs = left_join m [l] rs ++ left_join m ls rs.
Proof. apply (left_join_app m [l] ls rs). Qed.

Lemma left_join_one {L R} (m : L -> R -> bool) (l : L) (rs : list R) :
  (1 <= length (left_join m [l] rs))%nat.
Proof.
  unfold left_join. cbn. rewrite app_nil_r.
  destruct (List.filter (m l) rs); cbn; lia.
Qed.

(** A left join has at least the rows of its left side. *)
Lemma left_join_length {L R} (m : L -> R -> bool) (ls : list L) (rs : list R) :
  (length ls <= length (left_join m ls rs))%nat.
Proof.
  induction ls as [|l ls IH]; [cbn; lia |].
  rewrite left_join_cons, length_app. pose proof (left_join_one m l rs). cbn. lia.
Qed.

Lemma joined_records_nil ss es ts : joined_records ss es ts = [] <-> ts = [].
Proof.
  split; [| by intros ->].
  intros Hnil. pose proof (left_join_length exercise_of ts es) as H1.
  pose proof (left_join_length session_of (left_join exercise_of ts es) ss) as H2.
  fold (joined_records ss es ts) in H2. rewrite Hnil in H2. cbn in H2.
  destruct ts; [done | cbn in H1; lia].
Qed.

Lemma run_weekly_volume_by_muscle_frame (h : heap) (rs re rt : ref)
  (S E T : DataFrame) ss es ts :
  h !! rs = Some S -> h !! re = Some E -> h !! rt = Some T ->
  table sessions_columns session_row S ss -> is_exercises E es -> is_sets T ts ->
  dtype_of "date" (schema S) = Some datetime64 ->
  exists r h' W,
    returns (weekly_volume_by_muscle rs re rt) h r h' /\ h' !! r = Some W /\
    rows W = weekly_rows (joined_records ss es ts) /\
    columns W = match ts with
                | [] => joined_columns ++ ["week"; "year"]
                | _ :: _ => weekly_columns
                end.
Proof.
  intros Hs He Ht HS HE HT Hdt.
  destruct (run_add_week_columns h rs S ss Hs HS Hdt) as (Sw & Hweek & HSw & Hdtw).
  destruct (joined_frame_week Sw E T ss es ts HSw HE HT)
    as (d1 & d2 & H1 & H2 & HJ & HdtJ).
  rewrite Hdtw in HdtJ.
  pose proof (run_joined_sets (h ++ [Sw]) (length h) re rt Sw E T d1 d2
                (lookup_new _ _) (lookup_old _ _ _ _ He) (lookup_old _ _ _ _ Ht)
                H1 H2) as Hjoin.
  set (J := rename_columns renaming d2) in *.
  set (k := (h ++ [Sw]) ++ [d1; d2; J]) in *.
  assert (k !! (length (h ++ [Sw]) + 2)%nat = Some J) as HrJ.
  { unfold k. rewrite lookup_app_r by lia. by replace (_ - _)%nat with 2%nat by lia. }
  assert (h `prefix_of` k) as Hpre.
  { unfold k. rewrite <- app_assoc. by apply prefix_app_r. }
  destruct (joined_records ss es ts) as [|j js] eqn:Ejs.
  - apply joined_records_nil in Ejs as ->.
    exists (length (h ++ [Sw]) + 2)%nat, k, J. split_and!.
    + split; [| exact Hpre]. rewrite weekly_volume_by_muscle_unfold.
      rewrite (run_bind _ _ _ _ _ (proj1 Hweek)), (run_bind _ _ _ _ _ (proj1 Hjoin)).
      unfold weekly_of_joined.
      rewrite (run_bind _ _ _ _ _ (run_is_empty _ _ _ HrJ)).
      unfold frame_empty. by rewrite (proj2 HJ).
    + exact HrJ.
    + by rewrite (proj2 HJ).
    + exact (proj1 HJ).
  - destruct (run_weekly_of_joined_frame k _ J (j :: js) HrJ HJ HdtJ)
      as (J3 & W & Hrun & HW & HcW); [done |].
    destruct ts as [|t ts]; [done |].
    eexists _, _, W. split_and!.
    + split.
      * rewrite weekly_volume_by_muscle_unfold.
        rewrite (run_bind _ _ _ _ _ (proj1 Hweek)), (run_bind _ _ _ _ _ (proj1 Hjoin)).
        exact Hrun.
      * etrans; [| by apply prefix_app_r]. unfold k.
        rewrite <- app_assoc, length_app. cbn [length app].
        replace (length h + 1 + 2)%nat with (length h + 3)%nat by lia.
        apply history_then. cbn. lia.
    + rewrite lookup_app_r by (rewrite length_insert; lia).
      rewrite length_insert. by rewrite Nat.sub_diag.
    + exact HW.
    + exact HcW.
Qed.


(** ** The weekly report: nothing counted twice, nothing lost *)










(** With unique ids and every reference resolving, the joined records are
    the sets, each with its exercise and its session. *)
Lemma consistent_joined ss es ts :
  consistent ss es ts ->
  Forall (fun j => resolved j = true) (joined_records ss es ts) /\
  map (fun j : joined => j.1.1) (joined_records ss es ts) = ts.
Proof.
  intros (Hns & Hne & _ & Her & Hsr).
  assert (joined_records ss es ts
          = map (fun t => (t, List.find (exercise_of t) es,
                           List.find (session_of (t, List.find (exercise_of t) es)) ss))
                ts) as ->.
  { unfold joined_records.
    rewrite (left_join_unique exercise_of); last first.
    { intros t. apply (unique_id_filter Exercise.exercise_id), Hne. }
    rewrite (left_join_unique session_of); last first.
    { intros [t [e|]]; unfold session_of; cbn [snd].
      - apply (unique_id_filter Session.session_id), Hns.
      - clear. induction ss; cbn; [lia | done]. }
    by rewrite map_map. }
  split.
  - apply Forall_forall. intros j (t & -> & Ht)%list_elem_of_fmap.
    destruct (Hsr t Ht) as (e & He & Hid).
    destruct (List.find (exercise_of t) es) as [e'|] eqn:Hfe.
    + apply find_some_in in Hfe as [He' _].
      destruct (Her e' He') as (s & Hs & Hsid).
      destruct (List.find (session_of (t, Some e')) ss) as [s'|] eqn:Hfs; [done |].
      exfalso. pose proof (find_none _ _ Hfs s) as Hn.
      rewrite <- list_elem_of_In in Hn. specialize (Hn Hs).
      unfold session_of in Hn. cbn in Hn. apply Z.eqb_neq in Hn. by symmetry in Hsid.
    + exfalso. pose proof (find_none _ _ Hfe e) as Hn.
      rewrite <- list_elem_of_In in Hn. specialize (Hn He).
      unfold exercise_of in Hn. apply Z.eqb_neq in Hn. by symmetry in Hid.
  - rewrite map_map. cbn. apply map_id.
Qed.




(** ** The shape of what the reports return *)

Lemma bind_inv {A B} (m : M A) (f : A -> M B) h b h' :
  bind m f h = (inr b, h') -> exists a h1, m h = (inr a, h1) /\ f a h1 = (inr b, h').
Proof.
  unfold bind. destruct (m h) as [[e | a] h1]; [done |]. intros H. by exists a, h1.
Qed.

Lemma deref_inv r k d k' : deref r k = (inr d, k') -> k !! r = Some d /\ k' = k.
Proof.
  unfold deref. destruct (k !! r); [| done]. by intros [= -> ->].
Qed.

Lemma groupby_agg_columns r by_ aggs k a k' :
  pd.groupby_agg r by_ aggs k = (inr a, k') ->
  exists G, k' !! a = Some G /\ columns G = by_ ++ map agg_out aggs.
Proof.
  unfold pd.groupby_agg. intros (d & k1 & [Hd ->]%deref_inv & H)%bind_inv.
  apply bind_inv in H as (G & k2 & HG & Halloc).
  unfold lift in HG. injection HG as HG <-.
  unfold alloc in Halloc. injection Halloc as <- <-.
  exists G. split; [apply lookup_new |].
  unfold group_and_aggregate in HG. destruct (missing_column _ d); [done |].
  injection HG as <-. unfold columns. cbn [schema].
  rewrite map_app, !map_map. cbn. by rewrite map_id.
Qed.

Lemma sort_values_columns r by_ k a k' d :
  k !! r = Some d -> pd.sort_values r by_ k = (inr a, k') ->
  exists P, k' !! a = Some P /\ columns P = columns d.
Proof.
  unfold pd.sort_values. intros Hr (d' & k1 & [Hd ->]%deref_inv & H)%bind_inv.
  rewrite Hr in Hd. injection Hd as <-.
  apply bind_inv in H as (P & k2 & HP & Halloc).
  unfold lift in HP. injection HP as HP <-.
  unfold alloc in Halloc. injection Halloc as <- <-.
  exists P. split; [apply lookup_new |].
  unfold sort_rows_by in HP. destruct (missing_column _ d); [done |].
  by injection HP as <-.
Qed.

(** Whatever the metric, a progress report computed from a history with
    rows has the two columns session_date and value. *)
Lemma progress_of_history_columns (k : heap) (r : ref) (Hf : DataFrame)
  (metric : string) a k' :
  k !! r = Some Hf -> frame_empty Hf = false ->
  progress_of_history r metric k = (inr a, k') ->
  exists P, k' !! a = Some P /\ columns P = progress_columns.
Proof.
  intros Hr Hne. unfold progress_of_history.
  rewrite (run_bind _ _ _ _ _ (run_is_empty _ _ _ Hr)), Hne.
  intros (agg & k1 & Hagg & Hsort)%bind_inv.
  assert (exists G, k1 !! agg = Some G /\ columns G = progress_columns) as (G & HG & Hc).
  { destruct (String.eqb metric "top_set_weight").
    { by apply groupby_agg_columns in Hagg. }
    destruct (String.eqb metric "total_volume").
    { apply bind_inv in Hagg as (? & ? & _ & Hagg).
      apply bind_inv in Hagg as (? & ? & _ & Hagg).
      apply bind_inv in Hagg as (? & ? & _ & Hagg).
      by apply groupby_agg_columns in Hagg. }
    destruct (String.eqb metric "e1rm"); [| done].
    apply bind_inv in Hagg as (? & ? & _ & Hagg).
    apply bind_inv in Hagg as (? & ? & _ & Hagg).
    apply bind_inv in Hagg as (? & ? & _ & Hagg).
    by apply groupby_agg_columns in Hagg. }
  destruct (sort_values_columns _ _ _ _ _ G HG Hsort) as (P & HP & HcP).
  exists P. split; [done |]. by rewrite HcP.
Qed.

(** X12: the two shapes of a progress report.  On any three tables and for
    a known metric, [exercise_progress] returns a frame; when the history
    of the exercise has rows, the frame has exactly the columns
    session_date and value; when the history has no row, the frame is the
    history itself, with the columns of the joined view and no value
    column. *)
Theorem exercise_progress_columns (h : heap) (rs re rt : ref)
  (S E T : DataFrame) ss es ts (name metric : string) :
  h !! rs = Some S -> h !! re = Some E -> h !! rt = Some T ->
  is_sessions S ss -> is_exercises E es -> is_sets T ts ->
  metric ∈ ["top_set_weight"; "total_volume"; "e1rm"] ->
  exists rH hH H r h' P,
    returns (exercise_history rs re rt name) h rH hH /\ hH !! rH = Some H /\
    columns H = joined_columns /\
    returns (exercise_progress rs re rt name metric) h r h' /\ h' !! r = Some P /\
    (rows H = [] -> P = H /\ ("value" ∉ columns P)) /\
    (rows H <> [] -> columns P = progress_columns).
Proof.
  intros Hs He Ht HS HE HT Hmetric.
  destruct (joined_frame S E T ss es ts HS HE HT)
    as (d1 & d2 & H1 & H2 & [Hcols Hrows] & _).
  pose proof (run_exercise_history h rs re rt S E T d1 d2 name
                Hs He Ht H1 H2 Hcols) as Hhist.
  cbv zeta in Hhist.
  set (J := rename_columns renaming d2) in *.
  set (hH := h ++ [d1; d2; J; loc_rows (map (named name) (rows J)) J;
                   history_frame name J]) in *.
  assert (hH !! (length h + 4)%nat = Some (history_frame name J)) as HrH.
  { unfold hH. rewrite lookup_app_r by lia. by replace (_ - _)%nat with 4%nat by lia. }
  destruct (rows (history_frame name J)) as [|x xs] eqn:Hr.
  - exists (length h + 4)%nat, hH, (history_frame name J),
           (length h + 4)%nat, hH, (history_frame name J).
    split_and!; [done | done | done | | done | | done].
    + split; [| exact (proj2 Hhist)].
      rewrite exercise_progress_unfold, (run_bind _ _ _ _ _ (proj1 Hhist)).
      by apply (run_progress_empty hH _ (history_frame name J)).
    + intros _. split; [done |]. change (columns (history_frame name J)) with (columns J).
      rewrite Hcols. unfold joined_columns, sets_columns. set_solver.
  - assert (rows (history_frame name J) <> []) as Hne by (by rewrite Hr).
    destruct (run_progress_of_history hH (length h + 4)%nat (history_frame name J)
                metric HrH Hcols Hne (history_rows name J _ _ Hrows) Hmetric)
      as (Hf' & G & P & dates & Hrun & _).
    assert (frame_empty (history_frame name J) = false) as Hfe.
    { rewrite frame_empty_history by done. by rewrite Hr. }
    destruct (progress_of_history_columns hH _ (history_frame name J) metric _ _
                HrH Hfe Hrun) as (P' & HP' & HcP').
    exists (length h + 4)%nat, hH, (history_frame name J). eexists _, _, P'.
    split_and!; [done | done | done | | exact HP' | done | done].
    split.
    + rewrite exercise_progress_unfold, (run_bind _ _ _ _ _ (proj1 Hhist)).
      exact Hrun.
    + etrans; [| by apply prefix_app_r]. unfold hH. apply history_then. cbn. lia.
Qed.

(** The theorem on one bench set, for the history of the bench. *)
Lemma exercise_progress_columns_witness :
  let ss := [Session.mk 1 100 "Push" ""] in
  let es := [Exercise.mk 1 1 "Bench" "chest" "Push"] in
  let ts := [SetRow.mk 1 1 1 (100 # 1) 5 None ""] in
  let S := frame_of sessions_columns (map session_row ss) in
  let E := frame_of exercises_columns (map exercise_row es) in
  let T := frame_of sets_columns (map set_row ts) in
  exists rH hH H r h' P,
    returns (exercise_history 0%nat 1%nat 2%nat "Bench") [S; E; T] rH hH /\
    hH !! rH = Some H /\ columns H = joined_columns /\
    returns (exercise_progress 0%nat 1%nat 2%nat "Bench" "total_volume") [S; E; T] r h' /\
    h' !! r = Some P /\
    (rows H = [] -> P = H /\ ("value" ∉ columns P)) /\
    (rows H <> [] -> columns P = progress_columns).
Proof.
  intros ss es ts S E T.
  apply (exercise_progress_columns [S; E; T] 0%nat 1%nat 2%nat S E T ss es ts
           "Bench" "total_volume").
  - reflexivity.
  - reflexivity.
  - reflexivity.
  - split; [split |]; reflexivity.
  - split; reflexivity.
  - split; reflexivity.
  - apply list_elem_of_further, list_elem_of_here.
Defined.

(** X13: the weekly report without sets.  On a sessions table with rows
    and a sets table without rows, [weekly_volume_by_muscle] returns a frame
    without rows whose columns are those of the joined view followed by
    week and year, not the five columns of the report: it has no sets and
    no volume column. *)
Theorem weekly_volume_by_muscle_without_sets (h : heap) (rs re rt : ref)
  (S E T : DataFrame) ss es :
  h !! rs = Some S -> h !! re = Some E -> h !! rt = Some T ->
  is_sessions S ss -> is_exercises E es -> is_sets T [] ->
  ss <> [] ->
  exists r h' W,
    returns (weekly_volume_by_muscle rs re rt) h r h' /\ h' !! r = Some W /\
    rows W = [] /\
    columns W = joined_columns ++ ["week"; "year"] /\
    ("sets" ∉ columns W) /\ ("volume" ∉ columns W).
Proof.
  intros Hs He Ht [HS Hdt] HE HT Hss.
  destruct (run_weekly_volume_by_muscle_frame h rs re rt S E T ss es []
              Hs He Ht HS HE HT (Hdt Hss)) as (r & h' & W & Hrun & Hr & HW & Hcols).
  exists r, h', W. rewrite Hcols. split_and!; try done.
  - unfold joined_columns, sets_columns. set_solver.
  - unfold joined_columns, sets_columns. set_solver.
Qed.

(** The theorem on one session and one exercise, before any set. *)
Lemma weekly_volume_by_muscle_without_sets_witness :
  let ss := [Session.mk 1 100 "Push" ""] in
  let es := [Exercise.mk 1 1 "Bench" "chest" "Push"] in
  let S := frame_of sessions_columns (map session_row ss) in
  let E := frame_of exercises_columns (map exercise_row es) in
  let T := frame_of sets_columns [] in
  exists r h' W,
    returns (weekly_volume_by_muscle 0%nat 1%nat 2%nat) [S; E; T] r h' /\
    h' !! r = Some W /\
    rows W = [] /\
    columns W = joined_columns ++ ["week"; "year"] /\
    ("sets" ∉ columns W) /\ ("volume" ∉ columns W).
Proof.
  intros ss es S E T.
  apply (weekly_volume_by_muscle_without_sets [S; E; T] 0%nat 1%nat 2%nat S E T ss es).
  - reflexivity.
  - reflexivity.
  - reflexivity.
  - split; [split |]; reflexivity.
  - split; reflexivity.
  - split; reflexivity.
  - discriminate.
Defined.
(** ** The joined view, with and without unique ids *)

Lemma left_join_sound {L R} (m : L -> R -> bool) (ls : list L) (rs : list R) l o :
  (l, o) ∈ left_join m ls rs ->
  l ∈ ls /\ (forall r, o = Some r -> r ∈ rs /\ m l r = true).
Proof.
  unfold left_join. intros H%list_elem_of_In. apply in_flat_map in H as (x & Hx & H).
  apply list_elem_of_In in Hx.
  destruct (List.filter (m x) rs) as [|y ys] eqn:Hf.
  - destruct H as [[= <- <-] | []]. split; [done | by intros r [=]].
  - apply in_map_iff in H as (r & [= <- <-] & Hr).
    rewrite <- Hf in Hr. apply filter_In in Hr as [Hr Hm].
    split; [done |]. intros r' [= <-]. split; [by apply list_elem_of_In | done].
Qed.

Lemma left_join_keeps {L R} (m : L -> R -> bool) (ls : list L) (rs : list R) l :
  l ∈ ls -> exists o, (l, o) ∈ left_join m ls rs.
Proof.
  intros Hl. unfold left_join.
  destruct (List.filter (m l) rs) as [|y ys] eqn:Hf.
  - exists None. apply list_elem_of_In, in_flat_map. exists l.
    split; [by apply list_elem_of_In |]. rewrite Hf. by left.
  - exists (Some y). apply list_elem_of_In, in_flat_map. exists l.
    split; [by apply list_elem_of_In |]. rewrite Hf. by left.
Qed.

Lemma joined_records_sound ss es ts t oe os :
  (t, oe, os) ∈ joined_records ss es ts ->
  t ∈ ts /\
  (forall e, oe = Some e ->
     e ∈ es /\ Exercise.exercise_id e = SetRow.exercise_id t) /\
  (forall s, os = Some s ->
     exists e, oe = Some e /\ s ∈ ss /\
               Session.session_id s = Exercise.session_id e).
Proof.
  unfold joined_records. intros [H1 H2]%left_join_sound.
  apply left_join_sound in H1 as [Ht He]. split_and!; [done | |].
  - intros e ->. destruct (He e eq_refl) as [Hin Hm]. split; [done |].
    unfold exercise_of in Hm. apply Z.eqb_eq in Hm. by symmetry.
  - intros s ->. destruct (H2 s eq_refl) as [Hin Hm].
    unfold session_of in Hm. cbn in Hm. destruct oe as [e|]; [| done].
    exists e. split_and!; [done | done |]. apply Z.eqb_eq in Hm. by symmetry.
Qed.

Lemma joined_records_keep ss es ts t :
  t ∈ ts -> exists oe os, (t, oe, os) ∈ joined_records ss es ts.
Proof.
  intros Ht. destruct (left_join_keeps exercise_of ts es t Ht) as [oe H1].
  destruct (left_join_keeps session_of _ ss (t, oe) H1) as [os H2].
  by exists oe, os.
Qed.

Lemma joined_row_set_cells extra t oe os c :
  c ∈ sets_columns -> get c (joined_row extra (t, oe, os)) = get c (set_row t).
Proof.
  unfold sets_columns. intros Hc.
  repeat (apply elem_of_cons in Hc as [-> | Hc]; [reflexivity |]).
  by apply elem_of_nil in Hc.
Qed.

(** X16: the joined view never drops a set, also when ids are not unique.
    On any three tables it has at least as many rows as the sets table;
    every set of the sets table is in it with its own seven cells; and a
    set is in it once for every exercise that has its exercise id and every
    session that has that exercise's session id, with the name and muscle
    of that exercise and the date of that session. *)
Theorem joined_view_keeps_every_set (h : heap) (rs re rt : ref)
  (S E T : DataFrame) ss es ts :
  h !! rs = Some S -> h !! re = Some E -> h !! rt = Some T ->
  is_sessions S ss -> is_exercises E es -> is_sets T ts ->
  exists r h' J,
    returns (_joined_sets rs re rt) h r h' /\ h' !! r = Some J /\
    columns J = joined_columns /\
    (length ts <= length (rows J))%nat /\
    (forall t, t ∈ ts ->
       exists row, row ∈ rows J /\
                   forall c, c ∈ sets_columns -> get c row = get c (set_row t)) /\
    (forall t e s, t ∈ ts -> e ∈ es -> s ∈ ss ->
       SetRow.exercise_id t = Exercise.exercise_id e ->
       Exercise.session_id e = Session.session_id s ->
       exists row, row ∈ rows J /\
                   (forall c, c ∈ sets_columns -> get c row = get c (set_row t)) /\
                   get "exercise_name" row = Str (Exercise.exercise_name e) /\
                   get "muscle" row = Str (Exercise.muscle e) /\
                   get "session_date" row = Timestamp (Session.date s)).
Proof.
  intros Hs He Ht HS HE HT.
  destruct (joined_frame S E T ss es ts HS HE HT)
    as (d1 & d2 & H1 & H2 & [Hcols Hrows] & _).
  pose proof (run_joined_sets h rs re rt S E T d1 d2 Hs He Ht H1 H2) as Hrun.
  eexists _, _, _. split_and!.
  - exact Hrun.
  - rewrite lookup_app_r by lia. by replace (_ - _)%nat with 2%nat by lia.
  - exact Hcols.
  - rewrite Hrows, length_map. unfold joined_records.
    etrans; [apply (left_join_length exercise_of ts es) |].
    apply left_join_length.
  - intros t Hin. destruct (joined_records_keep ss es ts t Hin) as (oe & os & Hj).
    exists (joined_row no_extra (t, oe, os)). split.
    + rewrite Hrows. apply list_elem_of_fmap. by eexists.
    + intros c Hc. by apply joined_row_set_cells.
  - intros t e s Hin Hein Hsin Hte Hes.
    exists (joined_row no_extra (t, Some e, Some s)). split_and!.
    + rewrite Hrows. apply list_elem_of_fmap. eexists. split; [reflexivity |].
      by apply in_joined_records.
    + intros c Hc. by apply joined_row_set_cells.
    + reflexivity.
    + reflexivity.
    + reflexivity.
Qed.

(** The theorem on a set whose exercise id is held by two exercises. *)
Lemma joined_view_keeps_every_set_witness :
  let ss := [Session.mk 1 100 "Push" ""] in
  let es := [Exercise.mk 1 1 "Bench" "chest" "Push"; Exercise.mk 1 1 "Dips" "triceps" "Push"] in
  let ts := [SetRow.mk 1 1 1 (100 # 1) 5 None ""] in
  let S := frame_of sessions_columns (map session_row ss) in
  let E := frame_of exercises_columns (map exercise_row es) in
  let T := frame_of sets_columns (map set_row ts) in
  exists r h' J,
    returns (_joined_sets 0%nat 1%nat 2%nat) [S; E; T] r h' /\ h' !! r = Some J /\
    columns J = joined_columns /\
    (length ts <= length (rows J))%nat /\
    (forall t, t ∈ ts ->
       exists row, row ∈ rows J /\
                   forall c, c ∈ sets_columns -> get c row = get c (set_row t)) /\
    (forall t e s, t ∈ ts -> e ∈ es -> s ∈ ss ->
       SetRow.exercise_id t = Exercise.exercise_id e ->
       Exercise.session_id e = Session.session_id s ->
       exists row, row ∈ rows J /\
                   (forall c, c ∈ sets_columns -> get c row = get c (set_row t)) /\
                   get "exercise_name" row = Str (Exercise.exercise_name e) /\
                   get "muscle" row = Str (Exercise.muscle e) /\
                   get "session_date" row = Timestamp (Session.date s)).
Proof.
  intros ss es ts S E T.
  apply (joined_view_keeps_every_set [S; E; T] 0%nat 1%nat 2%nat S E T ss es ts).
  - reflexivity.
  - reflexivity.
  - reflexivity.
  - split; [split |]; reflexivity.
  - split; reflexivity.
  - split; reflexivity.
Defined.

Lemma consistent_joined_rows ss es ts :
  consistent ss es ts ->
  Forall2 (fun t j =>
             exists e s, j = (t, Some e, Some s) /\ e ∈ es /\ s ∈ ss /\
                         Exercise.exercise_id e = SetRow.exercise_id t /\
                         Session.session_id s = Exercise.session_id e)
          ts (joined_records ss es ts).
Proof.
  intros Hc. destruct (consistent_joined ss es ts Hc) as [Hres Hmap].
  rewrite <- Hmap at 1. apply Forall2_fmap_l, Forall_Forall2_diag, Forall_forall.
  intros [[t oe] os] Hj. rewrite Forall_forall in Hres. specialize (Hres _ Hj).
  apply joined_records_sound in Hj as (_ & He & Hs).
  destruct oe as [e|], os as [s|]; try done.
  destruct (He e eq_refl) as [Hein Heid]. destruct (Hs s eq_refl) as (e' & [= <-] & Hsin & Hsid).
  by exists e, s.
Qed.

(** X17: on consistent tables (unique ids, every reference resolving) the
    joined view has exactly one row per set, in the order of the sets
    table, and no cell of it is missing for want of a partner: the row of a
    set carries the name, muscle and group of its exercise, the latter
    under the column session_group, and the date, group and notes of its
    session, the group under the column group_sess; when every exercise
    carries the group of its session, the two group columns agree. *)
Theorem joined_view_of_consistent_tables (h : heap) (rs re rt : ref)
  (S E T : DataFrame) ss es ts :
  h !! rs = Some S -> h !! re = Some E -> h !! rt = Some T ->
  is_sessions S ss -> is_exercises E es -> is_sets T ts ->
  consistent ss es ts ->
  exists r h' J,
    returns (_joined_sets rs re rt) h r h' /\ h' !! r = Some J /\
    Forall2 (fun t row =>
               exists e s,
                 e ∈ es /\ s ∈ ss /\
                 Exercise.exercise_id e = SetRow.exercise_id t /\
                 Session.session_id s = Exercise.session_id e /\
                 (forall c, c ∈ sets_columns -> get c row = get c (set_row t)) /\
                 get "exercise_name" row = Str (Exercise.exercise_name e) /\
                 get "muscle" row = Str (Exercise.muscle e) /\
                 get "session_group" row = Str (Exercise.group e) /\
                 get "session_date" row = Timestamp (Session.date s) /\
                 get "group_sess" row = Str (Session.group s) /\
                 get "notes" row = Str (Session.notes s) /\
                 (groups_agree ss es ->
                  get "session_group" row = get "group_sess" row))
            ts (rows J).
Proof.
  intros Hs He Ht HS HE HT Hc.
  destruct (joined_frame S E T ss es ts HS HE HT)
    as (d1 & d2 & H1 & H2 & [Hcols Hrows] & _).
  pose proof (run_joined_sets h rs re rt S E T d1 d2 Hs He Ht H1 H2) as Hrun.
  eexists _, _, _. split_and!.
  - exact Hrun.
  - rewrite lookup_app_r by lia. by replace (_ - _)%nat with 2%nat by lia.
  - rewrite Hrows. apply Forall2_fmap_r.
    eapply Forall2_impl; [exact (consistent_joined_rows ss es ts Hc) |].
    intros t j (e & s & -> & Hein & Hsin & Heid & Hsid).
    exists e, s. split_and!; try done.
    + intros c Hin. by apply joined_row_set_cells.
    + intros Hga. cbn. f_equal. by apply Hga.
Qed.

(** The theorem on two sets of one bench exercise. *)
Lemma joined_view_of_consistent_tables_witness :
  let ss := [Session.mk 1 100 "Push" "felt strong"] in
  let es := [Exercise.mk 1 1 "Bench" "chest" "Push"] in
  let ts := [SetRow.mk 1 1 1 (100 # 1) 5 None ""; SetRow.mk 2 1 2 (90 # 1) 8 None ""] in
  let S := frame_of sessions_columns (map session_row ss) in
  let E := frame_of exercises_columns (map exercise_row es) in
  let T := frame_of sets_columns (map set_row ts) in
  exists r h' J,
    returns (_joined_sets 0%nat 1%nat 2%nat) [S; E; T] r h' /\ h' !! r = Some J /\
    Forall2 (fun t row =>
               exists e s,
                 e ∈ es /\ s ∈ ss /\
                 Exercise.exercise_id e = SetRow.exercise_id t /\
                 Session.session_id s = Exercise.session_id e /\
                 (forall c, c ∈ sets_columns -> get c row = get c (set_row t)) /\
                 get "exercise_name" row = Str (Exercise.exercise_name e) /\
                 get "muscle" row = Str (Exercise.muscle e) /\
                 get "session_group" row = Str (Exercise.group e) /\
                 get "session_date" row = Timestamp (Session.date s) /\
                 get "group_sess" row = Str (Session.group s) /\
                 get "notes" row = Str (Session.notes s) /\
                 (groups_agree ss es ->
                  get "session_group" row = get "group_sess" row))
            ts (rows J).
Proof.
  intros ss es ts S E T.
  apply (joined_view_of_consistent_tables [S; E; T] 0%nat 1%nat 2%nat S E T ss es ts).
  - reflexivity.
  - reflexivity.
  - reflexivity.
  - split; [split |]; reflexivity.
  - split; reflexivity.
  - split; reflexivity.
  - unfold consistent, exercises_resolve, sets_resolve. simpl. split_and!.
    + apply NoDup_singleton.
    + apply NoDup_singleton.
    + apply NoDup_cons. split; [| apply NoDup_singleton].
      intros H. apply list_elem_of_singleton in H. discriminate.
    + intros e He. apply list_elem_of_singleton in He. subst e.
      exists (Session.mk 1 100 "Push" "felt strong").
      split; [apply list_elem_of_here | reflexivity].
    + intros t Ht. exists (Exercise.mk 1 1 "Bench" "chest" "Push").
      split; [apply list_elem_of_here |].
      apply elem_of_cons in Ht as [-> | Ht]; [reflexivity |].
      apply list_elem_of_singleton in Ht. subst t. reflexivity.
Defined.
(** ** Tables written by quick-log only *)

Lemma numbered_next (ids : list Z) :
  numbered ids -> next_id_of ids = Z.of_nat (length ids) + 1.
Proof.
  unfold numbered. remember (length ids) as n eqn:Hn. intros H.
  destruct n as [|n].
  - symmetry in Hn. by apply nil_length_inv in Hn as ->.
  - rewrite (next_id_of_max ids (Z.of_nat (S n))); [done | |].
    + rewrite H. apply elem_of_seqZ. lia.
    + intros x Hx. rewrite H in Hx. apply elem_of_seqZ in Hx. lia.
Qed.

Lemma numbered_snoc (ids : list Z) :
  numbered ids -> numbered (ids ++ [next_id_of ids]).
Proof.
  intros H. unfold numbered. rewrite (numbered_next _ H), length_app. cbn [length].
  replace (length ids + 1)%nat with (S (length ids)) by lia.
  rewrite seqZ_S, <- H. f_equal. f_equal. lia.
Qed.

Lemma numbered_NoDup (ids : list Z) : numbered ids -> NoDup ids.
Proof. intros ->. apply NoDup_seqZ. Qed.

Lemma numbered_app_new {T} (proj : T -> Z) (l new : list T) :
  (length new <= 1)%nat ->
  (forall x, x ∈ new -> proj x = next_id_of (map proj l)) ->
  numbered (map proj l) -> numbered (map proj (l ++ new)).
Proof.
  intros Hlen Hnew Hnum. destruct new as [|x [|y new]]; [| | cbn in Hlen; lia].
  - by rewrite app_nil_r.
  - rewrite map_app. cbn [map]. rewrite (Hnew x) by apply list_elem_of_here.
    by apply numbered_snoc.
Qed.

Lemma unique_by_id {T} (proj : T -> Z) (l : list T) x y :
  NoDup (map proj l) -> x ∈ l -> y ∈ l -> proj x = proj y -> x = y.
Proof.
  induction l as [|z l IH]; cbn; intros Hnd Hx Hy Hxy.
  - by apply elem_of_nil in Hx.
  - apply NoDup_cons in Hnd as [Hz Hnd].
    apply elem_of_cons in Hx as [-> | Hx], Hy as [-> | Hy]; try done.
    + exfalso. apply Hz. rewrite Hxy. apply list_elem_of_fmap. by exists y.
    + exfalso. apply Hz. rewrite <- Hxy. apply list_elem_of_fmap. by exists x.
    + by apply IH.
Qed.

Lemma quick_log_records_well_logged a ss es ts :
  well_logged ss es ts ->
  well_logged (quick_log_records a (ss, es, ts)).1.1
              (quick_log_records a (ss, es, ts)).1.2
              (quick_log_records a (ss, es, ts)).2.
Proof.
  intros (Hns & Hne & Hnt & Her & Hsr & Hga).
  destruct (quick_log_records_shape a ss es ts)
    as (new_ss & new_es & s & e & -> & Hl1 & Hl2 & Hfs & Hfe & Hnew1 & Hnew2).
  cbn [fst snd].
  apply find_some_in in Hfs as [Hsin [Hd Hg]%session_matches_spec].
  apply find_some_in in Hfe as [Hein _].
  assert (numbered (map Session.session_id (ss ++ new_ss))) as Hns'.
  { apply numbered_app_new; [done | | done]. intros x Hx. by rewrite (Hnew1 x Hx). }
  unfold well_logged. split_and!.
  - exact Hns'.
  - apply numbered_app_new; [done | | done]. intros x Hx. by rewrite (Hnew2 x Hx).
  - rewrite map_app. cbn [map logged_set SetRow.set_id]. by apply numbered_snoc.
  - intros x [Hx | Hx]%elem_of_app.
    + by apply (exercises_resolve_app ss new_ss es).
    + rewrite (Hnew2 x Hx). cbn. by exists s.
  - intros x [Hx | ->%list_elem_of_singleton]%elem_of_app.
    + by apply (sets_resolve_app es new_es ts).
    + by exists e.
  - intros x y [Hx | Hx]%elem_of_app Hy Hid.
    + apply elem_of_app in Hy as [Hy | Hy]; [by apply Hga |].
      exfalso. destruct (Her x Hx) as (s0 & Hs0 & Hid0).
      rewrite (Hnew1 y Hy) in Hid. cbn in Hid.
      pose proof (ids_below_next Session.session_id ss s0 Hs0). lia.
    + rewrite (Hnew2 x Hx) in Hid |- *. cbn in Hid |- *.
      rewrite (unique_by_id Session.session_id _ y s (numbered_NoDup _ Hns') Hy Hsin Hid).
      by symmetry.
Qed.

(** X15: when all logging goes through [quick_log_set], starting from the
    tables [load_data] builds when no file exists, the three tables have
    the ids 1, 2, 3, ... in row order, every exercise belongs to a session
    of the sessions table and carries its group, and every set belongs to
    an exercise of the exercises table. *)
Theorem quick_log_set_numbers_and_links_rows (h : heap) (p : ref * ref * ref) :
  logged h p ->
  exists S E T ss es ts,
    h !! p.1.1 = Some S /\ h !! p.1.2 = Some E /\ h !! p.2 = Some T /\
    is_sessions S ss /\ is_exercises E es /\ is_sets T ts /\
    map Session.session_id ss = seqZ 1 (Z.of_nat (length ss)) /\
    map Exercise.exercise_id es = seqZ 1 (Z.of_nat (length es)) /\
    map SetRow.set_id ts = seqZ 1 (Z.of_nat (length ts)) /\
    exercises_resolve ss es /\ sets_resolve es ts /\ groups_agree ss es.
Proof.
  intros Hlog.
  enough (exists S E T ss es ts,
    h !! p.1.1 = Some S /\ h !! p.1.2 = Some E /\ h !! p.2 = Some T /\
    is_sessions S ss /\ is_exercises E es /\ is_sets T ts /\ well_logged ss es ts)
    as (S & E & T & ss & es & ts & Hs & He & Ht & HS & HE & HT & Hw).
  { destruct Hw as (H1 & H2 & H3 & H4 & H5 & H6).
    unfold numbered in H1, H2, H3. rewrite !length_map in *.
    by exists S, E, T, ss, es, ts. }
  induction Hlog as [h p h' Hload | h p a p' h' Hlog IH Hstep].
  - destruct (run_load_data_no_files h) as (S & E & T & Hload' & HS & HE & HT).
    destruct (returns_functional _ _ _ _ _ _ Hload Hload') as [-> ->].
    exists S, E, T, [], [], []. cbn [fst snd]. split_and!; try done.
    + by rewrite lookup_app_r, Nat.sub_diag by lia.
    + rewrite lookup_app_r by lia. by replace (_ - _)%nat with 1%nat by lia.
    + rewrite lookup_app_r by lia. by replace (_ - _)%nat with 2%nat by lia.
    + unfold well_logged, exercises_resolve, sets_resolve, groups_agree.
      split_and!; try done.
      * intros e He'. by apply elem_of_nil in He'.
      * intros t Ht'. by apply elem_of_nil in Ht'.
      * intros e s He'. by apply elem_of_nil in He'.
  - destruct IH as (S & E & T & ss & es & ts & Hs & He & Ht & HS & HE & HT & Hw).
    destruct (run_quick_log_set h p.1.1 p.1.2 p.2 S E T ss es ts a
                Hs He Ht HS HE HT)
      as (rs' & re' & rt' & h1 & S' & E' & T' & Hrun & Hs' & He' & Ht' & HS' & HE' & HT').
    destruct (returns_functional _ _ _ _ _ _ Hstep Hrun) as [-> ->].
    exists S', E', T'. eexists _, _, _. split_and!; [done.. |].
    by apply quick_log_records_well_logged.
Qed.

(** The theorem after two calls from the empty tables. *)
Lemma quick_log_set_numbers_and_links_rows_witness :
  let a := LogArgs 100 "Push" "Bench" 1 (100 # 1) 5 None (Some "chest") in
  let b := LogArgs 101 "Pull" "Row" 1 (60 # 1) 10 None None in
  exists h p S E T ss es ts,
    logged h p /\
    h !! p.1.1 = Some S /\ h !! p.1.2 = Some E /\ h !! p.2 = Some T /\
    is_sessions S ss /\ is_exercises E es /\ is_sets T ts /\
    map Session.session_id ss = seqZ 1 (Z.of_nat (length ss)) /\
    map Exercise.exercise_id es = seqZ 1 (Z.of_nat (length es)) /\
    map SetRow.set_id ts = seqZ 1 (Z.of_nat (length ts)) /\
    exercises_resolve ss es /\ sets_resolve es ts /\ groups_agree ss es.
Proof.
  intros a b.
  assert (exists h p, logged h p) as (h & p & Hlog).
  { destruct (run_load_data_no_files []) as (S0 & E0 & T0 & Hload & HS0 & HE0 & HT0).
    destruct (run_quick_log_set ([] ++ [S0; E0; T0]) 0%nat 1%nat 2%nat S0 E0 T0
                [] [] [] a eq_refl eq_refl eq_refl HS0 HE0 HT0)
      as (rs1 & re1 & rt1 & h1 & S1 & E1 & T1 & Hrun1 & Hs1 & He1 & Ht1 & HS1 & HE1 & HT1).
    destruct (run_quick_log_set h1 rs1 re1 rt1 S1 E1 T1 _ _ _ b Hs1 He1 Ht1 HS1 HE1 HT1)
      as (rs2 & re2 & rt2 & h2 & S2 & E2 & T2 & Hrun2 & _).
    exists h2, (rs2, re2, rt2).
    refine (logged_step h1 (rs1, re1, rt1) b _ _ _ Hrun2).
    refine (logged_step _ (0%nat, 1%nat, 2%nat) a _ _ _ Hrun1).
    exact (logged_start _ _ _ Hload). }
  destruct (quick_log_set_numbers_and_links_rows h p Hlog)
    as (S & E & T & ss & es & ts & H).
  exists h, p, S, E, T, ss, es, ts. split; [exact Hlog | exact H].
Defined.
(** ** Tables without the columns the program reads *)

Lemma run_merge_missing_key h l r x y on ls rs :
  h !! l = Some x -> h !! r = Some y ->
  has_column on x && has_column on y = false ->
  pd.merge l r on ls rs h = (inl (KeyError on), h).
Proof.
  intros Hl Hr Hk. unfold pd.merge.
  rewrite (run_bind _ _ _ _ _ (run_deref _ _ _ Hl)).
  rewrite (run_bind _ _ _ _ _ (run_deref _ _ _ Hr)).
  erewrite run_bind_exn; [reflexivity |].
  unfold lift, merge_left. by rewrite Hk.
Qed.

(** X18: when the sets table or the exercises table has no exercise_id
    column, the joined view raises KeyError 'exercise_id', and so do
    [exercise_history] and [exercise_progress], whatever the exercise name
    and the metric; nothing is created and nothing is changed. *)
Theorem joined_view_needs_exercise_id (h : heap) (rs re rt : ref) (E T : DataFrame) :
  h !! re = Some E -> h !! rt = Some T ->
  has_column "exercise_id" T && has_column "exercise_id" E = false ->
  _joined_sets rs re rt h = (inl (KeyError "exercise_id"), h) /\
  (forall name,
     exercise_history rs re rt name h = (inl (KeyError "exercise_id"), h)) /\
  (forall name metric,
     exercise_progress rs re rt name metric h = (inl (KeyError "exercise_id"), h)).
Proof.
  intros He Ht Hk.
  assert (_joined_sets rs re rt h = (inl (KeyError "exercise_id"), h)) as Hj.
  { unfold _joined_sets. erewrite run_bind_exn; [reflexivity |].
    by apply (run_merge_missing_key h rt re T E). }
  assert (forall name,
            exercise_history rs re rt name h = (inl (KeyError "exercise_id"), h)) as Hh.
  { intros name. unfold exercise_history. by rewrite (run_bind_exn _ _ _ _ _ Hj). }
  split_and!; [done | done |].
  intros name metric. rewrite exercise_progress_unfold.
  by rewrite (run_bind_exn _ _ _ _ _ (Hh name)).
Qed.

(** The theorem on a sets table that was given the sessions columns. *)
Lemma joined_view_needs_exercise_id_witness :
  let E := frame_of exercises_columns [] in
  let T := frame_of sessions_columns [] in
  _joined_sets 0%nat 0%nat 1%nat [E; T] = (inl (KeyError "exercise_id"), [E; T]) /\
  (forall name,
     exercise_history 0%nat 0%nat 1%nat name [E; T]
     = (inl (KeyError "exercise_id"), [E; T])) /\
  (forall name metric,
     exercise_progress 0%nat 0%nat 1%nat name metric [E; T]
     = (inl (KeyError "exercise_id"), [E; T])).
Proof.
  intros E T.
  apply (joined_view_needs_exercise_id [E; T] 0%nat 0%nat 1%nat E T).
  - reflexivity.
  - reflexivity.
  - reflexivity.
Defined.

(** X19: [quick_log_set] reads the sessions table first.  When that table
    has no date column it raises KeyError 'date', and when it has a date
    column but no group column KeyError 'group'; in both cases before any
    row or table is created, whatever the other two tables are. *)
Theorem quick_log_set_needs_date_and_group (h : heap) (rs re rt : ref)
  (S : DataFrame) (a : log_args) :
  h !! rs = Some S ->
  (has_column "date" S = false ->
   call_quick_log_set rs re rt a h = (inl (KeyError "date"), h)) /\
  (has_column "date" S = true -> has_column "group" S = false ->
   call_quick_log_set rs re rt a h = (inl (KeyError "group"), h)).
Proof.
  intros Hs. unfold call_quick_log_set, quick_log_set, has_column. split.
  - intros Hd. erewrite run_bind_exn; [reflexivity |].
    rewrite (run_getitem _ _ _ _ Hs). unfold column.
    by destruct (dtype_of "date" (schema S)).
  - intros Hd Hg.
    destruct (dtype_of "date" (schema S)) as [dt|] eqn:Edate; [| done].
    erewrite run_bind; last first.
    { rewrite (run_getitem _ _ _ _ Hs). unfold column. by rewrite Edate. }
    erewrite run_bind_exn; [reflexivity |].
    rewrite (run_getitem _ _ _ _ Hs). unfold column.
    by destruct (dtype_of "group" (schema S)).
Qed.

(** The theorem on an exercises table passed in the place of the sessions
    table, and on a table with a date column only. *)
Lemma quick_log_set_needs_date_and_group_witness :
  let E := frame_of exercises_columns [] in
  let D := frame_of ["date"] [] in
  let a := LogArgs 100 "Push" "Bench" 1 (100 # 1) 5 None None in
  call_quick_log_set 0%nat 0%nat 0%nat a [E; D] = (inl (KeyError "date"), [E; D]) /\
  call_quick_log_set 1%nat 0%nat 0%nat a [E; D] = (inl (KeyError "group"), [E; D]).
Proof.
  intros E D a. split.
  - apply (proj1 (quick_log_set_needs_date_and_group [E; D] 0%nat 0%nat 0%nat E a
                    eq_refl)).
    reflexivity.
  - apply (proj2 (quick_log_set_needs_date_and_group [E; D] 1%nat 0%nat 0%nat D a
                    eq_refl)).
    + reflexivity.
    + reflexivity.
Defined.
(** ** The week columns *)

Lemma run_add_week_columns_no_date (h : heap) (rs : ref) (S : DataFrame) :
  h !! rs = Some S -> dtype_of "date" (schema S) = None ->
  add_week_columns rs h = (inl (KeyError "date"), h ++ [S]).
Proof.
  intros Hs Hdt. unfold add_week_columns.
  erewrite run_bind by (apply run_copy; exact Hs).
  erewrite run_bind_exn; [reflexivity |].
  rewrite (run_getitem _ _ _ _ (lookup_new _ _)). unfold column. by rewrite Hdt.
Qed.

(** X14: [add_week_columns] works on a copy.  On a sessions table whose
    date column holds datetimes it returns a new frame with the same rows
    in the same order, each followed by the ISO week and the calendar year
    of its date, under the columns week and year; the table it was given
    keeps its four columns.  When the date column is not a datetime column
    (as in the table without rows that [_empty_sessions_df] builds) it
    raises AttributeError, and without a date column KeyError. *)
Theorem add_week_columns_extends_a_copy (h : heap) (rs : ref) (S : DataFrame) :
  h !! rs = Some S ->
  (forall ss, table sessions_columns session_row S ss ->
     dtype_of "date" (schema S) = Some datetime64 ->
     exists r h' Sw,
       returns (add_week_columns rs) h r h' /\ h' !! r = Some Sw /\
       r <> rs /\ h' !! rs = Some S /\
       columns Sw = sessions_columns ++ ["week"; "year"] /\
       rows Sw = map (fun s => session_row s ++
                        [("week", Int (Calendar.iso_week (Session.date s)));
                         ("year", Int (Calendar.year (Session.date s)))]) ss) /\
  (forall dty, dtype_of "date" (schema S) = Some dty -> dty <> datetime64 ->
     exists h',
       add_week_columns rs h
       = (inl (AttributeError "Can only use .dt accessor with datetimelike values"), h')
       /\ h' !! rs = Some S) /\
  (dtype_of "date" (schema S) = None ->
     exists h', add_week_columns rs h = (inl (KeyError "date"), h') /\ h' !! rs = Some S).
Proof.
  intros Hs. split_and!.
  - intros ss HS Hdt.
    destruct (run_add_week_columns h rs S ss Hs HS Hdt) as (Sw & Hrun & [Hc Hr] & _).
    exists (length h), (h ++ [Sw]), Sw. split_and!.
    + exact Hrun.
    + apply lookup_new.
    + apply lookup_lt_Some in Hs. lia.
    + by apply lookup_old.
    + exact Hc.
    + exact Hr.
  - intros dty Hdt Hne. exists (h ++ [S]). split.
    + by apply (run_add_week_columns_raises h rs S dty).
    + by apply lookup_old.
  - intros Hdt. exists (h ++ [S]). split.
    + by apply run_add_week_columns_no_date.
    + by apply lookup_old.
Qed.

(** The theorem on a table with two sessions, and on the sessions table
    without rows. *)
Lemma add_week_columns_extends_a_copy_witness :
  let d1 := Calendar.days_from_civil 2024 6 3 in
  let d2 := Calendar.days_from_civil 2024 12 30 in
  let ss := [Session.mk 1 d1 "Push" ""; Session.mk 2 d2 "Pull" ""] in
  let S := frame_of sessions_columns (map session_row ss) in
  let S0 := frame_of sessions_columns [] in
  let E0 := frame_of exercises_columns [] in
  (exists r h' Sw,
     returns (add_week_columns 0%nat) [S; S0] r h' /\ h' !! r = Some Sw /\
     r <> 0%nat /\ h' !! 0%nat = Some S /\
     columns Sw = sessions_columns ++ ["week"; "year"] /\
     rows Sw = map (fun s => session_row s ++
                      [("week", Int (Calendar.iso_week (Session.date s)));
                       ("year", Int (Calendar.year (Session.date s)))]) ss) /\
  (exists h',
     add_week_columns 1%nat [S; S0]
     = (inl (AttributeError "Can only use .dt accessor with datetimelike values"), h')
     /\ h' !! 1%nat = Some S0) /\
  (exists h',
     add_week_columns 0%nat [E0] = (inl (KeyError "date"), h') /\ h' !! 0%nat = Some E0).
Proof.
  intros d1 d2 ss S S0 E0. split_and!.
  - apply (proj1 (add_week_columns_extends_a_copy [S; S0] 0%nat S eq_refl) ss).
    + split; reflexivity.
    + reflexivity.
  - apply (proj1 (proj2 (add_week_columns_extends_a_copy [S; S0] 1%nat S0 eq_refl))
             object).
    + reflexivity.
    + discriminate.
  - apply (proj2 (proj2 (add_week_columns_extends_a_copy [E0] 0%nat E0 eq_refl))).
    reflexivity.
Defined.
(** ** Progress of an exercise whose session does not resolve *)

Lemma progress_without_dates (h : heap) (rs re rt : ref) (S E T d1 d2 : DataFrame)
  (js : list joined) (name metric : string) :
  h !! rs = Some S -> h !! re = Some E -> h !! rt = Some T ->
  merge_left T E "exercise_id" "" "_ex" = inr d1 ->
  merge_left d1 S "session_id" "" "_sess" = inr d2 ->
  let J := rename_columns renaming d2 in
  columns J = joined_columns -> rows J = map (joined_row no_extra) js ->
  rows (history_frame name J) <> [] ->
  (forall x, x ∈ rows (history_frame name J) -> get "session_date" x = NaN) ->
  metric ∈ ["top_set_weight"; "total_volume"; "e1rm"] ->
  exists r h' P,
    returns (exercise_progress rs re rt name metric) h r h' /\ h' !! r = Some P /\
    columns P = progress_columns /\ rows P = [].
Proof.
  intros Hs He Ht H1 H2 J Hcols Hrows Hne Hnodate Hmetric.
  pose proof (run_exercise_history h rs re rt S E T d1 d2 name
                Hs He Ht H1 H2 Hcols) as Hhist.
  cbv zeta in Hhist. fold J in Hhist.
  set (hH := h ++ [d1; d2; J; loc_rows (map (named name) (rows J)) J;
                   history_frame name J]) in *.
  assert (hH !! (length h + 4)%nat = Some (history_frame name J)) as HrH.
  { unfold hH. rewrite lookup_app_r by lia. by replace (_ - _)%nat with 4%nat by lia. }
  destruct (run_progress_of_history hH (length h + 4)%nat (history_frame name J)
              metric HrH Hcols Hne (history_rows name J _ _ Hrows) Hmetric)
    as (Hf' & G & P & dates & Hrun & _ & Hin & Hall).
  assert (frame_empty (history_frame name J) = false) as Hfe.
  { rewrite frame_empty_history by done. by destruct (rows (history_frame name J)). }
  destruct (progress_of_history_columns hH _ (history_frame name J) metric _ _
              HrH Hfe Hrun) as (P' & HP' & HcP').
  assert (P' = P) as ->.
  { rewrite lookup_app_r in HP' by (rewrite length_insert; lia).
    rewrite length_insert in HP'.
    replace (_ - _)%nat with 1%nat in HP' by lia. by injection HP'. }
  eexists _, _, P. split_and!; [| exact HP' | done |].
  - split.
    + rewrite exercise_progress_unfold, (run_bind _ _ _ _ _ (proj1 Hhist)).
      exact Hrun.
    + etrans; [| by apply prefix_app_r]. unfold hH. apply history_then. cbn. lia.
  - assert (dates = []) as ->.
    { destruct dates as [|d dates]; [done |]. exfalso.
      destruct (proj1 (Hin d) (list_elem_of_here _ _)) as (x & Hx & Hd).
      by rewrite (Hnodate x Hx) in Hd. }
    by apply Forall2_nil_inv_l in Hall.
Qed.

(** X20: sets of an exercise whose session does not resolve are in no row
    of the progress report.  When the exercises of the given name have
    sets, but none of these exercises has the id of a session as its
    session_id, [exercise_progress] for a known metric raises nothing and
    returns a frame with the columns session_date and value and no row. *)
Theorem exercise_progress_skips_undated_sets (h : heap) (rs re rt : ref)
  (S E T : DataFrame) ss es ts (name metric : string) (t : SetRow.t) (e : Exercise.t) :
  h !! rs = Some S -> h !! re = Some E -> h !! rt = Some T ->
  is_sessions S ss -> is_exercises E es -> is_sets T ts ->
  metric ∈ ["top_set_weight"; "total_volume"; "e1rm"] ->
  t ∈ ts -> e ∈ es -> SetRow.exercise_id t = Exercise.exercise_id e ->
  Exercise.exercise_name e = name ->
  (forall e' s, e' ∈ es -> s ∈ ss -> Exercise.exercise_name e' = name ->
                Session.session_id s <> Exercise.session_id e') ->
  exists r h' P,
    returns (exercise_progress rs re rt name metric) h r h' /\ h' !! r = Some P /\
    columns P = progress_columns /\ rows P = [].
Proof.
  intros Hs He Ht HS HE HT Hmetric Htin Hein Hte Hname Hdangling.
  destruct (joined_frame S E T ss es ts HS HE HT)
    as (d1 & d2 & H1 & H2 & [Hcols Hrows] & _).
  apply (progress_without_dates h rs re rt S E T d1 d2 (joined_records ss es ts)
           name metric); try done.
  - (* the history has a row: the set [t] under [e] *)
    destruct (left_join_keeps session_of (left_join exercise_of ts es) ss (t, Some e))
      as [os Hj].
    { apply in_left_join; [done | done |]. unfold exercise_of. by apply Z.eqb_eq. }
    fold (joined_records ss es ts) in Hj.
    intros Hnil.
    assert (joined_row no_extra (t, Some e, os) ∈ rows (history_frame name
              (rename_columns renaming d2))) as Hin.
    { rewrite rows_history, (isort_perm (row_leb history_keys)).
      apply list_elem_of_In, filter_In. split.
      - apply list_elem_of_In. rewrite Hrows. apply list_elem_of_fmap. by eexists.
      - unfold named. apply bool_decide_eq_true_2. cbn. by rewrite Hname. }
    rewrite Hnil in Hin. by apply elem_of_nil in Hin.
  - (* no row of the history has a date *)
    intros x Hx. rewrite rows_history, (isort_perm (row_leb history_keys)) in Hx.
    apply list_elem_of_In, filter_In in Hx as [Hx Hnamed].
    apply list_elem_of_In in Hx. rewrite Hrows in Hx.
    apply list_elem_of_fmap in Hx as ([[t' oe] os] & -> & Hj).
    apply joined_records_sound in Hj as (_ & Hoe & Hos).
    destruct os as [s|]; [| done]. exfalso.
    destruct (Hos s eq_refl) as (e' & -> & Hsin & Hsid).
    destruct (Hoe e' eq_refl) as [Hein' _].
    unfold named in Hnamed. apply bool_decide_eq_true_1 in Hnamed. cbn in Hnamed.
    injection Hnamed as Hnm. by apply (Hdangling e' s).
Qed.

(** The theorem on a bench exercise whose session 9 does not exist. *)
Lemma exercise_progress_skips_undated_sets_witness :
  let ss := [Session.mk 1 100 "Push" ""] in
  let e := Exercise.mk 1 9 "Bench" "chest" "Push" in
  let t := SetRow.mk 1 1 1 (100 # 1) 5 None "" in
  let S := frame_of sessions_columns (map session_row ss) in
  let E := frame_of exercises_columns (map exercise_row [e]) in
  let T := frame_of sets_columns (map set_row [t]) in
  exists r h' P,
    returns (exercise_progress 0%nat 1%nat 2%nat "Bench" "e1rm") [S; E; T] r h' /\
    h' !! r = Some P /\ columns P = progress_columns /\ rows P = [].
Proof.
  intros ss e t S E T.
  apply (exercise_progress_skips_undated_sets [S; E; T] 0%nat 1%nat 2%nat S E T
           ss [e] [t] "Bench" "e1rm" t e).
  - reflexivity.
  - reflexivity.
  - reflexivity.
  - split; [split |]; reflexivity.
  - split; reflexivity.
  - split; reflexivity.
  - apply list_elem_of_further, list_elem_of_further, list_elem_of_here.
  - apply list_elem_of_here.
  - apply list_elem_of_here.
  - reflexivity.
  - reflexivity.
  - intros e' s He' Hs' _. apply list_elem_of_singleton in He', Hs'. subst e' s.
    simpl. lia.
Defined.
